(** * The exam-lockdown hook [useFullScreenExamSecurity]

    A shallow embedding of the three versions of the React hook found in the
    repository, and the properties of the violation state machine, the event
    gateway and the fullscreen lifecycle established on it.

    - [Basic]    : the first hook of [src/unnamed/part_000] (no master switch);
    - [Enhanced] : the second hook of [src/unnamed/part_000] (developer-tools
                   heuristic, wider set of keyboard chords, [startExam] only
                   arms the counter);
    - [Toggle]   : the hook of [src/unnamed/part_001] (master switch, fused
                   fullscreen request in [startExam]).

    Modelling conventions.
    - JavaScript numbers that the hook handles ([violations],
      [maxViolations], window sizes, times in ms) are integers: [Z].
    - React state: [violations] is the state cell; every function the hook
      creates closes over the values of the render that created it
      ([Closure]); a render happens after each step that changed the state
      or the props, before the next signal is delivered.
    - The ref [isHandlingViolation] and the ref [devToolsCheckInterval] are
      mutable cells of the [World], shared by all renders.
    - The browser: a registry of listeners, the active intervals, the pending
      timeouts (all of them release the latch), the clock, and the ambient
      document/window state [Env].
    - Everything the hook does to the outside is appended to [trace].
    - [await document.documentElement.requestFullscreen()] is one step whose
      outcome (granted or rejected) is chosen by the browser.
    - Timeouts run when the clock reaches their due time; the periods of the
      developer-tools interval are signals the environment delivers at the
      times it chooses while the interval is active. *)

From Stdlib Require Import ZArith String Ascii List Bool Lia DecimalString.
Import ListNotations.
Open Scope string_scope.
Open Scope Z_scope.

(** ** JavaScript strings and numbers *)

Module Js.

(** [`${n}`] for an integer [n]. *)
Definition string_of_Z (z : Z) : string :=
  NilZero.string_of_int (Z.to_int z).

(** One character of [String.prototype.toLowerCase], on ASCII; the other
    bytes are kept, and no character outside ASCII lowers to one of the
    letters the hook tests for. *)
Definition lower_ascii (a : ascii) : ascii :=
  let n := nat_of_ascii a in
  if (Nat.leb 65 n && Nat.leb n 90)%bool then ascii_of_nat (n + 32) else a.

Fixpoint toLowerCase (s : string) : string :=
  match s with
  | EmptyString => EmptyString
  | String a r => String (lower_ascii a) (toLowerCase r)
  end.

(** [Array.prototype.includes] on an array of strings. *)
Definition includes (l : list string) (s : string) : bool :=
  existsb (String.eqb s) l.

(** The double-quote character of a template literal. *)
Definition dquote : string := String (ascii_of_nat 34) EmptyString.

End Js.

(** ** Data model *)

Inductive EventType : Type :=
| visibilitychange | blur | fullscreenchange | keydown
| contextmenu | dragstart | selectstart | copy | paste | cut.

Definition EventType_eqb (a b : EventType) : bool :=
  match a, b with
  | visibilitychange, visibilitychange | blur, blur
  | fullscreenchange, fullscreenchange | keydown, keydown
  | contextmenu, contextmenu | dragstart, dragstart
  | selectstart, selectstart | copy, copy | paste, paste | cut, cut => true
  | _, _ => false
  end.

(** [e.type] as a string. *)
Definition type_name (t : EventType) : string :=
  match t with
  | visibilitychange => "visibilitychange" | blur => "blur"
  | fullscreenchange => "fullscreenchange" | keydown => "keydown"
  | contextmenu => "contextmenu" | dragstart => "dragstart"
  | selectstart => "selectstart" | copy => "copy" | paste => "paste"
  | cut => "cut"
  end.

Inductive Target : Type := document | window.

Definition Target_eqb (a b : Target) : bool :=
  match a, b with
  | document, document | window, window => true
  | _, _ => false
  end.

(** The event object handed to a listener. *)
Record Event : Type := mkEvent {
  ev_type : EventType;
  ctrlKey : bool;
  altKey : bool;
  shiftKey : bool;
  key : string
}.

(** A function of the host; calling it is an observable effect. *)
Inductive Callback : Type := HostFunction.

(** The arguments of the hook. [None] is [undefined]. *)
Record Props : Type := mkProps {
  onFinishExam : option Callback;
  maxViolations : Z;
  onWarning : option Callback;
  isSecurityEnabled : bool;
  isFinalSubmission : bool
}.

(** The ambient browser state the handlers read. *)
Record Env : Type := mkEnv {
  hidden : bool;               (* document.hidden *)
  fullscreenElement : bool;    (* document.fullscreenElement is non-null *)
  outerWidth : Z;
  innerWidth : Z;
  outerHeight : Z;
  innerHeight : Z
}.

(** What the functions created by one render close over. Two function
    objects are the same object iff they were created by the same render. *)
Record Closure : Type := mkClosure {
  render_id : nat;
  cl_violations : Z;
  cl_props : Props
}.

(** The functions the effect creates. *)
Inductive FnName : Type :=
| fn_handleVisibilityChange | fn_handleBlur | fn_handleFullScreenChange
| fn_handleKeyDown | fn_handleContextMenu | fn_preventAction
| fn_preventDefault | fn_preventClipboardAction.

Definition FnName_eqb (a b : FnName) : bool :=
  match a, b with
  | fn_handleVisibilityChange, fn_handleVisibilityChange
  | fn_handleBlur, fn_handleBlur
  | fn_handleFullScreenChange, fn_handleFullScreenChange
  | fn_handleKeyDown, fn_handleKeyDown
  | fn_handleContextMenu, fn_handleContextMenu
  | fn_preventAction, fn_preventAction
  | fn_preventDefault, fn_preventDefault
  | fn_preventClipboardAction, fn_preventClipboardAction => true
  | _, _ => false
  end.

Record Listener : Type := mkListener {
  l_target : Target;
  l_type : EventType;
  l_fn : FnName;
  l_closure : Closure
}.

(** Same target, same type, same function object. *)
Definition Listener_eqb (a b : Listener) : bool :=
  Target_eqb (l_target a) (l_target b)
  && EventType_eqb (l_type a) (l_type b)
  && FnName_eqb (l_fn a) (l_fn b)
  && Nat.eqb (render_id (l_closure a)) (render_id (l_closure b)).

(** Observable effects. *)
Inductive Effect : Type :=
| CallOnWarning (message : string)
| CallOnFinishExam
| Alert (message : string)
| ConsoleError (message : string)
| ConsoleWarn (message : string)
| PreventDefault (t : EventType)
| RequestFullscreen.

Record World : Type := mkWorld {
  violations : Z;                       (* useState(-1) *)
  isHandlingViolation : bool;           (* useRef(false) *)
  devToolsCheckInterval : option nat;   (* useRef(null) *)
  props : Props;                        (* arguments of the latest render *)
  renders : nat;                        (* number of renders so far *)
  cleanup : option Closure;             (* cleanup returned by the last effect *)
  listeners : list Listener;            (* document and window listeners *)
  intervals : list (nat * Closure);     (* active setInterval(checkDevTools) *)
  next_id : nat;                        (* next timer id *)
  timeouts : list Z;                    (* due times of pending latch releases *)
  now : Z;                              (* clock, ms *)
  env : Env;
  trace : list Effect                   (* oldest first *)
}.

Definition set_violations (v : Z) (w : World) : World :=
  mkWorld v (isHandlingViolation w) (devToolsCheckInterval w) (props w)
    (renders w) (cleanup w) (listeners w) (intervals w) (next_id w)
    (timeouts w) (now w) (env w) (trace w).

Definition set_isHandlingViolation (b : bool) (w : World) : World :=
  mkWorld (violations w) b (devToolsCheckInterval w) (props w)
    (renders w) (cleanup w) (listeners w) (intervals w) (next_id w)
    (timeouts w) (now w) (env w) (trace w).

Definition set_devToolsCheckInterval (r : option nat) (w : World) : World :=
  mkWorld (violations w) (isHandlingViolation w) r (props w)
    (renders w) (cleanup w) (listeners w) (intervals w) (next_id w)
    (timeouts w) (now w) (env w) (trace w).

Definition set_props (p : Props) (w : World) : World :=
  mkWorld (violations w) (isHandlingViolation w) (devToolsCheckInterval w) p
    (renders w) (cleanup w) (listeners w) (intervals w) (next_id w)
    (timeouts w) (now w) (env w) (trace w).

Definition set_renders (n : nat) (w : World) : World :=
  mkWorld (violations w) (isHandlingViolation w) (devToolsCheckInterval w)
    (props w) n (cleanup w) (listeners w) (intervals w) (next_id w)
    (timeouts w) (now w) (env w) (trace w).

Definition set_cleanup (c : option Closure) (w : World) : World :=
  mkWorld (violations w) (isHandlingViolation w) (devToolsCheckInterval w)
    (props w) (renders w) c (listeners w) (intervals w) (next_id w)
    (timeouts w) (now w) (env w) (trace w).

Definition set_listeners (l : list Listener) (w : World) : World :=
  mkWorld (violations w) (isHandlingViolation w) (devToolsCheckInterval w)
    (props w) (renders w) (cleanup w) l (intervals w) (next_id w)
    (timeouts w) (now w) (env w) (trace w).

Definition set_intervals (l : list (nat * Closure)) (w : World) : World :=
  mkWorld (violations w) (isHandlingViolation w) (devToolsCheckInterval w)
    (props w) (renders w) (cleanup w) (listeners w) l (next_id w)
    (timeouts w) (now w) (env w) (trace w).

Definition set_next_id (n : nat) (w : World) : World :=
  mkWorld (violations w) (isHandlingViolation w) (devToolsCheckInterval w)
    (props w) (renders w) (cleanup w) (listeners w) (intervals w) n
    (timeouts w) (now w) (env w) (trace w).

Definition set_timeouts (l : list Z) (w : World) : World :=
  mkWorld (violations w) (isHandlingViolation w) (devToolsCheckInterval w)
    (props w) (renders w) (cleanup w) (listeners w) (intervals w) (next_id w)
    l (now w) (env w) (trace w).

Definition set_now (t : Z) (w : World) : World :=
  mkWorld (violations w) (isHandlingViolation w) (devToolsCheckInterval w)
    (props w) (renders w) (cleanup w) (listeners w) (intervals w) (next_id w)
    (timeouts w) t (env w) (trace w).

Definition set_env (e : Env) (w : World) : World :=
  mkWorld (violations w) (isHandlingViolation w) (devToolsCheckInterval w)
    (props w) (renders w) (cleanup w) (listeners w) (intervals w) (next_id w)
    (timeouts w) (now w) e (trace w).

Definition set_trace (t : list Effect) (w : World) : World :=
  mkWorld (violations w) (isHandlingViolation w) (devToolsCheckInterval w)
    (props w) (renders w) (cleanup w) (listeners w) (intervals w) (next_id w)
    (timeouts w) (now w) (env w) t.

Definition set_fullscreenElement (b : bool) (e : Env) : Env :=
  mkEnv (hidden e) b (outerWidth e) (innerWidth e) (outerHeight e)
    (innerHeight e).

(** ** Computations: state, and JavaScript exceptions

    A thrown exception keeps the effects done before it. For an [async]
    function, [Normal v] is a promise resolved with [v] and [Thrown e] a
    promise rejected with [e]. *)

Inductive Result (A : Type) : Type :=
| Normal (a : A)
| Thrown (err : string).
Arguments Normal {A} a.
Arguments Thrown {A} err.

Definition M (A : Type) : Type := World -> Result A * World.

Definition ret {A} (a : A) : M A := fun w => (Normal a, w).

Definition bind {A B} (m : M A) (k : A -> M B) : M B :=
  fun w =>
    match m w with
    | (Normal a, w') => k a w'
    | (Thrown e, w') => (Thrown e, w')
    end.

Definition throw {A} (e : string) : M A := fun w => (Thrown e, w).

(** [try { body } catch (err) { handler(err) }] *)
Definition try_catch {A} (body : M A) (handler : string -> M A) : M A :=
  fun w =>
    match body w with
    | (Normal a, w') => (Normal a, w')
    | (Thrown e, w') => handler e w'
    end.

Definition read {A} (f : World -> A) : M A := fun w => (Normal (f w), w).
Definition modify (f : World -> World) : M unit := fun w => (Normal tt, f w).

Declare Scope js_scope.
Delimit Scope js_scope with js.
Notation "x <- m ;; k" := (bind m (fun x => k))
  (at level 61, m at next level, right associativity) : js_scope.
Notation "m ;; k" := (bind m (fun _ => k))
  (at level 61, right associativity) : js_scope.
Open Scope js_scope.

(** [when c body] is [if (c) { body }]. *)
Definition when (c : bool) (body : M unit) : M unit :=
  if c then body else ret tt.

(** ** Browser and React primitives *)

Definition emit (e : Effect) : M unit :=
  modify (fun w => set_trace (trace w ++ [e]) w).

(** [f?.()] and [f?.(message)]: nothing happens when [f] is [undefined]. *)
Definition optional_call (f : option Callback) (e : Effect) : M unit :=
  match f with
  | Some _ => emit e
  | None => ret tt
  end.

(** [f()] without optional chaining: a [TypeError] when [f] is [undefined]. *)
Definition plain_call (f : option Callback) (e : Effect) : M unit :=
  match f with
  | Some _ => emit e
  | None => throw "TypeError: not a function"
  end.

Definition setViolations (n : Z) : M unit := modify (set_violations n).

(** [e.preventDefault()] *)
Definition e_preventDefault (e : Event) : M unit :=
  emit (PreventDefault (ev_type e)).

Definition alert (message : string) : M unit := emit (Alert message).

(** [setTimeout(() => { isHandlingViolation.current = false; }, ms)] *)
Definition setTimeout_release (ms : Z) : M unit :=
  modify (fun w => set_timeouts (timeouts w ++ [now w + ms]) w).

Definition addEventListener (t : Target) (ty : EventType) (f : FnName)
    (c : Closure) : M unit :=
  modify (fun w =>
    let l := mkListener t ty f c in
    if existsb (Listener_eqb l) (listeners w) then w
    else set_listeners (listeners w ++ [l]) w).

Definition removeEventListener (t : Target) (ty : EventType) (f : FnName)
    (c : Closure) : M unit :=
  modify (fun w =>
    set_listeners
      (filter (fun l => negb (Listener_eqb (mkListener t ty f c) l))
         (listeners w)) w).

(** [setInterval(checkDevTools, 1000)]; timer ids are positive. *)
Definition setInterval_checkDevTools (c : Closure) : M nat :=
  fun w =>
    let id := next_id w in
    (Normal id, set_next_id (S id) (set_intervals (intervals w ++ [(id, c)]) w)).

Definition clearInterval (id : nat) : M unit :=
  modify (fun w =>
    set_intervals (filter (fun ic => negb (Nat.eqb (fst ic) id)) (intervals w)) w).

(** [await document.documentElement.requestFullscreen()], with the browser's
    answer. *)
Definition requestFullscreen (granted : bool) : M unit :=
  emit RequestFullscreen ;;
  if granted
  then modify (fun w => set_env (set_fullscreenElement true (env w)) w)
  else throw "TypeError: fullscreen request denied".

Definition console_error (message err : string) : M unit :=
  emit (ConsoleError (message ++ " " ++ err)).

Definition console_warn (message : string) : M unit :=
  emit (ConsoleWarn message).

(** ** The first hook of [src/unnamed/part_000] *)

Module BasicHook.

Definition handleViolation (c : Closure) (reason : string) : M unit :=
  handling <- read isHandlingViolation ;;
  if handling then ret tt else
  modify (set_isHandlingViolation true) ;;
  let newCount := cl_violations c + 1 in
  setViolations newCount ;;
  (if newCount <=? maxViolations (cl_props c) then
     let message :=
       if newCount =? maxViolations (cl_props c) then
         "FINAL WARNING: You have attempted to leave the exam "
         ++ Js.string_of_Z newCount
         ++ " times. One more violation will result in automatic submission."
       else
         "Warning: You attempted to leave the exam window. This is violation "
         ++ Js.string_of_Z newCount ++ " of "
         ++ Js.string_of_Z (maxViolations (cl_props c))
         ++ ". Please remain in the exam." in
     optional_call (onWarning (cl_props c)) (CallOnWarning message)
   else
     optional_call (onFinishExam (cl_props c)) CallOnFinishExam) ;;
  setTimeout_release 500.

Definition handleVisibilityChange (c : Closure) : M unit :=
  h <- read (fun w => hidden (env w)) ;;
  when h (handleViolation c "Switched tabs").

Definition handleBlur (c : Closure) : M unit :=
  fs <- read (fun w => fullscreenElement (env w)) ;;
  when fs (handleViolation c "Left exam window").

Definition handleFullScreenChange (c : Closure) : M unit :=
  fs <- read (fun w => fullscreenElement (env w)) ;;
  when (negb fs) (handleViolation c "Exited fullscreen").

Definition handleKeyDown (c : Closure) (e : Event) : M unit :=
  when (ctrlKey e && (String.eqb (key e) "t" || String.eqb (key e) "n"
                      || String.eqb (key e) "w"))
    (e_preventDefault e ;;
     handleViolation c "Tried to open or close a tab/window") ;;
  when (ctrlKey e && String.eqb (key e) "Tab")
    (e_preventDefault e ;;
     handleViolation c "Tried to switch tabs") ;;
  when (altKey e && String.eqb (key e) "Tab")
    (e_preventDefault e ;;
     handleViolation c "Tried to switch applications").

Definition handleContextMenu (e : Event) : M unit :=
  e_preventDefault e.

Definition preventAction (e : Event) : M unit :=
  e_preventDefault e ;;
  alert "This action is disabled during the exam.".

(** The function object [f] of render [c], applied to [e]. *)
Definition call (f : FnName) (c : Closure) (e : Event) : M unit :=
  match f with
  | fn_handleVisibilityChange => handleVisibilityChange c
  | fn_handleBlur => handleBlur c
  | fn_handleFullScreenChange => handleFullScreenChange c
  | fn_handleKeyDown => handleKeyDown c e
  | fn_handleContextMenu => handleContextMenu e
  | fn_preventAction => preventAction e
  | fn_preventDefault | fn_preventClipboardAction => ret tt
  end.

(** The function the effect returns. *)
Definition effect_cleanup (c : Closure) : M unit :=
  removeEventListener document visibilitychange fn_handleVisibilityChange c ;;
  removeEventListener window blur fn_handleBlur c ;;
  removeEventListener document fullscreenchange fn_handleFullScreenChange c ;;
  removeEventListener document keydown fn_handleKeyDown c ;;
  removeEventListener document contextmenu fn_handleContextMenu c ;;
  removeEventListener document copy fn_preventAction c ;;
  removeEventListener document paste fn_preventAction c ;;
  removeEventListener document cut fn_preventAction c.

(** The body of [useEffect]; the result is the cleanup it returns, named by
    the render that created it. *)
Definition useEffect (c : Closure) : M (option Closure) :=
  if cl_violations c =? -1 then ret None else
  addEventListener document visibilitychange fn_handleVisibilityChange c ;;
  addEventListener window blur fn_handleBlur c ;;
  addEventListener document fullscreenchange fn_handleFullScreenChange c ;;
  addEventListener document keydown fn_handleKeyDown c ;;
  addEventListener document contextmenu fn_handleContextMenu c ;;
  addEventListener document copy fn_preventAction c ;;
  addEventListener document paste fn_preventAction c ;;
  addEventListener document cut fn_preventAction c ;;
  ret (Some c).

Definition startExam (granted : bool) : M bool :=
  try_catch
    (requestFullscreen granted ;;
     setViolations 0 ;;
     ret true)
    (fun err =>
       alert "Fullscreen mode is required to start the exam. Please allow it and try again." ;;
       ret false).

Definition reEnterFullScreen (c : Closure) (granted : bool) : M unit :=
  try_catch
    (fs <- read (fun w => fullscreenElement (env w)) ;;
     when (negb fs) (requestFullscreen granted))
    (fun err =>
       console_error "Could not re-enter fullscreen:" err ;;
       optional_call (onFinishExam (cl_props c)) CallOnFinishExam).

End BasicHook.

(** ** The second hook of [src/unnamed/part_000] *)

Module EnhancedHook.

Definition handleViolation (c : Closure) (reason : string) : M unit :=
  handling <- read isHandlingViolation ;;
  if handling then ret tt else
  modify (set_isHandlingViolation true) ;;
  let newCount := cl_violations c + 1 in
  setViolations newCount ;;
  (if newCount <=? maxViolations (cl_props c) then
     let message :=
       if newCount =? maxViolations (cl_props c) then
         "FINAL WARNING: You have attempted to leave the exam (" ++ reason
         ++ "). One more violation will result in automatic submission."
       else
         "Warning: You attempted to leave the exam window (" ++ reason
         ++ "). This is violation " ++ Js.string_of_Z newCount ++ " of "
         ++ Js.string_of_Z (maxViolations (cl_props c)) ++ "." in
     optional_call (onWarning (cl_props c)) (CallOnWarning message)
   else
     optional_call (onFinishExam (cl_props c)) CallOnFinishExam) ;;
  setTimeout_release 500.

Definition handleVisibilityChange (c : Closure) : M unit :=
  h <- read (fun w => hidden (env w)) ;;
  when h (handleViolation c "switched tabs").

Definition handleBlur (c : Closure) : M unit :=
  fs <- read (fun w => fullscreenElement (env w)) ;;
  when fs (handleViolation c "switched window").

Definition handleFullScreenChange (c : Closure) : M unit :=
  fs <- read (fun w => fullscreenElement (env w)) ;;
  when (negb fs) (handleViolation c "exited fullscreen").

Definition preventDefault (e : Event) : M unit :=
  e_preventDefault e.

Definition preventClipboardAction (e : Event) : M unit :=
  e_preventDefault e ;;
  alert ("The " ++ Js.dquote ++ type_name (ev_type e) ++ Js.dquote
         ++ " action is disabled during the exam.").

Definition handleKeyDown (c : Closure) (e : Event) : M unit :=
  when (ctrlKey e
        && Js.includes ["t"; "n"; "w"; "p"; "s"; "o"; "u"]
             (Js.toLowerCase (key e)))
    (e_preventDefault e ;;
     handleViolation c "used a restricted shortcut") ;;
  when ((ctrlKey e || altKey e) && String.eqb (key e) "Tab")
    (e_preventDefault e ;;
     handleViolation c "tried to switch tabs/windows") ;;
  when (String.eqb (key e) "F12"
        || (ctrlKey e && shiftKey e
            && Js.includes ["i"; "j"; "c"] (Js.toLowerCase (key e))))
    (e_preventDefault e ;;
     handleViolation c "tried to open developer tools").

Definition threshold : Z := 160.

Definition checkDevTools (c : Closure) : M unit :=
  ev <- read env ;;
  when ((outerWidth ev - innerWidth ev >? threshold)
        || (outerHeight ev - innerHeight ev >? threshold))
    (handling <- read isHandlingViolation ;;
     when (negb handling) (handleViolation c "developer tools opened")).

Definition call (f : FnName) (c : Closure) (e : Event) : M unit :=
  match f with
  | fn_handleVisibilityChange => handleVisibilityChange c
  | fn_handleBlur => handleBlur c
  | fn_handleFullScreenChange => handleFullScreenChange c
  | fn_handleKeyDown => handleKeyDown c e
  | fn_preventDefault => preventDefault e
  | fn_preventClipboardAction => preventClipboardAction e
  | fn_handleContextMenu | fn_preventAction => ret tt
  end.

(** [if (devToolsCheckInterval.current) clearInterval(...)] *)
Definition clear_devTools_interval : M unit :=
  r <- read devToolsCheckInterval ;;
  match r with
  | Some id => clearInterval id
  | None => ret tt
  end.

Definition effect_cleanup (c : Closure) : M unit :=
  removeEventListener document visibilitychange fn_handleVisibilityChange c ;;
  removeEventListener window blur fn_handleBlur c ;;
  removeEventListener document fullscreenchange fn_handleFullScreenChange c ;;
  removeEventListener document keydown fn_handleKeyDown c ;;
  removeEventListener document contextmenu fn_preventDefault c ;;
  removeEventListener document dragstart fn_preventDefault c ;;
  removeEventListener document selectstart fn_preventDefault c ;;
  removeEventListener document copy fn_preventClipboardAction c ;;
  removeEventListener document paste fn_preventClipboardAction c ;;
  removeEventListener document cut fn_preventClipboardAction c ;;
  clear_devTools_interval.

Definition useEffect (c : Closure) : M (option Closure) :=
  if negb (isSecurityEnabled (cl_props c)) || (cl_violations c =? -1)
     || isFinalSubmission (cl_props c)
  then clear_devTools_interval ;; ret None
  else
  id <- setInterval_checkDevTools c ;;
  modify (set_devToolsCheckInterval (Some id)) ;;
  addEventListener document visibilitychange fn_handleVisibilityChange c ;;
  addEventListener window blur fn_handleBlur c ;;
  addEventListener document fullscreenchange fn_handleFullScreenChange c ;;
  addEventListener document keydown fn_handleKeyDown c ;;
  addEventListener document contextmenu fn_preventDefault c ;;
  addEventListener document dragstart fn_preventDefault c ;;
  addEventListener document selectstart fn_preventDefault c ;;
  addEventListener document copy fn_preventClipboardAction c ;;
  addEventListener document paste fn_preventClipboardAction c ;;
  addEventListener document cut fn_preventClipboardAction c ;;
  ret (Some c).

Definition startExam : M unit :=
  setViolations 0.

Definition reEnterFullScreen (c : Closure) (granted : bool) : M unit :=
  fs <- read (fun w => fullscreenElement (env w)) ;;
  when (isSecurityEnabled (cl_props c) && negb fs)
    (try_catch
       (requestFullscreen granted)
       (fun err =>
          console_error "Could not re-enter fullscreen:" err ;;
          optional_call (onFinishExam (cl_props c)) CallOnFinishExam)).

End EnhancedHook.

(** ** The hook of [src/unnamed/part_001] *)

Module ToggleHook.

Definition handleViolation (c : Closure) (reason : string) : M unit :=
  handling <- read isHandlingViolation ;;
  if handling then ret tt else
  modify (set_isHandlingViolation true) ;;
  let newCount := cl_violations c + 1 in
  setViolations newCount ;;
  (if newCount <=? maxViolations (cl_props c) then
     let message :=
       if newCount =? maxViolations (cl_props c) then
         "FINAL WARNING: You have attempted to leave the exam "
         ++ Js.string_of_Z newCount
         ++ " times. One more violation will result in automatic submission."
       else
         "Warning: You attempted to leave the exam window. This is violation "
         ++ Js.string_of_Z newCount ++ " of "
         ++ Js.string_of_Z (maxViolations (cl_props c))
         ++ ". Please remain in the exam." in
     optional_call (onWarning (cl_props c)) (CallOnWarning message)
   else
     optional_call (onFinishExam (cl_props c)) CallOnFinishExam) ;;
  setTimeout_release 500.

Definition handleVisibilityChange (c : Closure) : M unit :=
  h <- read (fun w => hidden (env w)) ;;
  when h (handleViolation c "Switched tabs").

Definition handleBlur (c : Closure) : M unit :=
  fs <- read (fun w => fullscreenElement (env w)) ;;
  when fs (handleViolation c "Left exam window").

Definition handleFullScreenChange (c : Closure) : M unit :=
  fs <- read (fun w => fullscreenElement (env w)) ;;
  when (negb fs) (handleViolation c "Exited fullscreen").

Definition handleKeyDown (c : Closure) (e : Event) : M unit :=
  when ((ctrlKey e && (String.eqb (key e) "t" || String.eqb (key e) "n"
                       || String.eqb (key e) "w" || String.eqb (key e) "Tab"))
        || (altKey e && String.eqb (key e) "Tab"))
    (e_preventDefault e ;;
     handleViolation c "Tried a restricted keyboard shortcut").

Definition handleContextMenu (e : Event) : M unit :=
  e_preventDefault e.

Definition preventAction (e : Event) : M unit :=
  e_preventDefault e ;;
  alert "This action is disabled during the exam.".

Definition call (f : FnName) (c : Closure) (e : Event) : M unit :=
  match f with
  | fn_handleVisibilityChange => handleVisibilityChange c
  | fn_handleBlur => handleBlur c
  | fn_handleFullScreenChange => handleFullScreenChange c
  | fn_handleKeyDown => handleKeyDown c e
  | fn_handleContextMenu => handleContextMenu e
  | fn_preventAction => preventAction e
  | fn_preventDefault | fn_preventClipboardAction => ret tt
  end.

Definition effect_cleanup (c : Closure) : M unit :=
  removeEventListener document visibilitychange fn_handleVisibilityChange c ;;
  removeEventListener window blur fn_handleBlur c ;;
  removeEventListener document fullscreenchange fn_handleFullScreenChange c ;;
  removeEventListener document keydown fn_handleKeyDown c ;;
  removeEventListener document contextmenu fn_handleContextMenu c ;;
  removeEventListener document copy fn_preventAction c ;;
  removeEventListener document paste fn_preventAction c ;;
  removeEventListener document cut fn_preventAction c.

Definition useEffect (c : Closure) : M (option Closure) :=
  if negb (isSecurityEnabled (cl_props c)) || (cl_violations c =? -1)
     || isFinalSubmission (cl_props c)
  then ret None
  else
  addEventListener document visibilitychange fn_handleVisibilityChange c ;;
  addEventListener window blur fn_handleBlur c ;;
  addEventListener document fullscreenchange fn_handleFullScreenChange c ;;
  addEventListener document keydown fn_handleKeyDown c ;;
  addEventListener document contextmenu fn_handleContextMenu c ;;
  addEventListener document copy fn_preventAction c ;;
  addEventListener document paste fn_preventAction c ;;
  addEventListener document cut fn_preventAction c ;;
  ret (Some c).

Definition startExam (c : Closure) (granted : bool) : M bool :=
  if isSecurityEnabled (cl_props c) then
    try_catch
      (requestFullscreen granted ;;
       setViolations 0 ;;
       ret true)
      (fun err =>
         alert "Fullscreen mode is required for this exam. Please allow it and try again." ;;
         ret false)
  else
    console_warn "EXAM SECURITY IS DISABLED. Starting exam without fullscreen." ;;
    setViolations 0 ;;
    ret true.

Definition reEnterFullScreen (c : Closure) (granted : bool) : M unit :=
  when (isSecurityEnabled (cl_props c))
    (try_catch
       (fs <- read (fun w => fullscreenElement (env w)) ;;
        when (negb fs) (requestFullscreen granted))
       (fun err =>
          console_error "Could not re-enter fullscreen:" err ;;
          optional_call (onFinishExam (cl_props c)) CallOnFinishExam)).

End ToggleHook.

(** ** The three hooks behind one interface *)

Inductive Variant : Type := Basic | Enhanced | Toggle.

Definition handleViolation (V : Variant) : Closure -> string -> M unit :=
  match V with
  | Basic => BasicHook.handleViolation
  | Enhanced => EnhancedHook.handleViolation
  | Toggle => ToggleHook.handleViolation
  end.

Definition call_listener (V : Variant) (l : Listener) (e : Event) : M unit :=
  match V with
  | Basic => BasicHook.call (l_fn l) (l_closure l) e
  | Enhanced => EnhancedHook.call (l_fn l) (l_closure l) e
  | Toggle => ToggleHook.call (l_fn l) (l_closure l) e
  end.

Definition useEffect (V : Variant) : Closure -> M (option Closure) :=
  match V with
  | Basic => BasicHook.useEffect
  | Enhanced => EnhancedHook.useEffect
  | Toggle => ToggleHook.useEffect
  end.

Definition effect_cleanup (V : Variant) : Closure -> M unit :=
  match V with
  | Basic => BasicHook.effect_cleanup
  | Enhanced => EnhancedHook.effect_cleanup
  | Toggle => ToggleHook.effect_cleanup
  end.

(** The value the promise of [startExam] settles to; [None] is [undefined]
    (the [startExam] of [Enhanced] is synchronous and returns nothing). *)
Definition startExam (V : Variant) (c : Closure) (granted : bool)
  : M (option bool) :=
  match V with
  | Basic => b <- BasicHook.startExam granted ;; ret (Some b)
  | Enhanced => EnhancedHook.startExam ;; ret None
  | Toggle => b <- ToggleHook.startExam c granted ;; ret (Some b)
  end.

Definition reEnterFullScreen (V : Variant) : Closure -> bool -> M unit :=
  match V with
  | Basic => BasicHook.reEnterFullScreen
  | Enhanced => EnhancedHook.reEnterFullScreen
  | Toggle => ToggleHook.reEnterFullScreen
  end.

(** ** The machine: browser, React and host steps *)

(** The closure of the latest render. *)
Definition current (w : World) : Closure :=
  mkClosure (renders w) (violations w) (props w).

Definition listens (tg : Target) (e : Event) (l : Listener) : bool :=
  Target_eqb (l_target l) tg && EventType_eqb (l_type l) (ev_type e).

(** The browser calls, in order of registration, the listeners registered on
    [tg] for the type of [e]; an exception of a listener is reported on the
    console and does not stop the others. *)
Definition dispatchEvent (V : Variant) (tg : Target) (e : Event) (w : World)
  : World :=
  fold_left (fun w' l => snd (call_listener V l e w'))
    (filter (listens tg e) (listeners w)) w.

(** One period of every active interval. *)
Definition fire_intervals (w : World) : World :=
  fold_left (fun w' ic => snd (EnhancedHook.checkDevTools (snd ic) w'))
    (intervals w) w.

(** A render: the hook body runs with the current state and props, then the
    cleanup of the previous effect, then the effect. *)
Definition render (V : Variant) (w : World) : World :=
  let w1 := set_renders (S (renders w)) w in
  let w2 := match cleanup w1 with
            | Some c0 => snd (effect_cleanup V c0 w1)
            | None => w1
            end in
  let r := useEffect V (current w1) w2 in
  set_cleanup (match fst r with Normal k => k | Thrown _ => None end) (snd r).

(** React renders again when the state changed. *)
Definition rerender (V : Variant) (before after : World) : World :=
  if violations after =? violations before then after else render V after.

(** Time passes: the timeouts that are due run, each releasing the latch. *)
Definition elapse (ms : Z) (w : World) : World :=
  let t := now w + Z.max 0 ms in
  let due := filter (fun d => d <=? t) (timeouts w) in
  let rest := filter (fun d => negb (d <=? t)) (timeouts w) in
  fold_left (fun w' _ => set_isHandlingViolation false w') due
    (set_timeouts rest (set_now t w)).

Inductive Signal : Type :=
| Browser (tg : Target) (e : Event)   (* an event of the document or window *)
| DevToolsTimer.                      (* a period of setInterval(checkDevTools) *)

Inductive Action : Type :=
| Fire (s : Signal)
| Elapse (ms : Z)
| Ambient (e : Env)                   (* the user or browser changes [Env] *)
| CallStartExam (granted : bool)
| CallReEnterFullScreen (granted : bool)
| Rerender (p : Props).               (* the host renders with arguments [p] *)

Definition fire (V : Variant) (s : Signal) (w : World) : World :=
  match s with
  | Browser tg e => dispatchEvent V tg e w
  | DevToolsTimer => fire_intervals w
  end.

Definition step (V : Variant) (a : Action) (w : World) : World :=
  match a with
  | Fire s => rerender V w (fire V s w)
  | Elapse ms => elapse ms w
  | Ambient e => set_env e w
  | CallStartExam granted =>
      rerender V w (snd (startExam V (current w) granted w))
  | CallReEnterFullScreen granted =>
      snd (reEnterFullScreen V (current w) granted w)
  | Rerender p => render V (set_props p w)
  end.

Definition run (V : Variant) (acts : list Action) (w : World) : World :=
  fold_left (fun w' a => step V a w') acts w.

Definition unmounted (p : Props) (e : Env) : World :=
  mkWorld (-1) false None p 0%nat None [] [] 1%nat [] 0 e [].

(** The world after the first render. *)
Definition mount (V : Variant) (p : Props) (e : Env) : World :=
  render V (unmounted p e).

Inductive reachable (V : Variant) : World -> Prop :=
| reach_mount : forall p e, reachable V (mount V p e)
| reach_step : forall a w, reachable V w -> reachable V (step V a w).

(** ** Vocabulary of the properties *)

Definition is_finish (e : Effect) : bool :=
  match e with CallOnFinishExam => true | _ => false end.

Definition is_warning_call (e : Effect) : bool :=
  match e with CallOnWarning _ => true | _ => false end.

Definition is_host_call (e : Effect) : bool :=
  is_finish e || is_warning_call e.

Definition is_alert (e : Effect) : bool :=
  match e with Alert _ => true | _ => false end.

(** Number of calls of [onFinishExam]. *)
Definition finish_calls (tr : list Effect) : nat :=
  List.length (filter is_finish tr).

(** The messages passed to [onWarning], oldest first. *)
Fixpoint warnings (tr : list Effect) : list string :=
  match tr with
  | [] => []
  | CallOnWarning m :: r => m :: warnings r
  | _ :: r => warnings r
  end.

Definition is_WARNING (m : string) : bool := String.prefix "Warning:" m.
Definition is_FINAL_WARNING (m : string) : bool :=
  String.prefix "FINAL WARNING:" m.

(** The condition under which the effect subscribes: the negation of its
    guard. *)
Definition monitoring_eligible (V : Variant) (c : Closure) : bool :=
  match V with
  | Basic => negb (cl_violations c =? -1)
  | Enhanced | Toggle =>
      isSecurityEnabled (cl_props c) && negb (cl_violations c =? -1)
      && negb (isFinalSubmission (cl_props c))
  end.

(** The listeners of an effect that subscribed. *)
Definition subscriptions (V : Variant) (c : Closure) : list Listener :=
  if monitoring_eligible V c then
    match V with
    | Basic | Toggle =>
        [ mkListener document visibilitychange fn_handleVisibilityChange c;
          mkListener window blur fn_handleBlur c;
          mkListener document fullscreenchange fn_handleFullScreenChange c;
          mkListener document keydown fn_handleKeyDown c;
          mkListener document contextmenu fn_handleContextMenu c;
          mkListener document copy fn_preventAction c;
          mkListener document paste fn_preventAction c;
          mkListener document cut fn_preventAction c ]
    | Enhanced =>
        [ mkListener document visibilitychange fn_handleVisibilityChange c;
          mkListener window blur fn_handleBlur c;
          mkListener document fullscreenchange fn_handleFullScreenChange c;
          mkListener document keydown fn_handleKeyDown c;
          mkListener document contextmenu fn_preventDefault c;
          mkListener document dragstart fn_preventDefault c;
          mkListener document selectstart fn_preventDefault c;
          mkListener document copy fn_preventClipboardAction c;
          mkListener document paste fn_preventClipboardAction c;
          mkListener document cut fn_preventClipboardAction c ]
    end
  else [].

Definition has_interval (V : Variant) (c : Closure) : bool :=
  match V with
  | Enhanced => monitoring_eligible V c
  | _ => false
  end.

(** The registry, the interval and the stored cleanup are those of the effect
    of render [c]. *)
Definition gateway_ok (V : Variant) (c : Closure) (w : World) : Prop :=
  listeners w = subscriptions V c
  /\ cleanup w = (if monitoring_eligible V c then Some c else None)
  /\ (if has_interval V c
      then exists id, devToolsCheckInterval w = Some id
                      /\ intervals w = [(id, c)]
      else intervals w = []).

(** The latch is set exactly while one release is pending, due within the
    cool-down. *)
Definition latch_ok (w : World) : Prop :=
  match timeouts w with
  | [] => isHandlingViolation w = false
  | [t] => isHandlingViolation w = true /\ now w < t <= now w + 500
  | _ => False
  end.

Record Inv (V : Variant) (w : World) : Prop := mkInv {
  inv_gateway : gateway_ok V (current w) w;
  inv_latch : latch_ok w;
  inv_count : -1 <= violations w
}.

(** The calls of the host callbacks in a trace. *)
Definition host_calls (tr : list Effect) : list Effect :=
  filter is_host_call tr.

(** What a handler never touches. *)
Definition gateway_of (w : World) :=
  (props w, renders w, cleanup w, listeners w, intervals w, next_id w,
   devToolsCheckInterval w, now w, env w).

(** The host calls of a counted violation whose new count is [n]. *)
Definition verdict (p : Props) (n : Z) (d : list Effect) : Prop :=
  if n <=? maxViolations p then
    match onWarning p with
    | Some _ =>
        exists m, d = [CallOnWarning m]
          /\ is_FINAL_WARNING m = (n =? maxViolations p)
          /\ is_WARNING m = negb (n =? maxViolations p)
    | None => d = []
    end
  else
    match onFinishExam p with
    | Some _ => d = [CallOnFinishExam]
    | None => d = []
    end.

(** Nothing was counted between [w] and [w']. *)
Definition quiet (w w' : World) : Prop :=
  gateway_of w' = gateway_of w
  /\ violations w' = violations w
  /\ isHandlingViolation w' = isHandlingViolation w
  /\ timeouts w' = timeouts w
  /\ host_calls (trace w') = host_calls (trace w).

(** One violation was counted between [w] and [w'], by a handler of render
    [c]. *)
Definition counted (c : Closure) (w w' : World) : Prop :=
  gateway_of w' = gateway_of w
  /\ isHandlingViolation w = false
  /\ isHandlingViolation w' = true
  /\ violations w' = cl_violations c + 1
  /\ timeouts w' = (timeouts w ++ [now w + 500])%list
  /\ exists d, host_calls (trace w') = (host_calls (trace w) ++ d)%list
               /\ verdict (cl_props c) (cl_violations c + 1) d.

(** A computation that behaves like a handler of render [c]: it returns
    normally and counts at most one violation. *)
Definition handler_like (c : Closure) (m : M unit) : Prop :=
  forall w, exists w', m w = (Normal tt, w') /\ (quiet w w' \/ counted c w w').

(** The keyboard chords that [handleKeyDown] forwards. *)
Definition chord (V : Variant) (e : Event) : bool :=
  match V with
  | Basic =>
      (ctrlKey e && (String.eqb (key e) "t" || String.eqb (key e) "n"
                     || String.eqb (key e) "w"))
      || (ctrlKey e && String.eqb (key e) "Tab")
      || (altKey e && String.eqb (key e) "Tab")
  | Enhanced =>
      (ctrlKey e
       && Js.includes ["t"; "n"; "w"; "p"; "s"; "o"; "u"]
            (Js.toLowerCase (key e)))
      || ((ctrlKey e || altKey e) && String.eqb (key e) "Tab")
      || (String.eqb (key e) "F12"
          || (ctrlKey e && shiftKey e
              && Js.includes ["i"; "j"; "c"] (Js.toLowerCase (key e))))
  | Toggle =>
      (ctrlKey e && (String.eqb (key e) "t" || String.eqb (key e) "n"
                     || String.eqb (key e) "w" || String.eqb (key e) "Tab"))
      || (altKey e && String.eqb (key e) "Tab")
  end.

Definition devtools_gap (en : Env) : bool :=
  (outerWidth en - innerWidth en >? EnhancedHook.threshold)
  || (outerHeight en - innerHeight en >? EnhancedHook.threshold).

(** A violation-triggering signal: one whose handler, in the ambient state
    [en], forwards to [handleViolation]. *)
Definition triggers (V : Variant) (en : Env) (s : Signal) : bool :=
  match s with
  | Browser document e =>
      match ev_type e with
      | visibilitychange => hidden en
      | fullscreenchange => negb (fullscreenElement en)
      | keydown => chord V e
      | _ => false
      end
  | Browser window e =>
      match ev_type e with
      | blur => fullscreenElement en
      | _ => false
      end
  | DevToolsTimer =>
      match V with
      | Enhanced => devtools_gap en
      | _ => false
      end
  end.

(** A signal with the time since the previous step and the ambient state in
    which it fires. *)
Record Timed : Type := mkTimed {
  delay : Z;
  ambient : Env;
  signal : Signal
}.

Definition timed_actions (i : Timed) : list Action :=
  [Elapse (delay i); Ambient (ambient i); Fire (signal i)].

Definition play (V : Variant) (items : list Timed) (w : World) : World :=
  run V (flat_map timed_actions items) w.

Definition all_trigger (V : Variant) (items : list Timed) : Prop :=
  Forall (fun i => triggers V (ambient i) (signal i) = true) items.

(** Every signal but the first comes strictly more than 500 ms after the one
    before it. *)
Definition spaced (items : list Timed) : Prop :=
  match items with
  | [] => True
  | _ :: rest => Forall (fun i => 500 < delay i) rest
  end.

(** All the signals come less than 500 ms after the start. *)
Definition within_window (items : list Timed) : Prop :=
  Forall (fun i => 0 <= delay i) items
  /\ fold_right (fun i acc => delay i + acc) 0 items < 500.

(** The host neither restarts the exam nor changes the arguments. *)
Definition no_restart (a : Action) : bool :=
  match a with
  | CallStartExam _ | Rerender _ => false
  | _ => true
  end.

(** The actions that are not the passing of time. *)
Definition not_elapse (a : Action) : bool :=
  match a with
  | Elapse _ => false
  | _ => true
  end.

(** The suppressed actions of the [Enhanced] hook. *)
Definition suppressed_only (ty : EventType) : bool :=
  match ty with
  | contextmenu | dragstart | selectstart => true
  | _ => false
  end.

Definition clipboard (ty : EventType) : bool :=
  match ty with
  | copy | paste | cut => true
  | _ => false
  end.

Definition monitored_props (V : Variant) (p : Props) : Prop :=
  match V with
  | Basic => True
  | Enhanced | Toggle => isSecurityEnabled p = true /\ isFinalSubmission p = false
  end.

(** The world after a violation was counted by a handler of render [c] that
    made the host calls [d]. *)
Definition counted_world (c : Closure) (d : list Effect) (w : World) : World :=
  set_timeouts (timeouts w ++ [now w + 500])
    (set_trace (trace w ++ d)
       (set_violations (cl_violations c + 1)
          (set_isHandlingViolation true w))).

(** The world after the effect of render [c] subscribed. *)
Definition subscribed_world (V : Variant) (c : Closure) (w : World) : World :=
  match V with
  | Enhanced =>
      set_listeners (subscriptions V c)
        (set_devToolsCheckInterval (Some (next_id w))
           (set_next_id (S (next_id w))
              (set_intervals [(next_id w, c)] w)))
  | _ => set_listeners (subscriptions V c) w
  end.

(** What a render never touches. *)
Record same_session (w w' : World) : Prop := mkSame {
  same_violations : violations w' = violations w;
  same_props : props w' = props w;
  same_latch : isHandlingViolation w' = isHandlingViolation w;
  same_timeouts : timeouts w' = timeouts w;
  same_now : now w' = now w;
  same_env : env w' = env w;
  same_trace : trace w' = trace w
}.

(** Nothing was counted by the step from [w] to [w']. *)
Definition step_quiet (w w' : World) : Prop :=
  props w' = props w /\ now w' = now w /\ env w' = env w
  /\ violations w' = violations w
  /\ isHandlingViolation w' = isHandlingViolation w
  /\ timeouts w' = timeouts w
  /\ host_calls (trace w') = host_calls (trace w).

(** One violation was counted by the step from [w] to [w']. *)
Definition step_counted (w w' : World) : Prop :=
  props w' = props w /\ now w' = now w /\ env w' = env w
  /\ isHandlingViolation w = false /\ isHandlingViolation w' = true
  /\ violations w' = violations w + 1
  /\ timeouts w' = [now w + 500]
  /\ exists d, host_calls (trace w') = (host_calls (trace w) ++ d)%list
               /\ verdict (props w) (violations w + 1) d.

(** The computation [m] counts a violation when run in [w]. *)
Definition counts (c : Closure) (m : M unit) (w : World) : Prop :=
  exists w', m w = (Normal tt, w') /\ counted c w w'.

(** The host calls of [k] violations counted one after the other, the count
    before them being [n]. *)
Fixpoint verdicts (p : Props) (n : Z) (k : nat) (D : list Effect) : Prop :=
  match k with
  | O => D = []
  | S k' => exists d D', D = (d ++ D')%list /\ verdict p (n + 1) d
                         /\ verdicts p (n + 1) k' D'
  end.

(** ** A sample session *)

Definition sample_props : Props :=
  mkProps (Some HostFunction) 3 (Some HostFunction) true false.

(** The exam page, visible and fullscreen. *)
Definition sample_env : Env := mkEnv false true 1280 1280 720 720.

(** The same page after the user switched to another tab. *)
Definition tab_hidden : Env := mkEnv true true 1280 1280 720 720.

(** The same page after the user left fullscreen. *)
Definition windowed : Env := mkEnv false false 1280 1280 720 720.

Definition plain_event (ty : EventType) : Event :=
  mkEvent ty false false false "".

(** A tab switch 600 ms after the previous step. *)
Definition tab_switch : Timed :=
  mkTimed 600 tab_hidden (Browser document (plain_event visibilitychange)).

(** A tab switch 20 ms after the previous step. *)
Definition quick_tab_switch : Timed :=
  mkTimed 20 tab_hidden (Browser document (plain_event visibilitychange)).

(** The exam started, with fullscreen granted. *)
Definition started (V : Variant) : World :=
  step V (CallStartExam true) (mount V sample_props sample_env).

(** The reason [handleBlur] passes to [handleViolation]. *)
Definition blur_reason (V : Variant) : string :=
  match V with
  | Enhanced => "switched window"
  | Basic | Toggle => "Left exam window"
  end.

(** ** Teardown, and further vocabulary *)

(** The component unmounts: React runs the cleanup the last effect
    returned. *)
Definition unmount (V : Variant) (w : World) : World :=
  set_cleanup None
    (match cleanup w with
     | Some c => snd (effect_cleanup V c w)
     | None => w
     end).

(** The host does not call [startExam]. *)
Definition no_start (a : Action) : bool :=
  match a with
  | CallStartExam _ => false
  | _ => true
  end.

(** The host does not pass new arguments. *)
Definition no_rerender (a : Action) : bool :=
  match a with
  | Rerender _ => false
  | _ => true
  end.

(** Only the browser acts: signals, time, ambient state. *)
Definition passive (a : Action) : bool :=
  match a with
  | Fire _ | Elapse _ | Ambient _ => true
  | _ => false
  end.

(** The earliest time at which a violation can be counted again. *)
Definition next_open (w : World) : Z :=
  match timeouts w with
  | t :: _ => t
  | [] => now w
  end.

Definition is_console_warn (e : Effect) : bool :=
  match e with ConsoleWarn _ => true | _ => false end.

(** The events a hook only suppresses: the listeners its effect registers
    that never reach [handleViolation]. *)
Definition suppressed (V : Variant) (ty : EventType) : bool :=
  match V, ty with
  | _, contextmenu | _, copy | _, paste | _, cut => true
  | Enhanced, dragstart | Enhanced, selectstart => true
  | _, _ => false
  end.

(** The arguments [p] with the final-submission flag set to [b]. *)
Definition with_final (b : bool) (p : Props) : Props :=
  mkProps (onFinishExam p) (maxViolations p) (onWarning p)
    (isSecurityEnabled p) b.

(** [reEnterFullScreen] reaches [requestFullscreen]. *)
Definition requests_fullscreen (V : Variant) (c : Closure) (w : World) : bool :=
  negb (fullscreenElement (env w))
  && match V with
     | Basic => true
     | Enhanced | Toggle => isSecurityEnabled (cl_props c)
     end.

(** A page with the developer tools docked: the window is [gap] pixels wider
    than its viewport. *)
Definition docked (gap : Z) : Env := mkEnv false true (1280 + gap) 1280 720 720.

(** ** The layout of [src/frontend/src/Applayout/Applayout.jsx]

    What [Applayout] returns, up to the routes inside the inner [main]:
    either the redirection, or the chrome around the routes. *)

Module AppLayout.

Inductive View : Type :=
| Navigate (to : string)
| Layout (navbar : bool) (divClass : string) (header : bool)
         (mainClass : string).

(** [location.pathname.startsWith("/exam")] *)
Definition isExamPage (pathname : string) : bool :=
  String.prefix "/exam" pathname.

(** [user] is [None] when the context holds no user. *)
Definition Applayout {User : Type} (user : option User) (pathname : string)
  : View :=
  match user with
  | None => Navigate "/login"
  | Some _ =>
      Layout (negb (isExamPage pathname))
        ((if negb (isExamPage pathname) then "lg:pl-20" else "")
         ++ " h-screen overflow-y-auto bg-[#EEF1F9]")%string
        (negb (isExamPage pathname))
        (if negb (isExamPage pathname) then "pt-[70px]" else "pt-0")
  end.

End AppLayout.

(** Between [w] and [w'] the trace grew by [tr]; and if the latch was set,
    [tr] is only repetitions of [pd], the count is the same and the latch is
    still set. *)
Definition only_prevents (pd : Effect) (w w' : World) (tr : list Effect)
  : Prop :=
  trace w' = (trace w ++ tr)%list
  /\ (isHandlingViolation w = true ->
      (exists n, tr = repeat pd n)
      /\ violations w' = violations w
      /\ isHandlingViolation w' = true).

(** [m] returns normally and, while the latch is set, does nothing but
    [pd]. *)
Definition appends (pd : Effect) (m : M unit) : Prop :=
  forall w, exists w' tr, m w = (Normal tt, w') /\ only_prevents pd w w' tr.

(** [m] returns normally and the first thing it does is [pd]. *)
Definition prevents (pd : Effect) (m : M unit) : Prop :=
  forall w, exists w' tr,
    m w = (Normal tt, w') /\ only_prevents pd w w' (pd :: tr).

(** * Proofs *)

(** ** Traces *)

Lemma host_calls_app (a b : list Effect) :
  host_calls (a ++ b) = (host_calls a ++ host_calls b)%list.
Proof. apply filter_app. Qed.

Lemma finish_calls_host (tr : list Effect) :
  finish_calls (host_calls tr) = finish_calls tr.
Proof.
  unfold finish_calls, host_calls.
  induction tr as [|x tr IH]; simpl; [reflexivity|].
  destruct x; simpl; auto.
Qed.

Lemma warnings_host (tr : list Effect) :
  warnings (host_calls tr) = warnings tr.
Proof.
  unfold host_calls.
  induction tr as [|x tr IH]; simpl; [reflexivity|].
  destruct x; simpl; rewrite ?IH; auto.
Qed.

Lemma finish_calls_app (a b : list Effect) :
  finish_calls (a ++ b) = (finish_calls a + finish_calls b)%nat.
Proof. unfold finish_calls. now rewrite filter_app, length_app. Qed.

Lemma warnings_app (a b : list Effect) :
  warnings (a ++ b) = (warnings a ++ warnings b)%list.
Proof.
  induction a as [|x a IH]; simpl; [reflexivity|].
  destruct x; simpl; rewrite ?IH; auto.
Qed.

(** ** Composition of handler effects *)

Lemma quiet_refl (w : World) : quiet w w.
Proof. unfold quiet; auto. Qed.

Lemma gateway_now (w w' : World) :
  gateway_of w' = gateway_of w -> now w' = now w.
Proof. unfold gateway_of. intros H. now inversion H. Qed.

Lemma quiet_trans (w1 w2 w3 : World) :
  quiet w1 w2 -> quiet w2 w3 -> quiet w1 w3.
Proof.
  intros (g1 & v1 & h1 & t1 & c1) (g2 & v2 & h2 & t2 & c2).
  repeat split; congruence.
Qed.

Lemma quiet_counted (c : Closure) (w1 w2 w3 : World) :
  quiet w1 w2 -> counted c w2 w3 -> counted c w1 w3.
Proof.
  intros (g1 & v1 & h1 & t1 & c1) (g2 & h2 & h2' & v2 & t2 & d & c2 & vd).
  pose proof (gateway_now _ _ g1) as Hn.
  repeat split; try congruence.
  exists d. split; [congruence|assumption].
Qed.

Lemma counted_quiet (c : Closure) (w1 w2 w3 : World) :
  counted c w1 w2 -> quiet w2 w3 -> counted c w1 w3.
Proof.
  intros (g1 & h1 & h1' & v1 & t1 & d & c1 & vd) (g2 & v2 & h2 & t2 & c2).
  repeat split; try congruence.
  exists d. split; [congruence|assumption].
Qed.

Lemma counted_counted (c : Closure) (w1 w2 w3 : World) :
  counted c w1 w2 -> counted c w2 w3 -> False.
Proof. intros (_ & _ & h1 & _) (_ & h2 & _). congruence. Qed.

Lemma effects_compose (c : Closure) (w1 w2 w3 : World) :
  quiet w1 w2 \/ counted c w1 w2 ->
  quiet w2 w3 \/ counted c w2 w3 ->
  quiet w1 w3 \/ counted c w1 w3.
Proof.
  intros [Q1|C1] [Q2|C2].
  - left. now apply quiet_trans with w2.
  - right. now apply quiet_counted with w2.
  - right. now apply counted_quiet with w2.
  - exfalso. now apply (counted_counted c w1 w2 w3).
Qed.

Lemma handler_like_ret (c : Closure) : handler_like c (ret tt).
Proof. intros w. exists w. split; [reflexivity|left; apply quiet_refl]. Qed.

Lemma handler_like_seq (c : Closure) (m k : M unit) :
  handler_like c m -> handler_like c k -> handler_like c (m ;; k).
Proof.
  intros Hm Hk w. destruct (Hm w) as (w1 & E1 & D1).
  destruct (Hk w1) as (w2 & E2 & D2).
  exists w2. unfold bind. rewrite E1. split; [exact E2|].
  eapply effects_compose; eassumption.
Qed.

Lemma handler_like_read {A} (c : Closure) (f : World -> A) (k : A -> M unit) :
  (forall a, handler_like c (k a)) -> handler_like c (x <- read f ;; k x).
Proof. intros Hk w. unfold bind, read. apply Hk. Qed.

Lemma handler_like_when (c : Closure) (b : bool) (m : M unit) :
  handler_like c m -> handler_like c (when b m).
Proof. destruct b; simpl; [auto|intros _; apply handler_like_ret]. Qed.

Lemma handler_like_emit (c : Closure) (e : Effect) :
  is_host_call e = false -> handler_like c (emit e).
Proof.
  intros He w. eexists. split; [reflexivity|left].
  unfold quiet; simpl. repeat split.
  rewrite host_calls_app. simpl. rewrite He. apply app_nil_r.
Qed.


Lemma handleViolation_closed (V : Variant) (c : Closure) (r : string) (w : World) :
  isHandlingViolation w = true -> handleViolation V c r w = (Normal tt, w).
Proof.
  intros L.
  destruct V; unfold handleViolation, BasicHook.handleViolation,
    EnhancedHook.handleViolation, ToggleHook.handleViolation, bind, read;
    rewrite L; reflexivity.
Qed.

Lemma handleViolation_open (V : Variant) (c : Closure) (r : string) (w : World) :
  isHandlingViolation w = false ->
  exists d, handleViolation V c r w = (Normal tt, counted_world c d w)
            /\ verdict (cl_props c) (cl_violations c + 1) d.
Proof.
  intros L. unfold verdict.
  destruct V; unfold handleViolation, BasicHook.handleViolation,
    EnhancedHook.handleViolation, ToggleHook.handleViolation, bind, read;
    rewrite L; cbv [modify setViolations setTimeout_release];
    (destruct (cl_violations c + 1 <=? maxViolations (cl_props c));
     [ destruct (cl_violations c + 1 =? maxViolations (cl_props c));
       destruct (onWarning (cl_props c))
     | destruct (onFinishExam (cl_props c)) ]);
    try (eexists; split; [reflexivity|]; eexists; repeat split; reflexivity);
    try (eexists; split; [reflexivity|]; reflexivity);
    try (exists []; unfold counted_world; rewrite app_nil_r; split; reflexivity).
Qed.

Lemma verdict_host (p : Props) (n : Z) (d : list Effect) :
  verdict p n d -> host_calls d = d.
Proof.
  unfold verdict.
  destruct (n <=? maxViolations p).
  - destruct (onWarning p); [intros (m & -> & _)|intros ->]; reflexivity.
  - destruct (onFinishExam p); intros ->; reflexivity.
Qed.

Lemma counted_world_counted (c : Closure) (d : list Effect) (w : World) :
  isHandlingViolation w = false ->
  verdict (cl_props c) (cl_violations c + 1) d ->
  counted c w (counted_world c d w).
Proof.
  intros L Hd. unfold counted, counted_world; simpl.
  repeat split; auto.
  exists d. split; [|assumption].
  rewrite host_calls_app. now rewrite (verdict_host _ _ _ Hd).
Qed.

Lemma handler_like_handleViolation (V : Variant) (c : Closure) (r : string) :
  handler_like c (handleViolation V c r).
Proof.
  intros w. destruct (isHandlingViolation w) eqn:L.
  - exists w. split; [now apply handleViolation_closed|left; apply quiet_refl].
  - destruct (handleViolation_open V c r w L) as (d & E & Hd).
    eexists. split; [exact E|right]. now apply counted_world_counted.
Qed.

(** ** Every listener behaves like a handler *)

Ltac handler_step :=
  lazymatch goal with
  | |- handler_like _ (ret tt) => apply handler_like_ret
  | |- handler_like _ (BasicHook.handleViolation ?c ?r) =>
      exact (handler_like_handleViolation Basic c r)
  | |- handler_like _ (EnhancedHook.handleViolation ?c ?r) =>
      exact (handler_like_handleViolation Enhanced c r)
  | |- handler_like _ (ToggleHook.handleViolation ?c ?r) =>
      exact (handler_like_handleViolation Toggle c r)
  | |- handler_like _ (emit _) => apply handler_like_emit; reflexivity
  | |- handler_like _ (when _ _) => apply handler_like_when
  | |- handler_like _ (bind (read _) _) => apply handler_like_read; intro
  | |- handler_like _ (bind _ _) => apply handler_like_seq
  end.

Lemma call_listener_like (V : Variant) (l : Listener) (e : Event) :
  handler_like (l_closure l) (call_listener V l e).
Proof.
  destruct V; unfold call_listener;
    [ unfold BasicHook.call | unfold EnhancedHook.call | unfold ToggleHook.call ];
    destruct (l_fn l);
    cbv [BasicHook.handleVisibilityChange BasicHook.handleBlur
         BasicHook.handleFullScreenChange BasicHook.handleKeyDown
         BasicHook.handleContextMenu BasicHook.preventAction
         EnhancedHook.handleVisibilityChange EnhancedHook.handleBlur
         EnhancedHook.handleFullScreenChange EnhancedHook.handleKeyDown
         EnhancedHook.preventDefault EnhancedHook.preventClipboardAction
         ToggleHook.handleVisibilityChange ToggleHook.handleBlur
         ToggleHook.handleFullScreenChange ToggleHook.handleKeyDown
         ToggleHook.handleContextMenu ToggleHook.preventAction
         e_preventDefault alert].
  all: repeat handler_step.
Qed.

Lemma checkDevTools_like (c : Closure) :
  handler_like c (EnhancedHook.checkDevTools c).
Proof.
  unfold EnhancedHook.checkDevTools. repeat handler_step.
Qed.

Lemma dispatch_list_like (V : Variant) (c : Closure) (e : Event)
    (ls : list Listener) :
  Forall (fun l => l_closure l = c) ls ->
  forall w,
    let w' := fold_left (fun w' l => snd (call_listener V l e w')) ls w in
    quiet w w' \/ counted c w w'.
Proof.
  induction 1 as [|l ls Hl _ IH]; intros w; simpl.
  - left. apply quiet_refl.
  - destruct (call_listener_like V l e w) as (w1 & E & D).
    rewrite Hl in D. rewrite E. simpl.
    eapply effects_compose; [exact D|apply IH].
Qed.

Lemma interval_list_like (c : Closure) (ics : list (nat * Closure)) :
  Forall (fun ic => snd ic = c) ics ->
  forall w,
    let w' := fold_left
                (fun w' ic => snd (EnhancedHook.checkDevTools (snd ic) w'))
                ics w in
    quiet w w' \/ counted c w w'.
Proof.
  induction 1 as [|ic ics Hc _ IH]; intros w; simpl.
  - left. apply quiet_refl.
  - rewrite Hc. destruct (checkDevTools_like c w) as (w1 & E & D).
    rewrite E. simpl. eapply effects_compose; [exact D|apply IH].
Qed.

Lemma subscriptions_closure (V : Variant) (c : Closure) :
  Forall (fun l => l_closure l = c) (subscriptions V c).
Proof.
  unfold subscriptions.
  destruct (monitoring_eligible V c); [|constructor].
  destruct V; repeat constructor.
Qed.

(** A signal counts at most one violation, with the count the latest render
    saw. *)
Lemma fire_effect (V : Variant) (s : Signal) (w : World) :
  gateway_ok V (current w) w ->
  quiet w (fire V s w) \/ counted (current w) w (fire V s w).
Proof.
  intros (Hl & _ & Hi). destruct s as [tg e|]; simpl.
  - unfold dispatchEvent. apply dispatch_list_like.
    rewrite Hl. apply incl_Forall with (l1 := subscriptions V (current w)).
    + intros x Hx. apply filter_In in Hx. tauto.
    + apply subscriptions_closure.
  - unfold fire_intervals. apply interval_list_like.
    destruct (has_interval V (current w)).
    + destruct Hi as (id & _ & ->). repeat constructor.
    + rewrite Hi. constructor.
Qed.

(** ** Renders keep the gateway in step with the state *)

Lemma Listener_eqb_refl (l : Listener) : Listener_eqb l l = true.
Proof.
  unfold Listener_eqb. rewrite Nat.eqb_refl.
  destruct (l_target l), (l_type l), (l_fn l); reflexivity.
Qed.

Lemma cleanup_spec (V : Variant) (c0 : Closure) (w : World) :
  gateway_ok V c0 w ->
  monitoring_eligible V c0 = true ->
  effect_cleanup V c0 w = (Normal tt, set_intervals [] (set_listeners [] w)).
Proof.
  destruct w as [v h r p n cl ls ivs nid ts t en tr].
  unfold gateway_ok. simpl. intros (Hl & _ & Hi) E.
  unfold has_interval, subscriptions in *. rewrite E in *.
  destruct V; subst ls;
    [ subst ivs | destruct Hi as (id & -> & ->) | subst ivs ];
    unfold effect_cleanup, BasicHook.effect_cleanup,
      EnhancedHook.effect_cleanup, ToggleHook.effect_cleanup,
      EnhancedHook.clear_devTools_interval, clearInterval,
      removeEventListener, bind, modify, read;
    repeat (simpl; rewrite ?Listener_eqb_refl, ?Nat.eqb_refl); reflexivity.
Qed.

Lemma useEffect_run (V : Variant) (c : Closure) (w : World) :
  listeners w = [] -> intervals w = [] ->
  useEffect V c w =
  if monitoring_eligible V c
  then (Normal (Some c), subscribed_world V c w)
  else (Normal None, w).
Proof.
  destruct w as [v h r p n cl ls ivs nid ts t en tr]. simpl.
  intros -> ->.
  destruct V; unfold useEffect, BasicHook.useEffect, EnhancedHook.useEffect,
    ToggleHook.useEffect, subscribed_world, subscriptions, monitoring_eligible.
  - destruct (cl_violations c =? -1); reflexivity.
  - destruct (isSecurityEnabled (cl_props c)), (cl_violations c =? -1),
      (isFinalSubmission (cl_props c)); try (destruct r; reflexivity).
  - destruct (isSecurityEnabled (cl_props c)), (cl_violations c =? -1),
      (isFinalSubmission (cl_props c)); reflexivity.
Qed.

Lemma subscribed_world_ok (V : Variant) (c : Closure) (w : World) :
  intervals w = [] ->
  monitoring_eligible V c = true ->
  gateway_ok V c (set_cleanup (Some c) (subscribed_world V c w)).
Proof.
  intros Hi E. unfold gateway_ok, has_interval. rewrite E.
  destruct V; simpl; repeat split; eauto.
Qed.

Lemma subscribed_world_same (V : Variant) (c : Closure) (w : World) :
  same_session w (subscribed_world V c w)
  /\ renders (subscribed_world V c w) = renders w.
Proof. destruct V; split; try constructor; reflexivity. Qed.

Lemma same_session_trans (w1 w2 w3 : World) :
  same_session w1 w2 -> same_session w2 w3 -> same_session w1 w3.
Proof. intros [] []; constructor; congruence. Qed.

Lemma render_spec (V : Variant) (c0 : Closure) (w : World) :
  gateway_ok V c0 w ->
  gateway_ok V (current (render V w)) (render V w)
  /\ same_session w (render V w)
  /\ renders (render V w) = S (renders w).
Proof.
  intros G. unfold render.
  set (w1 := set_renders (S (renders w)) w).
  assert (G1 : gateway_ok V c0 w1) by exact G.
  set (w2 := match cleanup w1 with
             | Some c1 => snd (effect_cleanup V c1 w1)
             | None => w1
             end).
  assert (H2 : listeners w2 = [] /\ intervals w2 = []
               /\ same_session w w2 /\ renders w2 = S (renders w)).
  { subst w2. pose proof G1 as (Hl & Hc & Hi). rewrite Hc.
    destruct (monitoring_eligible V c0) eqn:E0.
    - rewrite (cleanup_spec V c0 w1 G1 E0).
      simpl. repeat split.
    - unfold subscriptions in Hl. rewrite E0 in Hl.
      assert (intervals w1 = []) as Hi'.
      { unfold has_interval in Hi. destruct V; try rewrite E0 in Hi; exact Hi. }
      repeat split; assumption. }
  destruct H2 as (Hl2 & Hi2 & S2 & Hr).
  assert (Ec : current w1 = mkClosure (renders w2) (violations w2) (props w2)).
  { unfold current. rewrite Hr. destruct S2. simpl. congruence. }
  rewrite (useEffect_run V (current w1) w2 Hl2 Hi2).
  destruct (monitoring_eligible V (current w1)) eqn:E;
    cbv beta iota delta [fst snd].
  - destruct (subscribed_world_same V (current w1) w2) as (S3 & Hr3).
    assert (Hcur : current (set_cleanup (Some (current w1))
                              (subscribed_world V (current w1) w2))
                   = current w1).
    { rewrite Ec. unfold current; simpl. destruct S3. congruence. }
    rewrite Hcur. split; [now apply subscribed_world_ok|].
    split; [|simpl; congruence].
    apply same_session_trans with w2; [assumption|].
    destruct S3; constructor; assumption.
  - assert (Hcur : current (set_cleanup None w2) = current w1).
    { rewrite Ec. reflexivity. }
    rewrite Hcur. split.
    + unfold gateway_ok, subscriptions. rewrite E. simpl.
      repeat split; try assumption.
      unfold has_interval. destruct V; try rewrite E; assumption.
    + split; [|simpl; congruence].
      destruct S2; constructor; assumption.
Qed.

(** ** The invariant of the reachable worlds *)

Lemma current_eq (w w' : World) :
  renders w' = renders w -> violations w' = violations w ->
  props w' = props w -> current w' = current w.
Proof. unfold current. congruence. Qed.

Lemma Inv_mount (V : Variant) (p : Props) (e : Env) : Inv V (mount V p e).
Proof.
  unfold mount.
  assert (G : gateway_ok V (current (unmounted p e)) (unmounted p e)).
  { unfold gateway_ok, subscriptions, has_interval, monitoring_eligible.
    destruct V; simpl; destruct (isSecurityEnabled p); simpl;
      repeat split. }
  destruct (render_spec V _ _ G) as (G' & S' & _).
  constructor; [exact G'| |].
  - unfold latch_ok. rewrite (same_timeouts _ _ S'), (same_latch _ _ S').
    reflexivity.
  - rewrite (same_violations _ _ S'). simpl. lia.
Qed.

Lemma Inv_rerender (V : Variant) (w w1 : World) :
  gateway_ok V (current w) w1 ->
  props w1 = props w -> renders w1 = renders w ->
  latch_ok w1 -> -1 <= violations w1 ->
  Inv V (rerender V w w1).
Proof.
  intros G Hp Hr L C. unfold rerender.
  destruct (violations w1 =? violations w) eqn:E.
  - apply Z.eqb_eq in E. constructor; [|assumption..].
    rewrite (current_eq w w1); assumption.
  - destruct (render_spec V _ _ G) as (G' & S' & _).
    constructor; [exact G'| |].
    + unfold latch_ok. rewrite (same_timeouts _ _ S'), (same_latch _ _ S'),
        (same_now _ _ S'). exact L.
    + now rewrite (same_violations _ _ S').
Qed.

Lemma latch_ok_counted (w w1 : World) (c : Closure) :
  latch_ok w -> counted c w w1 -> timeouts w1 = [now w + 500].
Proof.
  intros L (_ & h & _ & _ & t & _). rewrite t.
  unfold latch_ok in L. destruct (timeouts w) as [|x [|y r]];
    [reflexivity| |contradiction].
  destruct L as (L & _). congruence.
Qed.

Lemma gateway_ok_transport (V : Variant) (c : Closure) (w w1 : World) :
  gateway_of w1 = gateway_of w -> gateway_ok V c w -> gateway_ok V c w1.
Proof.
  unfold gateway_of, gateway_ok. intros H. inversion H as [[Hp Hr Hc Hl Hi Hn Hd Ht He]].
  rewrite Hl, Hc, Hi, Hd. auto.
Qed.

Lemma Inv_fire (V : Variant) (s : Signal) (w : World) :
  Inv V w -> Inv V (step V (Fire s) w).
Proof.
  intros [G L C]. simpl.
  destruct (fire_effect V s w G) as [Q|Cn].
  - destruct Q as (g & v & h & t & _).
    apply Inv_rerender.
    + now apply gateway_ok_transport with w.
    + unfold gateway_of in g. now inversion g.
    + unfold gateway_of in g. now inversion g.
    + unfold latch_ok. rewrite t, h, (gateway_now _ _ g). exact L.
    + now rewrite v.
  - pose proof (latch_ok_counted _ _ _ L Cn) as Ht.
    destruct Cn as (g & h & h' & v & _ & _).
    apply Inv_rerender.
    + now apply gateway_ok_transport with w.
    + unfold gateway_of in g. now inversion g.
    + unfold gateway_of in g. now inversion g.
    + unfold latch_ok. rewrite Ht, h', (gateway_now _ _ g). split; [reflexivity|lia].
    + rewrite v. simpl. lia.
Qed.

Lemma elapse_spec (ms : Z) (w : World) :
  latch_ok w ->
  let w' := elapse ms w in
  latch_ok w'
  /\ now w' = now w + Z.max 0 ms
  /\ (match timeouts w with
      | [t] => if t <=? now w + Z.max 0 ms
               then isHandlingViolation w' = false /\ timeouts w' = []
               else isHandlingViolation w' = true /\ timeouts w' = [t]
      | _ => isHandlingViolation w' = false /\ timeouts w' = []
      end)
  /\ violations w' = violations w /\ props w' = props w
  /\ trace w' = trace w /\ env w' = env w
  /\ listeners w' = listeners w /\ cleanup w' = cleanup w
  /\ intervals w' = intervals w
  /\ devToolsCheckInterval w' = devToolsCheckInterval w
  /\ renders w' = renders w.
Proof.
  destruct w as [v h r p n cl ls ivs nid ts t en tr].
  unfold latch_ok, elapse; simpl. intros L.
  destruct ts as [|d [|d' rest]]; [| |contradiction]; simpl.
  - repeat split; assumption.
  - destruct L as (-> & L). destruct (d <=? t + Z.max 0 ms) eqn:E; simpl.
    + repeat split.
    + apply Z.leb_gt in E. repeat split; lia.
Qed.

Lemma Inv_elapse (V : Variant) (ms : Z) (w : World) :
  Inv V w -> Inv V (elapse ms w).
Proof.
  intros [G L C].
  destruct (elapse_spec ms w L)
    as (L' & _ & _ & Hv & Hp & _ & _ & Hl & Hc & Hi & Hd & Hr).
  constructor; [|exact L'|now rewrite Hv].
  rewrite (current_eq w (elapse ms w)) by assumption.
  unfold gateway_ok in *. rewrite Hl, Hc, Hi, Hd. exact G.
Qed.

Lemma startExam_spec (V : Variant) (c : Closure) (granted : bool) (w : World) :
  let started :=
    match V with
    | Basic => granted
    | Enhanced => true
    | Toggle => negb (isSecurityEnabled (cl_props c)) || granted
    end in
  let w' := snd (startExam V c granted w) in
  violations w' = (if started then 0 else violations w)
  /\ fst (startExam V c granted w)
     = Normal (match V with Enhanced => None | _ => Some started end)
  /\ host_calls (trace w') = host_calls (trace w)
  /\ isHandlingViolation w' = isHandlingViolation w
  /\ timeouts w' = timeouts w /\ now w' = now w
  /\ props w' = props w /\ renders w' = renders w
  /\ listeners w' = listeners w /\ cleanup w' = cleanup w
  /\ intervals w' = intervals w
  /\ devToolsCheckInterval w' = devToolsCheckInterval w.
Proof.
  destruct w as [v h r p n cl ls ivs nid ts t en tr].
  destruct V, granted; try destruct (isSecurityEnabled (cl_props c)) eqn:E;
    unfold startExam, ToggleHook.startExam; rewrite ?E; simpl;
    rewrite ?host_calls_app; simpl; rewrite ?app_nil_r; repeat split.
Qed.

Lemma Inv_startExam (V : Variant) (granted : bool) (w : World) :
  Inv V w -> Inv V (step V (CallStartExam granted) w).
Proof.
  intros [G L C]. simpl.
  destruct (startExam_spec V (current w) granted w)
    as (Hv & _ & _ & Hh & Ht & Hn & Hp & Hr & Hl & Hc & Hi & Hd).
  apply Inv_rerender; try assumption.
  - unfold gateway_ok in *. rewrite Hl, Hc, Hi, Hd. exact G.
  - unfold latch_ok. rewrite Ht, Hh, Hn. exact L.
  - rewrite Hv. destruct (match V with Basic => _ | _ => _ end); lia.
Qed.

Lemma reEnterFullScreen_spec (V : Variant) (c : Closure) (granted : bool)
    (w : World) :
  let w' := snd (reEnterFullScreen V c granted w) in
  fst (reEnterFullScreen V c granted w) = Normal tt
  /\ violations w' = violations w
  /\ isHandlingViolation w' = isHandlingViolation w
  /\ timeouts w' = timeouts w /\ now w' = now w
  /\ props w' = props w /\ renders w' = renders w
  /\ listeners w' = listeners w /\ cleanup w' = cleanup w
  /\ intervals w' = intervals w
  /\ devToolsCheckInterval w' = devToolsCheckInterval w
  /\ warnings (trace w') = warnings (trace w).
Proof.
  destruct w as [v h r p n cl ls ivs nid ts t en tr].
  destruct en as [hid fs ow iw oh ih].
  destruct V, granted, fs;
    try destruct (isSecurityEnabled (cl_props c)) eqn:E;
    unfold reEnterFullScreen, BasicHook.reEnterFullScreen,
      EnhancedHook.reEnterFullScreen, ToggleHook.reEnterFullScreen,
      bind, read, when, try_catch; simpl; rewrite ?E; simpl;
    try destruct (onFinishExam (cl_props c)); simpl;
    rewrite ?warnings_app; simpl; rewrite ?app_nil_r; repeat split.
Qed.

Lemma Inv_reEnter (V : Variant) (granted : bool) (w : World) :
  Inv V w -> Inv V (step V (CallReEnterFullScreen granted) w).
Proof.
  intros [G L C]. simpl.
  destruct (reEnterFullScreen_spec V (current w) granted w)
    as (_ & Hv & Hh & Ht & Hn & Hp & Hr & Hl & Hc & Hi & Hd & _).
  constructor.
  - rewrite (current_eq w _ Hr Hv Hp).
    unfold gateway_ok in *. rewrite Hl, Hc, Hi, Hd. exact G.
  - unfold latch_ok. rewrite Ht, Hh, Hn. exact L.
  - now rewrite Hv.
Qed.

Lemma Inv_step (V : Variant) (a : Action) (w : World) :
  Inv V w -> Inv V (step V a w).
Proof.
  intros I. destruct a as [s|ms|e|g|g|p].
  - now apply Inv_fire.
  - now apply Inv_elapse.
  - destruct I as [G L C]. constructor; assumption.
  - now apply Inv_startExam.
  - now apply Inv_reEnter.
  - destruct I as [G L C]. simpl.
    assert (G0 : gateway_ok V (current w) (set_props p w)) by exact G.
    destruct (render_spec V _ _ G0) as (G' & S' & _).
    constructor; [exact G'| |].
    + unfold latch_ok. rewrite (same_timeouts _ _ S'), (same_latch _ _ S'),
        (same_now _ _ S'). exact L.
    + rewrite (same_violations _ _ S'). exact C.
Qed.

Lemma reachable_Inv (V : Variant) (w : World) : reachable V w -> Inv V w.
Proof.
  induction 1 as [p e|a w _ IH]; [apply Inv_mount|now apply Inv_step].
Qed.

Lemma Inv_run (V : Variant) (acts : list Action) (w : World) :
  Inv V w -> Inv V (run V acts w).
Proof.
  revert w. induction acts as [|a acts IH]; intros w I; simpl; [assumption|].
  apply IH. now apply Inv_step.
Qed.

Lemma reachable_run (V : Variant) (acts : list Action) (w : World) :
  reachable V w -> reachable V (run V acts w).
Proof.
  revert w. induction acts as [|a acts IH]; intros w I; simpl; [assumption|].
  apply IH. now constructor.
Qed.

(** ** Signals that are counted *)

Lemma counts_handleViolation (V : Variant) (c : Closure) (r : string)
    (w : World) :
  isHandlingViolation w = false -> counts c (handleViolation V c r) w.
Proof.
  intros L. destruct (handleViolation_open V c r w L) as (d & E & Hd).
  eexists. split; [exact E|]. now apply counted_world_counted.
Qed.

Lemma counts_read {A} (c : Closure) (f : World -> A) (k : A -> M unit)
    (w : World) :
  counts c (k (f w)) w -> counts c (x <- read f ;; k x) w.
Proof. intros H. exact H. Qed.

Lemma counts_after_emit (c : Closure) (e : Effect) (m : M unit) (w : World) :
  is_host_call e = false ->
  (forall w1, isHandlingViolation w1 = isHandlingViolation w -> counts c m w1) ->
  counts c (emit e ;; m) w.
Proof.
  intros He Hm.
  assert (Q : quiet w (set_trace (trace w ++ [e]) w)).
  { unfold quiet; simpl. repeat split.
    rewrite host_calls_app. simpl. rewrite He. apply app_nil_r. }
  destruct (Hm (set_trace (trace w ++ [e]) w)) as (w2 & E2 & C2);
    [reflexivity|].
  exists w2. split; [exact E2|]. now apply quiet_counted with (2 := C2).
Qed.

Lemma counts_seq_left (c : Closure) (m1 m2 : M unit) (w : World) :
  counts c m1 w -> handler_like c m2 -> counts c (m1 ;; m2) w.
Proof.
  intros (w1 & E1 & C1) H2. destruct (H2 w1) as (w2 & E2 & [Q2|C2]).
  - exists w2. unfold bind. rewrite E1. split; [exact E2|].
    now apply counted_quiet with w1.
  - exfalso. now apply (counted_counted c w w1 w2).
Qed.

Lemma counts_skip (c : Closure) (m1 m2 : M unit) (w : World) :
  counts c m2 w -> counts c (when false m1 ;; m2) w.
Proof. intros H. exact H. Qed.

Lemma counts_when (c : Closure) (m : M unit) (w : World) :
  counts c m w -> counts c (when true m) w.
Proof. intros H. exact H. Qed.

Lemma counts_snd (c : Closure) (m : M unit) (w : World) :
  counts c m w -> counted c w (snd (m w)).
Proof. intros (w' & E & C). now rewrite E. Qed.

Ltac count_step V :=
  lazymatch goal with
  | |- counts _ (bind (read _) _) _ => apply counts_read; cbv beta
  | |- counts _ (when true _) _ => apply counts_when
  | |- counts _ (bind (emit _) _) _ =>
      apply counts_after_emit; [reflexivity|intros ? ?]
  | |- counts _ (BasicHook.handleViolation _ _) _ =>
      apply (counts_handleViolation Basic); congruence
  | |- counts _ (EnhancedHook.handleViolation _ _) _ =>
      apply (counts_handleViolation Enhanced); congruence
  | |- counts _ (ToggleHook.handleViolation _ _) _ =>
      apply (counts_handleViolation Toggle); congruence
  | |- counts _ (bind (when true _) _) _ =>
      apply counts_seq_left; [|repeat handler_step]
  | |- counts _ (bind (when false _) _) _ => apply counts_skip
  | |- _ -> counts _ (bind (when true _) _) _ => intros _
  | |- _ -> counts _ (when true _) _ => intros _
  | |- _ -> counts _ (bind (when false _) _) _ =>
      let T := fresh in intros T; apply counts_skip; revert T
  | |- _ -> counts _ (when false _) _ =>
      let T := fresh in intros T; discriminate T
  | |- _ -> counts _ (bind (when ?b _) _) _ => destruct b
  | |- _ -> counts _ (when ?b _) _ => destruct b
  end.

Lemma handleKeyDown_counts (V : Variant) (c : Closure) (e : Event) (w : World) :
  isHandlingViolation w = false ->
  chord V e = true ->
  counts c (call_listener V (mkListener document keydown fn_handleKeyDown c) e) w.
Proof.
  intros L. destruct V;
    cbn [call_listener l_fn l_closure BasicHook.call EnhancedHook.call
         ToggleHook.call];
    unfold chord, BasicHook.handleKeyDown, EnhancedHook.handleKeyDown,
      ToggleHook.handleKeyDown, e_preventDefault.
  - repeat (count_step Basic).
  - repeat (count_step Enhanced).
  - repeat (count_step Toggle).
Qed.

Lemma fire_counts (V : Variant) (s : Signal) (w : World) :
  gateway_ok V (current w) w ->
  monitoring_eligible V (current w) = true ->
  isHandlingViolation w = false ->
  triggers V (env w) s = true ->
  counted (current w) w (fire V s w).
Proof.
  intros (Hl & _ & Hi) E L T.
  destruct s as [tg e|]; unfold fire.
  - unfold dispatchEvent. rewrite Hl. unfold subscriptions. rewrite E.
    unfold triggers in T.
    destruct tg; destruct (ev_type e) eqn:Ety; try discriminate T;
      destruct V; unfold listens; rewrite Ety;
      cbn [filter l_target l_type Target_eqb EventType_eqb andb fold_left];
      apply counts_snd.
    all: try (now apply handleKeyDown_counts).
    all: cbn [call_listener l_fn l_closure BasicHook.call EnhancedHook.call
              ToggleHook.call];
      unfold BasicHook.handleVisibilityChange, BasicHook.handleBlur,
        BasicHook.handleFullScreenChange, EnhancedHook.handleVisibilityChange,
        EnhancedHook.handleBlur, EnhancedHook.handleFullScreenChange,
        ToggleHook.handleVisibilityChange, ToggleHook.handleBlur,
        ToggleHook.handleFullScreenChange;
      apply counts_read; rewrite ?T; apply counts_when.
    all: first [ apply (counts_handleViolation Basic); assumption
               | apply (counts_handleViolation Enhanced); assumption
               | apply (counts_handleViolation Toggle); assumption ].
  - unfold triggers in T. destruct V; try discriminate T.
    unfold has_interval in Hi. rewrite E in Hi. destruct Hi as (id & _ & Hi).
    unfold fire_intervals. rewrite Hi. cbn [fold_left snd].
    apply counts_snd. unfold EnhancedHook.checkDevTools.
    apply counts_read. fold (devtools_gap (env w)). rewrite T.
    apply counts_when. apply counts_read. rewrite L. apply counts_when.
    now apply (counts_handleViolation Enhanced).
Qed.

(** ** What one signal does to the session *)

Lemma quiet_step (V : Variant) (w w1 : World) :
  quiet w w1 -> step_quiet w (rerender V w w1).
Proof.
  intros (g & v & h & t & c). unfold rerender.
  rewrite v, Z.eqb_refl. unfold gateway_of in g. inversion g.
  repeat split; assumption.
Qed.

Lemma counted_step (V : Variant) (w w1 : World) :
  Inv V w -> counted (current w) w w1 -> step_counted w (rerender V w w1).
Proof.
  intros [G L C] Cn.
  pose proof (latch_ok_counted _ _ _ L Cn) as Ht.
  destruct Cn as (g & h & h' & v & _ & d & Hd & Vd).
  simpl in v, Vd. unfold rerender.
  replace (violations w1 =? violations w) with false
    by (symmetry; apply Z.eqb_neq; lia).
  destruct (render_spec V (current w) w1
              (gateway_ok_transport V _ _ _ g G)) as (_ & [] & _).
  unfold gateway_of in g. inversion g.
  repeat split; try congruence.
  exists d. split; [congruence|assumption].
Qed.

Lemma step_fire_effect (V : Variant) (s : Signal) (w : World) :
  Inv V w ->
  step_quiet w (step V (Fire s) w) \/ step_counted w (step V (Fire s) w).
Proof.
  intros I. simpl. destruct (fire_effect V s w (inv_gateway _ _ I)) as [Q|C].
  - left. now apply quiet_step.
  - right. now apply counted_step.
Qed.

Lemma step_fire_latched (V : Variant) (s : Signal) (w : World) :
  Inv V w -> isHandlingViolation w = true ->
  step_quiet w (step V (Fire s) w).
Proof.
  intros I L. destruct (step_fire_effect V s w I) as [Q|C]; [exact Q|].
  destruct C as (_ & _ & _ & h & _). congruence.
Qed.

Lemma step_fire_counts (V : Variant) (s : Signal) (w : World) :
  Inv V w ->
  monitoring_eligible V (current w) = true ->
  isHandlingViolation w = false ->
  triggers V (env w) s = true ->
  step_counted w (step V (Fire s) w).
Proof.
  intros I E L T. simpl. apply counted_step; [assumption|].
  apply fire_counts; try assumption. apply (inv_gateway _ _ I).
Qed.

Lemma eligible_active (V : Variant) (w : World) :
  monitored_props V (props w) -> 0 <= violations w ->
  monitoring_eligible V (current w) = true.
Proof.
  intros M C. unfold monitoring_eligible; simpl.
  assert ((violations w =? -1) = false) as -> by (apply Z.eqb_neq; lia).
  destruct V; simpl in *; [reflexivity| |];
    destruct M as (-> & ->); reflexivity.
Qed.

Lemma not_eligible_idle (V : Variant) (a : Signal) (w : World) :
  Inv V w -> monitoring_eligible V (current w) = false ->
  step V (Fire a) w = w.
Proof.
  intros [(Hl & _ & Hi) _ _] E. simpl.
  unfold subscriptions in Hl. rewrite E in Hl.
  assert (Hi' : intervals w = []).
  { unfold has_interval in Hi. destruct V; try rewrite E in Hi; exact Hi. }
  destruct a as [tg e|]; unfold fire, dispatchEvent, fire_intervals;
    rewrite ?Hl, ?Hi'; simpl; unfold rerender; now rewrite Z.eqb_refl.
Qed.

(** The classification [triggers] is exact: a signal that is not
    violation-triggering counts nothing. *)
Lemma quiet_emit (e : Effect) (w : World) :
  is_host_call e = false -> quiet w (set_trace (trace w ++ [e]) w).
Proof.
  intros He. unfold quiet; simpl. repeat split.
  rewrite host_calls_app. simpl. rewrite He. apply app_nil_r.
Qed.

Lemma fire_not_triggered (V : Variant) (s : Signal) (w : World) :
  gateway_ok V (current w) w ->
  triggers V (env w) s = false ->
  quiet w (fire V s w).
Proof.
  intros (Hl & _ & Hi) T.
  destruct (monitoring_eligible V (current w)) eqn:E.
  - destruct s as [tg e|]; unfold fire.
    + unfold dispatchEvent. rewrite Hl. unfold subscriptions. rewrite E.
      unfold triggers in T.
      destruct tg; destruct (ev_type e) eqn:Ety;
        destruct V; unfold listens; rewrite Ety;
        cbn [filter l_target l_type Target_eqb EventType_eqb andb fold_left
             call_listener l_fn l_closure BasicHook.call EnhancedHook.call
             ToggleHook.call];
        try apply quiet_refl;
        unfold BasicHook.handleVisibilityChange, BasicHook.handleBlur,
          BasicHook.handleFullScreenChange, BasicHook.handleContextMenu,
          BasicHook.preventAction,
          EnhancedHook.handleVisibilityChange, EnhancedHook.handleBlur,
          EnhancedHook.handleFullScreenChange, EnhancedHook.preventDefault,
          EnhancedHook.preventClipboardAction,
          ToggleHook.handleVisibilityChange, ToggleHook.handleBlur,
          ToggleHook.handleFullScreenChange, ToggleHook.handleContextMenu,
          ToggleHook.preventAction, e_preventDefault, alert, bind, read;
        rewrite ?T; cbn [when ret snd emit modify];
        try apply quiet_refl;
        try (apply quiet_emit; reflexivity);
        try (eapply quiet_trans; apply quiet_emit; reflexivity).
      all: unfold chord in T;
        unfold BasicHook.handleKeyDown, EnhancedHook.handleKeyDown,
          ToggleHook.handleKeyDown;
        repeat (apply orb_false_elim in T; destruct T as (T & ?));
        repeat match goal with
               | H : _ = false |- _ => rewrite H; clear H
               end;
        apply quiet_refl.
    + unfold triggers in T. unfold has_interval in Hi. unfold fire_intervals.
      destruct V; [rewrite Hi; apply quiet_refl| |rewrite Hi; apply quiet_refl].
      rewrite E in Hi. destruct Hi as (id & _ & Hi).
      rewrite Hi. cbn [fold_left snd].
      unfold EnhancedHook.checkDevTools, bind, read.
      fold (devtools_gap (env w)). rewrite T. apply quiet_refl.
  - unfold subscriptions in Hl. rewrite E in Hl.
    assert (Hi' : intervals w = []).
    { unfold has_interval in Hi. destruct V; try rewrite E in Hi; exact Hi. }
    destruct s as [tg e|]; unfold fire, dispatchEvent, fire_intervals;
      rewrite ?Hl, ?Hi'; apply quiet_refl.
Qed.

Lemma step_fire_not_triggered (V : Variant) (s : Signal) (w : World) :
  Inv V w -> triggers V (env w) s = false ->
  step_quiet w (step V (Fire s) w).
Proof.
  intros I T. simpl. apply quiet_step.
  apply fire_not_triggered; [apply (inv_gateway _ _ I)|exact T].
Qed.

(** ** The violation handler *)

Lemma release_after_cooldown (ts : list Z) (w : World) :
  ts <> [] ->
  isHandlingViolation
    (fold_left (fun w' (_ : Z) => set_isHandlingViolation false w') ts w)
  = false.
Proof.
  revert w. induction ts as [|t ts IH]; intros w H; [contradiction|].
  simpl. destruct ts as [|t' ts']; [reflexivity|].
  apply IH. discriminate.
Qed.

(** C10. For every violation handled (the latch being open), whether or not
    the host supplied [onWarning] and [onFinishExam]: the handler returns
    normally, the counter is the count of the render plus one, the latch is
    set with its release scheduled 500 ms later, and once 500 ms have passed
    the latch is open again. With both callbacks absent nothing is called;
    a call without optional chaining would have thrown. *)
Theorem C10_absent_callbacks_are_safe
    (V : Variant) (c : Closure) (reason : string) (w : World) :
  isHandlingViolation w = false ->
  let r := handleViolation V c reason w in
  fst r = Normal tt
  /\ violations (snd r) = cl_violations c + 1
  /\ (c = current w -> violations (snd r) = violations w + 1)
  /\ isHandlingViolation (snd r) = true
  /\ timeouts (snd r) = (timeouts w ++ [now w + 500])%list
  /\ isHandlingViolation (elapse 500 (snd r)) = false
  /\ (onWarning (cl_props c) = None -> onFinishExam (cl_props c) = None ->
      trace (snd r) = trace w)
  /\ fst (plain_call None CallOnFinishExam w) <> Normal tt.
Proof.
  intros L r. subst r.
  destruct (handleViolation_open V c reason w L) as (d & E & Hd).
  rewrite E. cbn [fst snd].
  split; [reflexivity|]. split; [reflexivity|].
  split; [intros ->; reflexivity|]. split; [reflexivity|].
  split; [reflexivity|]. split; [|split; [|discriminate]].
  - unfold elapse. apply release_after_cooldown.
    cbn [timeouts counted_world set_timeouts set_now now set_trace
         set_violations set_isHandlingViolation].
    rewrite filter_app. cbn [filter].
    replace (now w + 500 <=? now w + Z.max 0 500) with true
      by (symmetry; apply Z.leb_le; lia).
    intros H. apply app_eq_nil in H. destruct H as (_ & H). discriminate H.
  - intros Hw Hf. unfold verdict in Hd. rewrite Hw, Hf in Hd.
    destruct (cl_violations c + 1 <=? maxViolations (cl_props c));
      subst d; simpl; apply app_nil_r.
Qed.

(** The property at a concrete violation: no callbacks, count 0, limit 3. *)
Lemma C10_absent_callbacks_are_safe_witness :
  let c := mkClosure 1 0 (mkProps None 3 None true false) in
  let w := set_violations 0
             (mount Enhanced (mkProps None 3 None true false)
                (mkEnv false true 0 0 0 0)) in
  let r := handleViolation Enhanced c "switched tabs" w in
  fst r = Normal tt
  /\ violations (snd r) = 1
  /\ isHandlingViolation (snd r) = true
  /\ isHandlingViolation (elapse 500 (snd r)) = false
  /\ trace (snd r) = [].
Proof.
  intros c w r.
  destruct (C10_absent_callbacks_are_safe Enhanced c "switched tabs" w
              eq_refl) as (H1 & H2 & _ & H4 & _ & H6 & H7 & _).
  exact (conj H1 (conj H2 (conj H4 (conj H6 (H7 eq_refl eq_refl))))).
Defined.

Lemma verdict_past_limit (p : Props) (n : Z) (d : list Effect) :
  maxViolations p < n -> verdict p n d ->
  warnings d = [] /\ d = match onFinishExam p with
                         | Some _ => [CallOnFinishExam]
                         | None => []
                         end.
Proof.
  intros H. unfold verdict.
  replace (n <=? maxViolations p) with false
    by (symmetry; apply Z.leb_gt; lia).
  destruct (onFinishExam p); intros ->; split; reflexivity.
Qed.

(** Once the count has reached the limit, no step other than a restart or a
    change of the arguments emits a warning, and the count does not go
    down. *)
Lemma no_warning_step (V : Variant) (a : Action) (w : World) :
  Inv V w -> maxViolations (props w) <= violations w ->
  no_restart a = true ->
  props (step V a w) = props w
  /\ violations w <= violations (step V a w)
  /\ warnings (trace (step V a w)) = warnings (trace w).
Proof.
  intros I M N. destruct a as [s|ms|e|g|g|p]; try discriminate N.
  - destruct (step_fire_effect V s w I) as [Q|C].
    + destruct Q as (Hp & _ & _ & Hv & _ & _ & Hc).
      rewrite Hp, Hv. repeat split; [lia|].
      now rewrite <- warnings_host, Hc, warnings_host.
    + destruct C as (Hp & _ & _ & _ & _ & Hv & _ & d & Hc & Hd).
      rewrite Hp, Hv. repeat split; [lia|].
      assert (Hlt : maxViolations (props w) < violations w + 1) by lia.
      destruct (verdict_past_limit _ _ _ Hlt Hd) as (Hw & _).
      rewrite <- warnings_host, Hc, warnings_app, Hw, app_nil_r.
      apply warnings_host.
  - destruct (elapse_spec ms w (inv_latch _ _ I))
      as (_ & _ & _ & Hv & Hp & Ht & _).
    simpl. rewrite Hp, Hv, Ht. repeat split; lia.
  - simpl. repeat split; lia.
  - destruct (reEnterFullScreen_spec V (current w) g w)
      as (_ & Hv & _ & _ & _ & Hp & _ & _ & _ & _ & _ & Hw).
    simpl. rewrite Hp, Hv, Hw. repeat split; lia.
Qed.

Lemma no_warning_run (V : Variant) (acts : list Action) (w : World) :
  Inv V w -> maxViolations (props w) <= violations w ->
  forallb no_restart acts = true ->
  warnings (trace (run V acts w)) = warnings (trace w).
Proof.
  revert w. induction acts as [|a acts IH]; intros w I M N; [reflexivity|].
  simpl in N. apply andb_true_iff in N. destruct N as (Na & N).
  destruct (no_warning_step V a w I M Na) as (Hp & Hv & Hw).
  simpl. rewrite IH; [exact Hw| |rewrite Hp; lia|exact N].
  now apply Inv_step.
Qed.

(** C1 (amended). For every call of the violation handler that passes the
    guard, with both callbacks supplied and [n] the new count: below the
    limit [onWarning] is called once with a WARNING message, at the limit it
    is called once with the FINAL WARNING message, and past the limit
    [onFinishExam] is called once by that call and [onWarning] is not; and in
    a session whose count has reached the limit no later step emits a
    warning, as long as the host neither restarts the exam nor changes the
    arguments. *)
Theorem C1_outcome_by_count (V : Variant) :
  (forall (c : Closure) (reason : string) (w : World),
     isHandlingViolation w = false ->
     onWarning (cl_props c) <> None ->
     onFinishExam (cl_props c) <> None ->
     let n := cl_violations c + 1 in
     let w' := snd (handleViolation V c reason w) in
     violations w' = n
     /\ (n < maxViolations (cl_props c) ->
         exists m, trace w' = (trace w ++ [CallOnWarning m])%list
                   /\ is_WARNING m = true /\ is_FINAL_WARNING m = false)
     /\ (n = maxViolations (cl_props c) ->
         exists m, trace w' = (trace w ++ [CallOnWarning m])%list
                   /\ is_FINAL_WARNING m = true /\ is_WARNING m = false)
     /\ (maxViolations (cl_props c) < n ->
         trace w' = (trace w ++ [CallOnFinishExam])%list))
  /\ (forall (w : World) (acts : list Action),
        reachable V w ->
        maxViolations (props w) <= violations w ->
        forallb no_restart acts = true ->
        warnings (trace (run V acts w)) = warnings (trace w)).
Proof.
  split.
  - intros c reason w L Hw Hf n w'. subst n w'.
    destruct (handleViolation_open V c reason w L) as (d & E & Hd).
    rewrite E. cbn [snd]. split; [reflexivity|].
    change (trace (counted_world c d w)) with (trace w ++ d)%list.
    unfold verdict in Hd.
    destruct (onWarning (cl_props c)) as [fw|]; [|contradiction].
    destruct (onFinishExam (cl_props c)) as [ff|]; [|contradiction].
    destruct (cl_violations c + 1 <=? maxViolations (cl_props c)) eqn:E1;
      [apply Z.leb_le in E1|apply Z.leb_gt in E1].
    + destruct Hd as (m & -> & Hfin & Hwarn).
      destruct (cl_violations c + 1 =? maxViolations (cl_props c)) eqn:E2;
        [apply Z.eqb_eq in E2|apply Z.eqb_neq in E2].
      * split; [lia|]. split; [|lia]. intros _. exists m. auto.
      * split; [|split; [contradiction|lia]]. intros _. exists m. auto.
    + subst d. split; [lia|]. split; [lia|]. reflexivity.
  - intros w acts R M N. apply no_warning_run; try assumption.
    now apply reachable_Inv.
Qed.

(** The amended C1 at a concrete violation (count 0, limit 3) and in a
    concrete session that reached the limit. *)
Lemma C1_outcome_by_count_witness :
  (exists m,
     trace (snd (handleViolation Toggle (current (started Toggle))
                   "Switched tabs" (started Toggle)))
     = (trace (started Toggle) ++ [CallOnWarning m])%list
     /\ is_WARNING m = true /\ is_FINAL_WARNING m = false)
  /\ warnings (trace (run Toggle [Elapse 600; Fire (signal tab_switch)]
                        (play Toggle [tab_switch; tab_switch; tab_switch]
                           (started Toggle))))
     = warnings (trace (play Toggle [tab_switch; tab_switch; tab_switch]
                          (started Toggle))).
Proof.
  destruct (C1_outcome_by_count Toggle) as (H1 & H2). split.
  - destruct (H1 (current (started Toggle)) "Switched tabs" (started Toggle)
                eq_refl ltac:(discriminate) ltac:(discriminate))
      as (_ & Hlt & _).
    apply Hlt. vm_compute. reflexivity.
  - apply H2.
    + apply reachable_run. apply reach_step. apply reach_mount.
    + apply Z.leb_le. vm_compute. reflexivity.
    + reflexivity.
Defined.

(** C1, as stated, fails: in a session with limit 3 and five violations more
    than 500 ms apart, [onFinishExam] is called twice, not once. *)
Lemma C1_counterexample_finish_twice :
  let w := play Toggle [tab_switch; tab_switch; tab_switch; tab_switch;
                        tab_switch] (started Toggle) in
  maxViolations (props w) = 3 /\ violations w = 5
  /\ finish_calls (trace w) = 2%nat /\ finish_calls (trace w) <> 1%nat.
Proof. vm_compute. repeat split; discriminate. Qed.

(** ** The fullscreen lifecycle *)

(** C6. [reEnterFullScreen] while the document is fullscreen changes nothing
    and requests nothing; when the request is made (the document is not
    fullscreen, and security is enabled where the hook has the switch) and
    rejected, the promise still resolves, [onFinishExam] is called exactly
    once by that call, and nothing else changes. *)
Theorem C6_reEnterFullScreen (V : Variant) (c : Closure) (w : World) :
  (forall granted, fullscreenElement (env w) = true ->
     reEnterFullScreen V c granted w = (Normal tt, w))
  /\ (fullscreenElement (env w) = false ->
      (V = Basic \/ isSecurityEnabled (cl_props c) = true) ->
      onFinishExam (cl_props c) <> None ->
      let r := reEnterFullScreen V c false w in
      fst r = Normal tt
      /\ snd r = set_trace
                   (trace w ++ [RequestFullscreen;
                                ConsoleError "Could not re-enter fullscreen: TypeError: fullscreen request denied";
                                CallOnFinishExam]) w
      /\ finish_calls (trace (snd r)) = S (finish_calls (trace w))).
Proof.
  destruct w as [v h r p n cl ls ivs nid ts t en tr].
  destruct en as [hid fs ow iw oh ih]. split.
  - intros granted Hfs. simpl in Hfs. subst fs.
    destruct V; unfold reEnterFullScreen, BasicHook.reEnterFullScreen,
      EnhancedHook.reEnterFullScreen, ToggleHook.reEnterFullScreen,
      bind, read, when, try_catch; simpl;
      try rewrite andb_false_r;
      try destruct (isSecurityEnabled (cl_props c)); reflexivity.
  - intros Hfs Hsec Hf. simpl in Hfs. subst fs.
    destruct (onFinishExam (cl_props c)) as [f|] eqn:Ef; [|contradiction].
    assert (Hs : V = Basic \/ isSecurityEnabled (cl_props c) = true)
      by exact Hsec.
    destruct V; [|destruct Hs as [Hs|Hs]; [discriminate Hs|]..];
      unfold reEnterFullScreen, BasicHook.reEnterFullScreen,
        EnhancedHook.reEnterFullScreen, ToggleHook.reEnterFullScreen,
        bind, read, when, try_catch; simpl; rewrite ?Hs, ?Ef; simpl;
      rewrite <- ?app_assoc; simpl;
      (split; [reflexivity|]); (split; [reflexivity|]);
      rewrite finish_calls_app; simpl; apply Nat.add_1_r.
Qed.

(** C6 on the sample page: fullscreen, then left fullscreen and refused. *)
Lemma C6_reEnterFullScreen_witness :
  reEnterFullScreen Enhanced (current (started Enhanced)) false
    (started Enhanced)
  = (Normal tt, started Enhanced)
  /\ finish_calls
       (trace (snd (reEnterFullScreen Toggle (current (started Toggle)) false
                      (set_env windowed (started Toggle)))))
     = 1%nat.
Proof.
  split.
  - exact (proj1 (C6_reEnterFullScreen Enhanced (current (started Enhanced))
                    (started Enhanced)) false eq_refl).
  - destruct (proj2 (C6_reEnterFullScreen Toggle (current (started Toggle))
                       (set_env windowed (started Toggle)))
                eq_refl (or_intror eq_refl) ltac:(discriminate))
      as (_ & _ & H).
    exact H.
Defined.

Lemma same_session_refl (w : World) : same_session w w.
Proof. constructor; reflexivity. Qed.

Lemma rerender_same (V : Variant) (w w1 : World) :
  gateway_ok V (current w) w1 -> same_session w1 (rerender V w w1).
Proof.
  intros G. unfold rerender.
  destruct (violations w1 =? violations w); [apply same_session_refl|].
  apply (render_spec V _ _ G).
Qed.

Lemma startExam_step (V : Variant) (granted : bool) (w : World) :
  Inv V w ->
  same_session (snd (startExam V (current w) granted w))
    (step V (CallStartExam granted) w).
Proof.
  intros [G L C]. simpl. apply rerender_same.
  destruct (startExam_spec V (current w) granted w)
    as (_ & _ & _ & _ & _ & _ & _ & _ & Hl & Hc & Hi & Hd).
  unfold gateway_ok in *. rewrite Hl, Hc, Hi, Hd. exact G.
Qed.

(** C7. In the hooks whose [startExam] requests fullscreen ([Basic], and
    [Toggle] with security enabled), a rejected request shows a blocking
    notice, changes nothing else (so [violations] stays -1 and the session
    does not become active), and resolves to [false]; calling [startExam]
    again, the request now being granted, resolves to [true] and starts the
    exam. *)
Theorem C7_startExam_rejected (V : Variant) (w : World) :
  reachable V w ->
  V <> Enhanced ->
  (V = Toggle -> isSecurityEnabled (props w) = true) ->
  let r := startExam V (current w) false w in
  let w1 := step V (CallStartExam false) w in
  fst r = Normal (Some false)
  /\ (exists notice,
        trace (snd r) = (trace w ++ [RequestFullscreen; Alert notice])%list)
  /\ snd r = set_trace (trace (snd r)) w
  /\ w1 = snd r
  /\ (violations w = -1 -> violations w1 = -1)
  /\ fst (startExam V (current w1) true w1) = Normal (Some true)
  /\ violations (step V (CallStartExam true) w1) = 0.
Proof.
  intros R HV Hsec r w1.
  assert (Hr : fst r = Normal (Some false)
               /\ (exists notice,
                     trace (snd r)
                     = (trace w ++ [RequestFullscreen; Alert notice])%list)
               /\ snd r = set_trace (trace (snd r)) w).
  { subst r. destruct w as [v h rf p n cl ls ivs nid ts t en tr].
    destruct V; [|contradiction|].
    - simpl. rewrite <- app_assoc.
      split; [reflexivity|split; [eexists; reflexivity|reflexivity]].
    - specialize (Hsec eq_refl). simpl in Hsec.
      unfold startExam, ToggleHook.startExam, current. simpl. rewrite Hsec.
      simpl. rewrite <- app_assoc.
      split; [reflexivity|split; [eexists; reflexivity|reflexivity]]. }
  destruct Hr as (H1 & H2 & H3).
  assert (Hw1 : w1 = snd r).
  { subst w1. simpl. fold r. unfold rerender.
    rewrite H3. simpl. now rewrite Z.eqb_refl. }
  assert (I1 : Inv V w1) by (apply Inv_step; now apply reachable_Inv).
  assert (Hp1 : props w1 = props w) by (rewrite Hw1, H3; reflexivity).
  split; [exact H1|]. split; [exact H2|]. split; [exact H3|].
  split; [exact Hw1|]. split; [intros Hv; rewrite Hw1, H3; exact Hv|].
  destruct (startExam_spec V (current w1) true w1) as (Hv & Hf & _).
  pose proof (startExam_step V true w1 I1) as S1.
  assert (Hst : match V with
                | Basic => true
                | Enhanced => true
                | Toggle => negb (isSecurityEnabled (cl_props (current w1)))
                            || true
                end = true).
  { destruct V; try reflexivity. apply orb_true_r. }
  rewrite Hst in Hv, Hf. split.
  - rewrite Hf. destruct V; [reflexivity|contradiction|reflexivity].
  - rewrite (same_violations _ _ S1). exact Hv.
Qed.

(** C7 on the sample page, from the first render. *)
Lemma C7_startExam_rejected_witness :
  violations (step Toggle (CallStartExam false)
                (mount Toggle sample_props sample_env)) = -1
  /\ violations (step Toggle (CallStartExam true)
                   (step Toggle (CallStartExam false)
                      (mount Toggle sample_props sample_env))) = 0.
Proof.
  destruct (C7_startExam_rejected Toggle
              (mount Toggle sample_props sample_env)
              (reach_mount Toggle sample_props sample_env)
              ltac:(discriminate) (fun _ => eq_refl))
    as (_ & _ & _ & _ & H5 & _ & H7).
  exact (conj (H5 eq_refl) H7).
Defined.

(** C4 (amended). Calling [startExam] while the session is active is not a
    no-op: when it goes through (always in [Enhanced]; when the request is
    granted in [Basic]; when the request is granted or security is disabled
    in [Toggle]) it sets [violations] to 0 whatever the count was, and it
    leaves the count as it is only when the request is rejected. It never
    touches the latch nor its pending release, and in [Enhanced] it changes
    nothing at all when the count is already 0. *)
Theorem C4_startExam_resets_count (V : Variant) (granted : bool) (w : World) :
  reachable V w -> 0 <= violations w ->
  let goes_through :=
    match V with
    | Basic => granted
    | Enhanced => true
    | Toggle => negb (isSecurityEnabled (props w)) || granted
    end in
  let w' := step V (CallStartExam granted) w in
  violations w' = (if goes_through then 0 else violations w)
  /\ isHandlingViolation w' = isHandlingViolation w
  /\ timeouts w' = timeouts w
  /\ (V = Enhanced -> violations w = 0 -> w' = w).
Proof.
  intros R _ g w'. subst g w'.
  pose proof (reachable_Inv V w R) as I.
  pose proof (startExam_step V granted w I) as S1.
  destruct (startExam_spec V (current w) granted w)
    as (Hv & _ & _ & Hh & Ht & _).
  rewrite (same_violations _ _ S1), (same_latch _ _ S1), (same_timeouts _ _ S1).
  split; [exact Hv|]. split; [exact Hh|]. split; [exact Ht|].
  intros -> H0. destruct w as [v h r p n cl ls ivs nid ts t en tr].
  simpl in H0. subst v. reflexivity.
Qed.

(** The amended C4 after two counted violations. *)
Lemma C4_startExam_resets_count_witness :
  violations (step Enhanced (CallStartExam true)
                (play Enhanced [tab_switch; tab_switch] (started Enhanced)))
  = 0.
Proof.
  refine (proj1 (C4_startExam_resets_count Enhanced true
                   (play Enhanced [tab_switch; tab_switch] (started Enhanced))
                   _ _)).
  - apply reachable_run. apply reach_step. apply reach_mount.
  - apply Z.leb_le. vm_compute. reflexivity.
Defined.

(** C4, as stated, fails: with two violations counted, [startExam] puts the
    count back to 0. *)
Lemma C4_counterexample_restart_resets :
  let w := play Enhanced [tab_switch; tab_switch] (started Enhanced) in
  violations w = 2
  /\ violations (step Enhanced (CallStartExam true) w) = 0
  /\ step Enhanced (CallStartExam true) w <> w.
Proof.
  cbv zeta. split; [vm_compute; reflexivity|].
  split; [vm_compute; reflexivity|].
  intros H. apply (f_equal violations) in H. vm_compute in H. discriminate H.
Qed.

(** ** The event gateway *)

Lemma subscriptions_nonempty (V : Variant) (c : Closure) :
  subscriptions V c <> [] <-> monitoring_eligible V c = true.
Proof.
  unfold subscriptions. destruct (monitoring_eligible V c).
  - split; [reflexivity|]. intros _. destruct V; discriminate.
  - split; [intros H; now contradiction H|discriminate].
Qed.

Lemma listeners_eligible (V : Variant) (w : World) :
  Inv V w -> listeners w <> [] -> monitoring_eligible V (current w) = true.
Proof.
  intros [(Hl & _) _ _] H. rewrite Hl in H. now apply subscriptions_nonempty.
Qed.

(** C5. In the hooks that have the master switch, in every reachable world:
    there are listeners (and, in [Enhanced], the interval) exactly when the
    session is active, security is enabled and the final submission has not
    begun; so with security disabled or the final submission under way, any
    signal leaves the world as it is, and calls neither [onWarning] nor
    [onFinishExam]. *)
Theorem C5_subscribed_iff_eligible (V : Variant) (w : World) :
  V <> Basic -> reachable V w ->
  (listeners w <> [] <->
   0 <= violations w /\ isSecurityEnabled (props w) = true
   /\ isFinalSubmission (props w) = false)
  /\ (V = Enhanced ->
      (intervals w <> [] <->
       0 <= violations w /\ isSecurityEnabled (props w) = true
       /\ isFinalSubmission (props w) = false))
  /\ (isSecurityEnabled (props w) = false \/ isFinalSubmission (props w) = true ->
      forall s, step V (Fire s) w = w
                /\ host_calls (trace (step V (Fire s) w))
                   = host_calls (trace w)).
Proof.
  intros HV R. pose proof (reachable_Inv V w R) as I.
  assert (E : monitoring_eligible V (current w) = true <->
              0 <= violations w /\ isSecurityEnabled (props w) = true
              /\ isFinalSubmission (props w) = false).
  { pose proof (inv_count _ _ I) as C.
    unfold monitoring_eligible; simpl.
    destruct V; [contradiction| |];
      destruct (isSecurityEnabled (props w)), (isFinalSubmission (props w)),
        (Z.eqb_spec (violations w) (-1)); simpl;
      split; try discriminate; try (intros (_ & ? & ?); discriminate);
      try (intros (? & _); lia); intros _; repeat split; lia. }
  destruct I as [(Hl & Hc & Hi) L C].
  split; [|split].
  - rewrite <- E, Hl. apply subscriptions_nonempty.
  - intros ->. rewrite <- E. unfold has_interval in Hi.
    destruct (monitoring_eligible Enhanced (current w)).
    + destruct Hi as (id & _ & ->). split; [reflexivity|discriminate].
    + rewrite Hi. split; [intros H; now contradiction H|discriminate].
  - intros H s.
    assert (E' : monitoring_eligible V (current w) = false).
    { destruct (monitoring_eligible V (current w)); [|reflexivity].
      destruct (proj1 E eq_refl) as (_ & Hs & Hf).
      destruct H as [H|H]; congruence. }
    rewrite (not_eligible_idle V s w (mkInv V w (conj Hl (conj Hc Hi)) L C) E').
    split; reflexivity.
Qed.

(** C5 on two reachable worlds: the sample exam, and the same exam once the
    host has set the final-submission flag. *)
Lemma C5_subscribed_iff_eligible_witness :
  listeners (started Toggle) <> []
  /\ step Enhanced (Fire (signal tab_switch))
       (step Enhanced
          (Rerender (mkProps (Some HostFunction) 3 (Some HostFunction) true true))
          (set_env tab_hidden (started Enhanced)))
     = step Enhanced
         (Rerender (mkProps (Some HostFunction) 3 (Some HostFunction) true true))
         (set_env tab_hidden (started Enhanced)).
Proof.
  split.
  - apply (proj1 (C5_subscribed_iff_eligible Toggle (started Toggle)
                    ltac:(discriminate)
                    (reach_step Toggle _ _ (reach_mount Toggle _ _)))).
    repeat split. apply Z.leb_le. reflexivity.
  - apply (proj2 (proj2 (C5_subscribed_iff_eligible Enhanced _
                           ltac:(discriminate)
                           (reach_step Enhanced (Rerender _) _
                              (reach_step Enhanced (Ambient tab_hidden) _
                                 (reach_step Enhanced _ _
                                    (reach_mount Enhanced _ _))))))).
    right. reflexivity.
Defined.

Lemma trace_only_step (V : Variant) (w : World) (tr : list Effect) :
  rerender V w (set_trace tr w) = set_trace tr w.
Proof. unfold rerender. simpl. now rewrite Z.eqb_refl. Qed.

Lemma set_trace_twice (a b : list Effect) (w : World) :
  set_trace (trace (set_trace b w) ++ a) (set_trace b w)
  = set_trace ((b ++ a)%list) w.
Proof. reflexivity. Qed.

(** C8 (amended). In the [Enhanced] hook, while monitoring is active, every
    context-menu, drag-start, select-start, copy, paste and cut event is
    default-prevented each time it fires, whether or not the latch is set,
    and changes nothing else: the counter stays, and neither [onWarning] nor
    [onFinishExam] is called. The clipboard events also show a notice; the
    context menu, drag and selection show none. *)
Theorem C8_suppressed_actions (w : World) (e : Event) :
  reachable Enhanced w -> listeners w <> [] ->
  let w' := step Enhanced (Fire (Browser document e)) w in
  (suppressed_only (ev_type e) = true ->
   w' = set_trace (trace w ++ [PreventDefault (ev_type e)]) w)
  /\ (clipboard (ev_type e) = true ->
      exists notice,
        w' = set_trace (trace w ++ [PreventDefault (ev_type e); Alert notice]) w)
  /\ (suppressed_only (ev_type e) = true \/ clipboard (ev_type e) = true ->
      violations w' = violations w
      /\ isHandlingViolation w' = isHandlingViolation w
      /\ host_calls (trace w') = host_calls (trace w)).
Proof.
  intros R Hne w'. pose proof (reachable_Inv _ _ R) as I.
  pose proof (listeners_eligible _ _ I Hne) as E.
  destruct I as [(Hl & _) _ _].
  assert (H : (suppressed_only (ev_type e) = true ->
               w' = set_trace (trace w ++ [PreventDefault (ev_type e)]) w)
              /\ (clipboard (ev_type e) = true ->
                  exists notice,
                    w' = set_trace
                           (trace w ++ [PreventDefault (ev_type e); Alert notice])
                           w)).
  { subst w'. simpl. unfold dispatchEvent. rewrite Hl.
    unfold subscriptions. rewrite E.
    split; intros Hty; destruct (ev_type e) eqn:Ety; try discriminate Hty;
      unfold listens; rewrite Ety;
      cbn [filter l_target l_type Target_eqb EventType_eqb andb fold_left
           call_listener l_fn l_closure EnhancedHook.call];
      unfold EnhancedHook.preventDefault, EnhancedHook.preventClipboardAction,
        e_preventDefault, alert, emit, modify, bind; rewrite Ety;
      cbn [snd]; rewrite ?set_trace_twice, <- ?app_assoc; cbn [app];
      try eexists; apply trace_only_step. }
  destruct H as (H1 & H2).
  split; [exact H1|]. split; [exact H2|].
  intros [Hs|Hc].
  - rewrite (H1 Hs). simpl. repeat split.
    rewrite host_calls_app. simpl. apply app_nil_r.
  - destruct (H2 Hc) as (notice & ->). simpl. repeat split.
    rewrite host_calls_app. simpl. apply app_nil_r.
Qed.

(** The amended C8 on the sample exam: a copy, with the latch open. *)
Lemma C8_suppressed_actions_witness :
  violations (step Enhanced (Fire (Browser document (plain_event copy)))
                (started Enhanced)) = 0
  /\ host_calls (trace (step Enhanced
                          (Fire (Browser document (plain_event copy)))
                          (started Enhanced))) = [].
Proof.
  destruct (C8_suppressed_actions (started Enhanced) (plain_event copy)
              (reach_step Enhanced _ _ (reach_mount Enhanced _ _))
              ltac:(discriminate)) as (_ & _ & H).
  destruct (H (or_intror eq_refl)) as (Hv & _ & Hc).
  exact (conj Hv Hc).
Defined.

(** C8, as stated, fails: in the sample exam a context-menu event is
    prevented but shows no notice; and before the exam has started a copy is
    not prevented at all. *)
Lemma C8_counterexample_no_notice :
  trace (step Enhanced (Fire (Browser document (plain_event contextmenu)))
           (started Enhanced)) = [PreventDefault contextmenu]
  /\ filter is_alert
       (trace (step Enhanced
                 (Fire (Browser document (plain_event contextmenu)))
                 (started Enhanced))) = []
  /\ trace (step Enhanced (Fire (Browser document (plain_event copy)))
              (mount Enhanced sample_props sample_env)) = [].
Proof. vm_compute. repeat split. Qed.

(** C9. While monitoring is active, a blur of the window is forwarded to the
    violation handler exactly when the document is fullscreen (with the
    reason "switched window" in [Enhanced]); when it is not fullscreen the
    blur changes nothing. So, the latch being open, the blur is counted if
    and only if the document is fullscreen. *)
Theorem C9_blur_counts_iff_fullscreen (V : Variant) (w : World) (e : Event) :
  reachable V w -> listeners w <> [] -> ev_type e = blur ->
  let w' := step V (Fire (Browser window e)) w in
  (fullscreenElement (env w) = false -> w' = w)
  /\ (fullscreenElement (env w) = true ->
      fire V (Browser window e) w
      = snd (handleViolation V (current w) (blur_reason V) w))
  /\ (isHandlingViolation w = false ->
      (violations w' = violations w + 1 <-> fullscreenElement (env w) = true)).
Proof.
  intros R Hne Ety w'. pose proof (reachable_Inv _ _ R) as I.
  pose proof (listeners_eligible _ _ I Hne) as E.
  assert (F : fire V (Browser window e) w
              = if fullscreenElement (env w)
                then snd (handleViolation V (current w) (blur_reason V) w)
                else w).
  { destruct I as [(Hl & _) _ _]. unfold fire, dispatchEvent. rewrite Hl.
    unfold subscriptions. rewrite E.
    destruct V; unfold listens; rewrite Ety;
      cbn [filter l_target l_type Target_eqb EventType_eqb andb fold_left
           call_listener l_fn l_closure BasicHook.call EnhancedHook.call
           ToggleHook.call];
      unfold BasicHook.handleBlur, EnhancedHook.handleBlur,
        ToggleHook.handleBlur, bind, read;
      destruct (fullscreenElement (env w)); reflexivity. }
  assert (H1 : fullscreenElement (env w) = false -> w' = w).
  { intros Hfs. subst w'. unfold step. rewrite F, Hfs.
    unfold rerender. now rewrite Z.eqb_refl. }
  split; [exact H1|]. split.
  - intros Hfs. now rewrite F, Hfs.
  - intros L. split.
    + intros Hv. destruct (fullscreenElement (env w)) eqn:Hfs; [reflexivity|].
      rewrite (H1 eq_refl) in Hv. lia.
    + intros Hfs.
      destruct (step_fire_counts V (Browser window e) w I E L)
        as (_ & _ & _ & _ & _ & Hv & _); [|exact Hv].
      simpl. now rewrite Ety.
Qed.

(** C9 on the sample exam, fullscreen and then windowed. *)
Lemma C9_blur_counts_iff_fullscreen_witness :
  violations (step Enhanced (Fire (Browser window (plain_event blur)))
                (started Enhanced)) = 1
  /\ step Toggle (Fire (Browser window (plain_event blur)))
       (set_env windowed (started Toggle))
     = set_env windowed (started Toggle).
Proof.
  split.
  - destruct (C9_blur_counts_iff_fullscreen Enhanced (started Enhanced)
                (plain_event blur)
                (reach_step Enhanced _ _ (reach_mount Enhanced _ _))
                ltac:(discriminate) eq_refl) as (_ & _ & H).
    exact (proj2 (H eq_refl) eq_refl).
  - exact (proj1 (C9_blur_counts_iff_fullscreen Toggle
                    (set_env windowed (started Toggle)) (plain_event blur)
                    (reach_step Toggle (Ambient windowed) _
                       (reach_step Toggle _ _ (reach_mount Toggle _ _)))
                    ltac:(discriminate) eq_refl) eq_refl).
Defined.

(** ** Sessions *)

Lemma play_cons (V : Variant) (i : Timed) (rest : list Timed) (w : World) :
  play V (i :: rest) w
  = play V rest
      (step V (Fire (signal i)) (set_env (ambient i) (elapse (delay i) w))).
Proof. reflexivity. Qed.

Lemma Inv_ambient (V : Variant) (e : Env) (w : World) :
  Inv V w -> Inv V (set_env e w).
Proof. intros [G L C]. constructor; assumption. Qed.

(** While the latch is set, no step other than the passing of time releases
    it. *)
Lemma latched_any_step (V : Variant) (a : Action) (w : World) :
  Inv V w -> isHandlingViolation w = true -> not_elapse a = true ->
  isHandlingViolation (step V a w) = true.
Proof.
  intros I L N. destruct a as [s|ms|e|g|g|p]; try discriminate N.
  - destruct (step_fire_latched V s w I L) as (_ & _ & _ & _ & h & _).
    congruence.
  - exact L.
  - rewrite (same_latch _ _ (startExam_step V g w I)).
    destruct (startExam_spec V (current w) g w) as (_ & _ & _ & h & _).
    congruence.
  - destruct (reEnterFullScreen_spec V (current w) g w) as (_ & _ & h & _).
    simpl. congruence.
  - destruct I as [G _ _].
    assert (G0 : gateway_ok V (current w) (set_props p w)) by exact G.
    destruct (render_spec V _ _ G0) as (_ & S' & _).
    unfold step. rewrite (same_latch _ _ S'). exact L.
Qed.

(** Signals that arrive before the pending release is due count nothing. *)
Lemma play_in_window (V : Variant) (rest : list Timed) (T : Z) :
  forall w,
  Inv V w -> isHandlingViolation w = true -> timeouts w = [T] ->
  Forall (fun i => 0 <= delay i) rest ->
  now w + fold_right (fun i acc => delay i + acc) 0 rest < T ->
  let w' := play V rest w in
  Inv V w' /\ violations w' = violations w
  /\ isHandlingViolation w' = true /\ timeouts w' = [T]
  /\ now w' = now w + fold_right (fun i acc => delay i + acc) 0 rest
  /\ host_calls (trace w') = host_calls (trace w).
Proof.
  induction rest as [|i rest IH]; intros w I L Ht Hd Hsum.
  - unfold play, run; simpl. split; [assumption|].
    repeat split; try assumption; lia.
  - inversion Hd as [|? ? Hi Hrest]; subst. simpl in Hsum.
    assert (Hpos : 0 <= fold_right (fun i acc => delay i + acc) 0 rest).
    { clear - Hrest. induction Hrest; simpl; lia. }
    rewrite play_cons.
    destruct (elapse_spec (delay i) w (inv_latch _ _ I))
      as (_ & Hn & Hl & Hv & _ & Htr & _).
    rewrite Ht in Hl.
    replace (T <=? now w + Z.max 0 (delay i)) with false in Hl
      by (symmetry; apply Z.leb_gt; lia).
    destruct Hl as (Hl1 & Hl2).
    set (wa := set_env (ambient i) (elapse (delay i) w)).
    assert (Ia : Inv V wa) by (apply Inv_ambient; now apply Inv_elapse).
    destruct (step_fire_latched V (signal i) wa Ia Hl1)
      as (_ & Hn' & _ & Hv' & Hh' & Ht' & Hc').
    destruct (IH (step V (Fire (signal i)) wa)) as (I' & Hv2 & Hh2 & Ht2 & Hn2 & Hc2).
    + now apply Inv_step.
    + rewrite Hh'. exact Hl1.
    + rewrite Ht'. exact Hl2.
    + exact Hrest.
    + rewrite Hn'. subst wa. simpl now. rewrite Hn. lia.
    + cbv zeta. split; [exact I'|]. rewrite Hv2, Hv', Ht2, Hh2, Hn2, Hn', Hc2, Hc'.
      subst wa. simpl. rewrite Hv, Hn, Htr.
      repeat split. simpl. lia.
Qed.

(** C2. In every reachable world with monitoring active and the latch open,
    a violation-triggering signal followed by any signals arriving less than
    500 ms after it raises [violations] by exactly 1: the latch is set when
    the first one is handled, with one release pending 500 ms later, it is
    still set after the burst, no step other than the passing of time
    releases it, and it is open once the 500 ms have passed. *)
Theorem C2_burst_counts_once
    (V : Variant) (w : World) (s0 : Signal) (rest : list Timed) :
  reachable V w -> listeners w <> [] ->
  isHandlingViolation w = false ->
  triggers V (env w) s0 = true ->
  within_window rest ->
  let w1 := step V (Fire s0) w in
  let w' := play V rest w1 in
  violations w' = violations w + 1
  /\ isHandlingViolation w1 = true /\ timeouts w1 = [now w + 500]
  /\ isHandlingViolation w' = true /\ timeouts w' = [now w + 500]
  /\ (forall a, not_elapse a = true -> isHandlingViolation (step V a w') = true)
  /\ isHandlingViolation (elapse (now w + 500 - now w') w') = false.
Proof.
  intros R Hne L T (Hd & Hsum) w1 w'.
  pose proof (reachable_Inv _ _ R) as I.
  pose proof (listeners_eligible _ _ I Hne) as E.
  destruct (step_fire_counts V s0 w I E L T)
    as (_ & Hn & _ & _ & Hh & Hv & Ht & _).
  fold w1 in Hn, Hh, Hv, Ht.
  assert (I1 : Inv V w1) by now apply Inv_step.
  destruct (play_in_window V rest (now w + 500) w1 I1 Hh Ht Hd)
    as (I' & Hv' & Hh' & Ht' & Hn' & _); [rewrite Hn; lia|].
  fold w' in I', Hv', Hh', Ht', Hn'.
  split; [lia|]. split; [exact Hh|]. split; [exact Ht|].
  split; [exact Hh'|]. split; [exact Ht'|]. split.
  - intros a Ha. now apply latched_any_step.
  - destruct (elapse_spec (now w + 500 - now w') w' (inv_latch _ _ I'))
      as (_ & _ & Hl & _).
    rewrite Ht' in Hl.
    replace (now w + 500 <=? now w' + Z.max 0 (now w + 500 - now w'))
      with true in Hl by (symmetry; apply Z.leb_le; lia).
    apply Hl.
Qed.

(** C2 on the sample exam: ten tab switches within 180 ms count once. *)
Lemma C2_burst_counts_once_witness :
  violations
    (play Enhanced
       [quick_tab_switch; quick_tab_switch; quick_tab_switch;
        quick_tab_switch; quick_tab_switch; quick_tab_switch;
        quick_tab_switch; quick_tab_switch; quick_tab_switch]
       (step Enhanced (Fire (signal quick_tab_switch))
          (set_env tab_hidden (started Enhanced))))
  = 1.
Proof.
  refine (proj1 (C2_burst_counts_once Enhanced
                   (set_env tab_hidden (started Enhanced))
                   (signal quick_tab_switch) _
                   (reach_step Enhanced (Ambient tab_hidden) _
                      (reach_step Enhanced _ _ (reach_mount Enhanced _ _)))
                   _ eq_refl eq_refl _)).
  - discriminate.
  - split; [repeat constructor; simpl; lia|simpl; lia].
Defined.

Lemma verdicts_no_finish (p : Props) (k : nat) :
  forall n D, verdicts p n k D -> n + Z.of_nat k <= maxViolations p ->
              finish_calls D = 0%nat.
Proof.
  induction k as [|k IH]; intros n D H Hle; simpl in H.
  - now subst D.
  - destruct H as (d & D' & -> & Hd & HD).
    rewrite finish_calls_app, (IH (n + 1) D' HD) by lia.
    unfold verdict in Hd.
    replace (n + 1 <=? maxViolations p) with true in Hd
      by (symmetry; apply Z.leb_le; lia).
    destruct (onWarning p); [destruct Hd as (m & -> & _)|subst d];
      reflexivity.
Qed.

Lemma verdicts_one_finish (p : Props) (k : nat) :
  forall n D, verdicts p n (S k) D -> onFinishExam p <> None ->
              n + Z.of_nat (S k) = maxViolations p + 1 ->
              finish_calls D = 1%nat.
Proof.
  induction k as [|k IH]; intros n D H Hf Heq.
  - simpl in H. destruct H as (d & D' & -> & Hd & ->).
    assert (Hlt : maxViolations p < n + 1) by lia.
    destruct (verdict_past_limit _ _ _ Hlt Hd) as (_ & ->).
    destruct (onFinishExam p); [reflexivity|contradiction].
  - destruct H as (d & D' & -> & Hd & HD).
    rewrite finish_calls_app, (IH (n + 1) D' HD Hf) by lia.
    unfold verdict in Hd.
    replace (n + 1 <=? maxViolations p) with true in Hd
      by (symmetry; apply Z.leb_le; lia).
    destruct (onWarning p); [destruct Hd as (m & -> & _)|subst d];
      reflexivity.
Qed.

Lemma verdicts_final_last (p : Props) (k : nat) :
  forall n D, verdicts p n (S k) D -> onWarning p <> None ->
              n + Z.of_nat (S k) = maxViolations p ->
              exists ms m, warnings D = (ms ++ [m])%list
                           /\ is_FINAL_WARNING m = true.
Proof.
  induction k as [|k IH]; intros n D H Hw Heq.
  - simpl in H. destruct H as (d & D' & -> & Hd & ->).
    unfold verdict in Hd.
    replace (n + 1 <=? maxViolations p) with true in Hd
      by (symmetry; apply Z.leb_le; lia).
    destruct (onWarning p); [|contradiction].
    destruct Hd as (m & -> & Hfin & _).
    exists [], m. split; [reflexivity|].
    rewrite Hfin. apply Z.eqb_eq. lia.
  - destruct H as (d & D' & -> & Hd & HD).
    destruct (IH (n + 1) D' HD Hw) as (ms & m & HD' & Hm); [lia|].
    exists (warnings d ++ ms)%list, m.
    rewrite warnings_app, HD', app_assoc. auto.
Qed.

(** Violation-triggering signals more than 500 ms apart are all counted. *)
Lemma play_spaced (V : Variant) (items : list Timed) :
  forall w,
  Inv V w -> monitored_props V (props w) -> 0 <= violations w ->
  (isHandlingViolation w = false
   \/ match items with i :: _ => 500 < delay i | [] => True end) ->
  spaced items -> all_trigger V items ->
  let w' := play V items w in
  Inv V w' /\ props w' = props w
  /\ violations w' = violations w + Z.of_nat (List.length items)
  /\ exists D, host_calls (trace w') = (host_calls (trace w) ++ D)%list
               /\ verdicts (props w) (violations w) (List.length items) D.
Proof.
  induction items as [|i rest IH]; intros w I M C L Sp Tr.
  - unfold play, run; simpl. split; [assumption|]. split; [reflexivity|].
    split; [lia|]. exists []. now rewrite app_nil_r.
  - rewrite play_cons. inversion Tr as [|? ? Ti Trest]; subst.
    destruct (elapse_spec (delay i) w (inv_latch _ _ I))
      as (_ & Hn & Hl & Hv & Hp & Htr & _).
    assert (La : isHandlingViolation (elapse (delay i) w) = false).
    { pose proof (inv_latch _ _ I) as Lk. unfold latch_ok in Lk.
      destruct (timeouts w) as [|t [|t' ts]]; [apply Hl| |contradiction].
      destruct Lk as (Lt & Hb).
      destruct L as [L|L]; [congruence|].
      replace (t <=? now w + Z.max 0 (delay i)) with true in Hl
        by (symmetry; apply Z.leb_le; lia).
      apply Hl. }
    set (wa := set_env (ambient i) (elapse (delay i) w)).
    assert (Ia : Inv V wa) by (apply Inv_ambient; now apply Inv_elapse).
    assert (Ea : monitoring_eligible V (current wa) = true).
    { apply eligible_active; subst wa; simpl; [now rewrite Hp|now rewrite Hv]. }
    destruct (step_fire_counts V (signal i) wa Ia Ea La Ti)
      as (Hp' & _ & _ & _ & Hh' & Hv' & _ & d & Hc' & Hd').
    set (wc := step V (Fire (signal i)) wa) in *.
    assert (Hpa : props wa = props w) by (subst wa; simpl; exact Hp).
    assert (Hva : violations wa = violations w) by (subst wa; simpl; exact Hv).
    assert (Hta : trace wa = trace w) by (subst wa; simpl; exact Htr).
    destruct (IH wc) as (I' & Hp2 & Hv2 & D & Hc2 & HD).
    + now apply Inv_step.
    + now rewrite Hp', Hpa.
    + lia.
    + right. simpl in Sp. destruct rest as [|j rest']; [exact Logic.I|].
      inversion Sp; assumption.
    + simpl in Sp. destruct rest as [|j rest']; [exact Logic.I|].
      simpl. inversion Sp; assumption.
    + exact Trest.
    + cbv zeta. split; [exact I'|]. split; [congruence|].
      split; [rewrite Hv2, Hv', Hva; simpl List.length; lia|].
      exists (d ++ D)%list. split.
      * rewrite Hc2, Hc', Hta. now rewrite app_assoc.
      * simpl. exists d, D. split; [reflexivity|].
        rewrite Hpa, Hva in Hd'. split; [exact Hd'|].
        rewrite Hp', Hpa, Hv', Hva in HD. exact HD.
Qed.

Lemma mount_spec (V : Variant) (p : Props) (e : Env) :
  same_session (unmounted p e) (mount V p e).
Proof.
  unfold mount.
  assert (G : gateway_ok V (current (unmounted p e)) (unmounted p e)).
  { unfold gateway_ok, subscriptions, has_interval, monitoring_eligible.
    destruct V; simpl; destruct (isSecurityEnabled p); simpl;
      repeat split. }
  apply (render_spec V _ _ G).
Qed.

Lemma start_spec (V : Variant) (p : Props) (e : Env) :
  let w0 := step V (CallStartExam true) (mount V p e) in
  Inv V w0 /\ props w0 = p /\ violations w0 = 0
  /\ isHandlingViolation w0 = false /\ host_calls (trace w0) = [].
Proof.
  intros w0. pose proof (Inv_mount V p e) as I.
  pose proof (mount_spec V p e) as [Mv Mp Mh _ _ _ Mt].
  pose proof (startExam_step V true (mount V p e) I) as [Sv Sp Sh _ _ _ St].
  destruct (startExam_spec V (current (mount V p e)) true (mount V p e))
    as (Hv & _ & Hc & Hh & _ & _ & Hp & _).
  fold w0 in Sv, Sp, Sh, St.
  split; [now apply Inv_step|].
  split; [rewrite Sp, Hp, Mp; reflexivity|].
  split.
  - rewrite Sv, Hv. destruct V; try reflexivity.
    now rewrite orb_true_r.
  - split; [rewrite Sh, Hh, Mh; reflexivity|].
    rewrite St, Hc, Mt. reflexivity.
Qed.

(** C3 (amended). After [startExam] (fullscreen granted, monitoring
    eligible), for every sequence of violation-triggering signals each more
    than 500 ms after the one before: [violations] is 0 right after
    [startExam] and equals [k] after [k] signals (1 after one); if [k] is the
    limit, [onFinishExam] has not been called and the last message passed to
    [onWarning] is the FINAL WARNING; if [k] is the limit plus one,
    [onFinishExam] has been called exactly once. *)
Theorem C3_spaced_violations
    (V : Variant) (p : Props) (e : Env) (items : list Timed) :
  monitored_props V p -> spaced items -> all_trigger V items ->
  let w0 := step V (CallStartExam true) (mount V p e) in
  let w := play V items w0 in
  let k := Z.of_nat (List.length items) in
  violations w0 = 0
  /\ violations w = k
  /\ (0 < maxViolations p -> onWarning p <> None -> k = maxViolations p ->
      finish_calls (trace w) = 0%nat
      /\ exists ms m, warnings (trace w) = (ms ++ [m])%list
                      /\ is_FINAL_WARNING m = true)
  /\ (0 <= maxViolations p -> onFinishExam p <> None ->
      k = maxViolations p + 1 ->
      finish_calls (trace w) = 1%nat).
Proof.
  intros M Sp Tr w0 w k.
  destruct (start_spec V p e) as (I0 & Hp0 & Hv0 & Hh0 & Hc0).
  fold w0 in I0, Hp0, Hv0, Hh0, Hc0.
  destruct (play_spaced V items w0 I0) as (_ & _ & Hv & D & Hc & HD);
    try assumption; [now rewrite Hp0|lia|now left|].
  fold w in Hv, Hc. rewrite Hp0, Hv0 in HD. rewrite Hc0 in Hc. simpl in Hc.
  split; [exact Hv0|]. split; [subst k; lia|].
  assert (Hf : finish_calls (trace w) = finish_calls D)
    by (now rewrite <- finish_calls_host, Hc).
  assert (Hw : warnings (trace w) = warnings D)
    by (now rewrite <- warnings_host, Hc).
  split.
  - intros Hmax Hon Hk. rewrite Hf, Hw. split.
    + apply (verdicts_no_finish p _ 0 D HD). subst k. lia.
    + destruct (List.length items) as [|n] eqn:El; [subst k; simpl in Hk; lia|].
      apply (verdicts_final_last p n 0 D HD Hon). subst k. lia.
  - intros Hmax Hon Hk. rewrite Hf.
    destruct (List.length items) as [|n] eqn:El; [subst k; simpl in Hk; lia|].
    apply (verdicts_one_finish p n 0 D HD Hon). subst k. lia.
Qed.

(** The amended C3 on the sample exam (limit 3), after three and after four
    tab switches 600 ms apart. *)
Lemma C3_spaced_violations_witness :
  (violations (play Enhanced [tab_switch; tab_switch; tab_switch]
                 (started Enhanced)) = 3
   /\ finish_calls (trace (play Enhanced [tab_switch; tab_switch; tab_switch]
                             (started Enhanced))) = 0%nat)
  /\ finish_calls
       (trace (play Enhanced [tab_switch; tab_switch; tab_switch; tab_switch]
                 (started Enhanced))) = 1%nat.
Proof.
  split.
  - destruct (C3_spaced_violations Enhanced sample_props sample_env
                [tab_switch; tab_switch; tab_switch]
                (conj eq_refl eq_refl))
      as (_ & Hv & H3 & _).
    + repeat constructor.
    + repeat constructor.
    + split; [exact Hv|].
      apply H3; [reflexivity|discriminate|reflexivity].
  - destruct (C3_spaced_violations Enhanced sample_props sample_env
                [tab_switch; tab_switch; tab_switch; tab_switch]
                (conj eq_refl eq_refl))
      as (_ & _ & _ & H4).
    + repeat constructor.
    + repeat constructor.
    + apply H4; [discriminate|discriminate|reflexivity].
Defined.

(** C3, as stated, fails: after one violation [violations] is 1, which is
    not [k - 1] for [k = 1]. *)
Lemma C3_counterexample_off_by_one :
  violations (play Enhanced [tab_switch] (started Enhanced)) = 1
  /\ violations (play Enhanced [tab_switch] (started Enhanced))
     <> Z.of_nat (List.length [tab_switch]) - 1.
Proof. vm_compute. split; [reflexivity|discriminate]. Qed.

(** The scenario of the specification in the [Enhanced] hook, limit 3: a tab
    switch, an exit from fullscreen, Ctrl+S and a blur in fullscreen, 600 ms
    apart, give two warnings, the final warning and one call of
    [onFinishExam]. *)
Example spec_scenario :
  trace
    (play Enhanced
       [ tab_switch;
         mkTimed 600 windowed (Browser document (plain_event fullscreenchange));
         mkTimed 600 sample_env
           (Browser document (mkEvent keydown true false false "s"));
         mkTimed 600 sample_env (Browser window (plain_event blur)) ]
       (started Enhanced))
  = [ CallOnWarning
        "Warning: You attempted to leave the exam window (switched tabs). This is violation 1 of 3.";
      CallOnWarning
        "Warning: You attempted to leave the exam window (exited fullscreen). This is violation 2 of 3.";
      PreventDefault keydown;
      CallOnWarning
        "FINAL WARNING: You have attempted to leave the exam (used a restricted shortcut). One more violation will result in automatic submission.";
      CallOnFinishExam ].
Proof. vm_compute. reflexivity. Qed.


(** * Further properties of the hooks *)

(** ** Which signals are counted *)

(** X1. While monitoring is active and the latch is open, a signal raises
    [violations] by one exactly when it is violation-triggering: the tab is
    hidden at a visibility change, the document is fullscreen at a blur, it
    is not fullscreen at a fullscreen change, the keydown is one of the
    chords of the hook, or (in [Enhanced]) the window exceeds its viewport by
    more than 160 pixels at a period of the interval. *)
Theorem X1_counted_iff_triggering (V : Variant) (w : World) (s : Signal) :
  reachable V w -> listeners w <> [] -> isHandlingViolation w = false ->
  (violations (step V (Fire s) w) = violations w + 1
   <-> triggers V (env w) s = true).
Proof.
  intros R Hne L. pose proof (reachable_Inv _ _ R) as I.
  pose proof (listeners_eligible _ _ I Hne) as E. split.
  - intros Hv. destruct (triggers V (env w) s) eqn:T; [reflexivity|].
    destruct (step_fire_not_triggered V s w I T) as (_ & _ & _ & Hq & _).
    lia.
  - intros T.
    now destruct (step_fire_counts V s w I E L T) as (_ & _ & _ & _ & _ & Hv & _).
Qed.

(** X1 at the threshold of the developer-tools heuristic: a gap of 161
    pixels is counted, a gap of 160 is not. *)
Lemma X1_counted_iff_triggering_witness :
  violations (step Enhanced (Fire DevToolsTimer)
                (set_env (docked 161) (started Enhanced))) = 1
  /\ violations (step Enhanced (Fire DevToolsTimer)
                   (set_env (docked 160) (started Enhanced))) <> 0 + 1.
Proof.
  split.
  - exact (proj2 (X1_counted_iff_triggering Enhanced
                    (set_env (docked 161) (started Enhanced)) DevToolsTimer
                    (reach_step Enhanced (Ambient (docked 161)) _
                       (reach_step Enhanced _ _ (reach_mount Enhanced _ _)))
                    ltac:(discriminate) eq_refl) eq_refl).
  - intros H.
    pose proof (proj1 (X1_counted_iff_triggering Enhanced
                    (set_env (docked 160) (started Enhanced)) DevToolsTimer
                    (reach_step Enhanced (Ambient (docked 160)) _
                       (reach_step Enhanced _ _ (reach_mount Enhanced _ _)))
                    ltac:(discriminate) eq_refl) H) as T.
    discriminate T.
Defined.

Lemma quiet_same_trace_world (w w' : World) :
  quiet w w' -> trace w' = trace w -> w' = w.
Proof.
  intros (g & v & h & t & _) Htr. unfold gateway_of in g.
  inversion g. destruct w, w'; simpl in *. congruence.
Qed.

(** A signal that is neither violation-triggering nor one of the suppressed
    events appends nothing to the trace. *)
Lemma fire_untriggered_trace (V : Variant) (s : Signal) (w : World) :
  gateway_ok V (current w) w ->
  triggers V (env w) s = false ->
  (forall e, s = Browser document e -> suppressed V (ev_type e) = false) ->
  trace (fire V s w) = trace w.
Proof.
  intros (Hl & _ & Hi) T Hs.
  destruct (monitoring_eligible V (current w)) eqn:E.
  - destruct s as [tg e|]; unfold fire.
    + unfold dispatchEvent. rewrite Hl. unfold subscriptions. rewrite E.
      unfold triggers in T.
      assert (Hs' : tg = document -> suppressed V (ev_type e) = false)
        by (intros ->; now apply Hs).
      destruct tg; destruct (ev_type e) eqn:Ety;
        destruct V; unfold listens; rewrite Ety;
        cbn [filter l_target l_type Target_eqb EventType_eqb andb fold_left
             call_listener l_fn l_closure BasicHook.call EnhancedHook.call
             ToggleHook.call];
        try reflexivity;
        try (specialize (Hs' eq_refl); discriminate Hs');
        unfold BasicHook.handleVisibilityChange, BasicHook.handleBlur,
          BasicHook.handleFullScreenChange,
          EnhancedHook.handleVisibilityChange, EnhancedHook.handleBlur,
          EnhancedHook.handleFullScreenChange,
          ToggleHook.handleVisibilityChange, ToggleHook.handleBlur,
          ToggleHook.handleFullScreenChange, bind, read;
        rewrite ?T; cbn [when ret snd];
        try reflexivity.
      all: unfold chord in T;
        unfold BasicHook.handleKeyDown, EnhancedHook.handleKeyDown,
          ToggleHook.handleKeyDown;
        repeat (apply orb_false_elim in T; destruct T as (T & ?));
        repeat match goal with
               | H : _ = false |- _ => rewrite H; clear H
               end;
        reflexivity.
    + unfold triggers in T. unfold has_interval in Hi. unfold fire_intervals.
      destruct V; [rewrite Hi; reflexivity| |rewrite Hi; reflexivity].
      rewrite E in Hi. destruct Hi as (id & _ & Hi).
      rewrite Hi. cbn [fold_left snd].
      unfold EnhancedHook.checkDevTools, bind, read.
      fold (devtools_gap (env w)). rewrite T. reflexivity.
  - unfold subscriptions in Hl. rewrite E in Hl.
    assert (Hi' : intervals w = []).
    { unfold has_interval in Hi. destruct V; try rewrite E in Hi; exact Hi. }
    destruct s as [tg e|]; unfold fire, dispatchEvent, fire_intervals;
      rewrite ?Hl, ?Hi'; reflexivity.
Qed.

Lemma untriggered_unchanged (V : Variant) (s : Signal) (w : World) :
  Inv V w ->
  triggers V (env w) s = false ->
  (forall e, s = Browser document e -> suppressed V (ev_type e) = false) ->
  step V (Fire s) w = w.
Proof.
  intros [G _ _] T Hs.
  assert (F : fire V s w = w).
  { apply quiet_same_trace_world.
    - now apply fire_not_triggered.
    - now apply fire_untriggered_trace. }
  unfold step. rewrite F. unfold rerender. now rewrite Z.eqb_refl.
Qed.

(** X2. In every reachable world, whether or not monitoring is active and
    whatever the latch, a signal that is not violation-triggering and is not
    one of the suppressed events (a visibility change while the tab is
    visible, a blur outside fullscreen, a fullscreen change into fullscreen,
    a keydown that is no chord, a period of the interval within the
    threshold, an event nobody listens to) leaves the world exactly as it
    was. *)
Theorem X2_untriggered_signal_changes_nothing
    (V : Variant) (w : World) (s : Signal) :
  reachable V w ->
  triggers V (env w) s = false ->
  (forall e, s = Browser document e -> suppressed V (ev_type e) = false) ->
  step V (Fire s) w = w.
Proof.
  intros R T Hs. apply untriggered_unchanged; try assumption.
  now apply reachable_Inv.
Qed.

(** X2 on the sample exam: Ctrl+Shift+T in the [Toggle] hook, whose chords
    are lower-case only. *)
Lemma X2_untriggered_signal_changes_nothing_witness :
  step Toggle
    (Fire (Browser document (mkEvent keydown true false true "T")))
    (started Toggle)
  = started Toggle.
Proof.
  apply (X2_untriggered_signal_changes_nothing Toggle (started Toggle)
           (Browser document (mkEvent keydown true false true "T"))
           (reach_step Toggle _ _ (reach_mount Toggle _ _)) eq_refl).
  intros e H. inversion H. reflexivity.
Defined.

(** ** The latch *)



Lemma next_open_bounds (V : Variant) (w : World) :
  Inv V w -> now w <= next_open w <= now w + 500.
Proof.
  intros [_ L _]. unfold latch_ok in L. unfold next_open.
  destruct (timeouts w) as [|t [|t' ts]]; [lia| |contradiction].
  destruct L as (_ & L). lia.
Qed.

(** No step other than [startExam] lets the count run ahead of the clock. *)
Lemma rate_step (V : Variant) (a : Action) (w : World) :
  Inv V w -> no_start a = true ->
  500 * violations (step V a w) - next_open (step V a w)
  <= 500 * violations w - next_open w.
Proof.
  intros I N. destruct a as [s|ms|e|g|g|p]; try discriminate N.
  - destruct (step_fire_effect V s w I) as [Q|C].
    + destruct Q as (_ & Hn & _ & Hv & _ & Ht & _).
      unfold next_open. rewrite Hv, Ht, Hn. lia.
    + destruct C as (_ & _ & _ & Hh & _ & Hv & Ht & _).
      pose proof (inv_latch _ _ I) as L. unfold latch_ok in L.
      unfold next_open. rewrite Hv, Ht.
      destruct (timeouts w) as [|t [|t' ts]]; [lia| |contradiction].
      destruct L as (L & _). congruence.
  - pose proof (inv_latch _ _ I) as L.
    destruct (elapse_spec ms w L) as (_ & Hn & He & Hv & _).
    unfold step. rewrite Hv. unfold next_open. rewrite Hn.
    unfold latch_ok in L.
    destruct (timeouts w) as [|t [|t' ts]]; [| |contradiction].
    + destruct He as (_ & ->). lia.
    + destruct (Z.leb_spec t (now w + Z.max 0 ms)); destruct He as (_ & ->);
        lia.
  - unfold step, next_open. simpl. lia.
  - destruct (reEnterFullScreen_spec V (current w) g w)
      as (_ & Hv & _ & Ht & Hn & _).
    unfold step, next_open. rewrite Hv, Ht, Hn. lia.
  - destruct I as [G _ _].
    assert (G0 : gateway_ok V (current w) (set_props p w)) by exact G.
    destruct (render_spec V _ _ G0) as (_ & [Sv _ _ St Sn _ _] & _).
    unfold step, next_open. rewrite Sv, St, Sn. simpl. lia.
Qed.

Lemma rate_run (V : Variant) (acts : list Action) :
  forall w, Inv V w -> forallb no_start acts = true ->
  500 * violations (run V acts w) - next_open (run V acts w)
  <= 500 * violations w - next_open w.
Proof.
  induction acts as [|a acts IH]; intros w I N; [simpl; lia|].
  simpl in N. apply andb_true_iff in N. destruct N as (Na & N).
  change (run V (a :: acts) w) with (run V acts (step V a w)).
  pose proof (rate_step V a w I Na).
  pose proof (IH (step V a w) (Inv_step V a w I) N). lia.
Qed.

(** X12. At most one violation is counted per 500 ms: from any reachable
    world, over any sequence of steps in which the host does not call
    [startExam], the count rises by at most one more than the number of
    complete 500 ms that passed. *)
Theorem X12_rate_limit (V : Variant) (w : World) (acts : list Action) :
  reachable V w -> forallb no_start acts = true ->
  500 * (violations (run V acts w) - violations w)
  <= now (run V acts w) - now w + 500.
Proof.
  intros R N. pose proof (reachable_Inv _ _ R) as I.
  pose proof (rate_run V acts w I N).
  pose proof (next_open_bounds V w I).
  pose proof (next_open_bounds V _ (Inv_run V acts w I)).
  lia.
Qed.

(** X12 on a burst of three tab switches 20 ms apart. *)
Lemma X12_rate_limit_witness :
  500 * (violations (run Enhanced
                       (flat_map timed_actions
                          [quick_tab_switch; quick_tab_switch;
                           quick_tab_switch])
                       (started Enhanced))
         - violations (started Enhanced))
  <= now (run Enhanced
            (flat_map timed_actions
               [quick_tab_switch; quick_tab_switch; quick_tab_switch])
            (started Enhanced))
     - now (started Enhanced) + 500.
Proof.
  exact (X12_rate_limit Enhanced (started Enhanced)
           (flat_map timed_actions
              [quick_tab_switch; quick_tab_switch; quick_tab_switch])
           (reach_step Enhanced _ _ (reach_mount Enhanced _ _)) eq_refl).
Defined.

(** ** Sessions that are not monitored *)

Lemma unstarted_not_eligible (V : Variant) (w : World) :
  violations w = -1 -> monitoring_eligible V (current w) = false.
Proof.
  intros H. unfold monitoring_eligible; simpl. rewrite H.
  destruct V; simpl; [reflexivity| |]; now rewrite andb_false_r.
Qed.

Lemma not_eligible_empty (V : Variant) (w : World) :
  Inv V w -> monitoring_eligible V (current w) = false ->
  listeners w = [] /\ intervals w = [].
Proof.
  intros [(Hl & _ & Hi) _ _] E. unfold subscriptions in Hl.
  rewrite E in Hl. split; [exact Hl|].
  unfold has_interval in Hi. destruct V; try rewrite E in Hi; exact Hi.
Qed.

Lemma open_latch_elapse (V : Variant) (ms : Z) (w : World) :
  Inv V w -> isHandlingViolation w = false ->
  isHandlingViolation (elapse ms w) = false.
Proof.
  intros I L. pose proof (inv_latch _ _ I) as Lk.
  destruct (elapse_spec ms w Lk) as (_ & _ & He & _).
  unfold latch_ok in Lk.
  destruct (timeouts w) as [|t [|t' ts]]; [apply He| |contradiction].
  destruct Lk as (Lk & _). congruence.
Qed.

Lemma render_props_step (V : Variant) (p : Props) (w : World) :
  Inv V w -> same_session (set_props p w) (step V (Rerender p) w).
Proof.
  intros [G _ _].
  assert (G0 : gateway_ok V (current w) (set_props p w)) by exact G.
  apply (render_spec V _ _ G0).
Qed.

Lemma before_start_step (V : Variant) (a : Action) (w : World) :
  Inv V w -> violations w = -1 -> isHandlingViolation w = false ->
  no_start a = true ->
  violations (step V a w) = -1
  /\ isHandlingViolation (step V a w) = false
  /\ warnings (trace (step V a w)) = warnings (trace w).
Proof.
  intros I Hv L N. destruct a as [s|ms|e|g|g|p]; try discriminate N.
  - rewrite (not_eligible_idle V s w I (unstarted_not_eligible V w Hv)). auto.
  - destruct (elapse_spec ms w (inv_latch _ _ I))
      as (_ & _ & _ & Hv' & _ & Ht & _).
    unfold step. rewrite Hv', Ht, (open_latch_elapse V ms w I L). auto.
  - simpl. auto.
  - destruct (reEnterFullScreen_spec V (current w) g w)
      as (_ & Hv' & Hh & _ & _ & _ & _ & _ & _ & _ & _ & Hw).
    unfold step. rewrite Hv', Hh, Hw. auto.
  - destruct (render_props_step V p w I) as [Sv _ Sh _ _ _ St].
    rewrite Sv, Sh, St. simpl. auto.
Qed.

(** X7. Until the host calls [startExam] nothing is monitored: whatever the
    signals, the passing of time, the changes of arguments and the calls of
    [reEnterFullScreen], [violations] stays -1, there is no listener and no
    interval, the latch stays open and [onWarning] is never called. *)
Theorem X7_nothing_before_start
    (V : Variant) (p : Props) (e : Env) (acts : list Action) :
  forallb no_start acts = true ->
  let w := run V acts (mount V p e) in
  violations w = -1
  /\ listeners w = [] /\ intervals w = []
  /\ isHandlingViolation w = false
  /\ warnings (trace w) = [].
Proof.
  intros N w.
  assert (H : forall acts w0,
             forallb no_start acts = true ->
             Inv V w0 -> violations w0 = -1 ->
             isHandlingViolation w0 = false ->
             violations (run V acts w0) = -1
             /\ isHandlingViolation (run V acts w0) = false
             /\ warnings (trace (run V acts w0)) = warnings (trace w0)).
  { clear. induction acts as [|a acts IH]; intros w0 N I Hv L; [simpl; auto|].
    simpl in N. apply andb_true_iff in N. destruct N as (Na & N).
    destruct (before_start_step V a w0 I Hv L Na) as (Hv' & L' & Hw').
    change (run V (a :: acts) w0) with (run V acts (step V a w0)).
    destruct (IH (step V a w0) N (Inv_step V a w0 I) Hv' L')
      as (H1 & H2 & H3).
    rewrite H3, Hw'. auto. }
  destruct (mount_spec V p e) as [Mv _ Mh _ _ _ Mt].
  destruct (H acts (mount V p e) N (Inv_mount V p e) Mv Mh) as (H1 & H2 & H3).
  fold w in H1, H2, H3.
  assert (I : Inv V w) by (apply Inv_run, Inv_mount).
  destruct (not_eligible_empty V w I (unstarted_not_eligible V w H1))
    as (Hl & Hi).
  rewrite H3, Mt. auto.
Qed.

(** X7 on the sample page: a tab switch, a refused [reEnterFullScreen] and
    Ctrl+T before the exam has started. *)
Lemma X7_nothing_before_start_witness :
  violations
    (run Basic
       [Ambient tab_hidden; Fire (signal tab_switch);
        CallReEnterFullScreen false;
        Fire (Browser document (mkEvent keydown true false false "t"))]
       (mount Basic sample_props windowed)) = -1.
Proof.
  exact (proj1 (X7_nothing_before_start Basic sample_props windowed
                  [Ambient tab_hidden; Fire (signal tab_switch);
                   CallReEnterFullScreen false;
                   Fire (Browser document
                           (mkEvent keydown true false false "t"))]
                  eq_refl)).
Defined.

Lemma disabled_not_eligible (V : Variant) (w : World) :
  V <> Basic -> isSecurityEnabled (props w) = false ->
  monitoring_eligible V (current w) = false.
Proof.
  intros HV H. unfold monitoring_eligible; simpl. rewrite H.
  destruct V; [contradiction| |]; reflexivity.
Qed.

Lemma startExam_disabled (V : Variant) (c : Closure) (g : bool) (w : World) :
  V <> Basic -> isSecurityEnabled (cl_props c) = false ->
  exists tr, trace (snd (startExam V c g w)) = (trace w ++ tr)%list
             /\ Forall (fun x => is_console_warn x = true) tr.
Proof.
  intros HV H. destruct w as [v h r p n cl ls ivs nid ts t en tr].
  destruct V; [contradiction| |].
  - exists []. simpl. rewrite app_nil_r. auto.
  - unfold startExam, ToggleHook.startExam. rewrite H.
    eexists. split; [reflexivity|]. repeat constructor.
Qed.

Lemma reEnter_disabled (V : Variant) (c : Closure) (g : bool) (w : World) :
  V <> Basic -> isSecurityEnabled (cl_props c) = false ->
  reEnterFullScreen V c g w = (Normal tt, w).
Proof.
  intros HV H. destruct V; [contradiction| |];
    unfold reEnterFullScreen, EnhancedHook.reEnterFullScreen,
      ToggleHook.reEnterFullScreen, bind, read; rewrite H; reflexivity.
Qed.

Lemma disabled_step (V : Variant) (a : Action) (w : World) :
  V <> Basic -> Inv V w -> isSecurityEnabled (props w) = false ->
  isHandlingViolation w = false ->
  Forall (fun x => is_console_warn x = true) (trace w) ->
  no_rerender a = true ->
  props (step V a w) = props w
  /\ isHandlingViolation (step V a w) = false
  /\ Forall (fun x => is_console_warn x = true) (trace (step V a w)).
Proof.
  intros HV I Hs L Ht N. destruct a as [s|ms|e|g|g|p]; try discriminate N.
  - rewrite (not_eligible_idle V s w I (disabled_not_eligible V w HV Hs)).
    auto.
  - destruct (elapse_spec ms w (inv_latch _ _ I))
      as (_ & _ & _ & _ & Hp & Htr & _).
    unfold step. rewrite Hp, Htr, (open_latch_elapse V ms w I L). auto.
  - simpl. auto.
  - destruct (startExam_step V g w I) as [_ Sp Sh _ _ _ St].
    destruct (startExam_spec V (current w) g w)
      as (_ & _ & _ & Hh & _ & _ & Hp & _).
    destruct (startExam_disabled V (current w) g w HV Hs) as (tr & Htr & Hc).
    rewrite Sp, Sh, St, Hp, Hh, Htr. repeat split; try assumption.
    apply Forall_app. auto.
  - unfold step. rewrite (reEnter_disabled V (current w) g w HV Hs). auto.
Qed.

(** X8. With the master switch off, the hooks that have it are inert: as long
    as the host does not change the arguments, whatever else happens
    ([startExam], signals, [reEnterFullScreen], time), there is never a
    listener, and the hook never requests fullscreen, prevents a default,
    shows an alert or calls [onWarning] or [onFinishExam]; all it ever does
    is the console warning of [startExam]. *)
Theorem X8_security_disabled_is_inert
    (V : Variant) (p : Props) (e : Env) (acts : list Action) :
  V <> Basic -> isSecurityEnabled p = false ->
  forallb no_rerender acts = true ->
  let w := run V acts (mount V p e) in
  listeners w = [] /\ intervals w = []
  /\ Forall (fun x => is_console_warn x = true) (trace w)
  /\ host_calls (trace w) = [].
Proof.
  intros HV Hs N w.
  assert (H : forall acts w0,
             forallb no_rerender acts = true ->
             Inv V w0 -> isSecurityEnabled (props w0) = false ->
             isHandlingViolation w0 = false ->
             Forall (fun x => is_console_warn x = true) (trace w0) ->
             isSecurityEnabled (props (run V acts w0)) = false
             /\ Forall (fun x => is_console_warn x = true)
                  (trace (run V acts w0))).
  { clear - HV. induction acts as [|a acts IH]; intros w0 N I Hs L Ht;
      [simpl; auto|].
    simpl in N. apply andb_true_iff in N. destruct N as (Na & N).
    destruct (disabled_step V a w0 HV I Hs L Ht Na) as (Hp & L' & Ht').
    change (run V (a :: acts) w0) with (run V acts (step V a w0)).
    apply IH; try assumption; [now apply Inv_step|now rewrite Hp]. }
  destruct (mount_spec V p e) as [_ Mp Mh _ _ _ Mt].
  destruct (H acts (mount V p e) N (Inv_mount V p e)) as (H1 & H2).
  - now rewrite Mp.
  - exact Mh.
  - rewrite Mt. constructor.
  - fold w in H1, H2.
    assert (I : Inv V w) by (apply Inv_run, Inv_mount).
    destruct (not_eligible_empty V w I (disabled_not_eligible V w HV H1))
      as (Hl & Hi).
    repeat split; try assumption.
    clear - H2. unfold host_calls.
    induction H2 as [|x tr Hx _ IH]; [reflexivity|].
    simpl. destruct x; try discriminate Hx. exact IH.
Qed.

(** X8 in the [Toggle] hook with security disabled on the sample page. *)
Lemma X8_security_disabled_is_inert_witness :
  listeners
    (run Toggle
       [CallStartExam true; Ambient tab_hidden; Fire (signal tab_switch);
        CallReEnterFullScreen false]
       (mount Toggle (mkProps (Some HostFunction) 3 (Some HostFunction)
                        false false) windowed)) = [].
Proof.
  exact (proj1 (X8_security_disabled_is_inert Toggle
                  (mkProps (Some HostFunction) 3 (Some HostFunction)
                     false false) windowed
                  [CallStartExam true; Ambient tab_hidden;
                   Fire (signal tab_switch); CallReEnterFullScreen false]
                  ltac:(discriminate) eq_refl eq_refl)).
Defined.

Lemma eligible_ignores_render (V : Variant) (c c' : Closure) :
  cl_violations c' = cl_violations c -> cl_props c' = cl_props c ->
  monitoring_eligible V c' = monitoring_eligible V c.
Proof. intros Hv Hp. unfold monitoring_eligible. now rewrite Hv, Hp. Qed.

(** X9. In the hooks that have the flag, when the host sets
    [isFinalSubmission] during a session all the listeners and the interval
    are removed while the count, the latch and the trace stay as they are,
    and from then on no signal changes anything; when the host passes the
    former arguments again, the count is still the same and the listeners
    are back exactly if there were some before, all of them closing over the
    new render. *)
Theorem X9_final_submission_suspends (V : Variant) (w : World) :
  V <> Basic -> reachable V w ->
  let w1 := step V (Rerender (with_final true (props w))) w in
  let w2 := step V (Rerender (props w)) w1 in
  (listeners w1 = [] /\ intervals w1 = []
   /\ violations w1 = violations w
   /\ isHandlingViolation w1 = isHandlingViolation w
   /\ trace w1 = trace w
   /\ forall s, step V (Fire s) w1 = w1)
  /\ (violations w2 = violations w /\ props w2 = props w
      /\ trace w2 = trace w
      /\ (listeners w2 <> [] <-> listeners w <> [])
      /\ Forall (fun l => l_closure l = current w2) (listeners w2)).
Proof.
  intros HV R w1 w2. pose proof (reachable_Inv _ _ R) as I.
  assert (I1 : Inv V w1) by now apply Inv_step.
  assert (I2 : Inv V w2) by now apply Inv_step.
  destruct (render_props_step V (with_final true (props w)) w I)
    as [Sv Sp Sh _ _ _ St].
  fold w1 in Sv, Sp, Sh, St.
  cbn [set_props violations props isHandlingViolation trace]
    in Sv, Sp, Sh, St.
  destruct (render_props_step V (props w) w1 I1) as [Sv2 Sp2 _ _ _ _ St2].
  fold w2 in Sv2, Sp2, St2.
  cbn [set_props violations props isHandlingViolation trace]
    in Sv2, Sp2, St2.
  clearbody w2. clearbody w1.
  assert (E1 : monitoring_eligible V (current w1) = false).
  { unfold monitoring_eligible; simpl. rewrite Sp. simpl.
    destruct V; [contradiction| |]; now rewrite andb_false_r. }
  destruct (not_eligible_empty V w1 I1 E1) as (Hl & Hi).
  split.
  - repeat split; try assumption. intros s. now apply not_eligible_idle.
  - split; [congruence|]. split; [exact Sp2|]. split; [congruence|].
    destruct I as [(Hlw & _) _ _]. destruct I2 as [(Hl2 & _) _ _].
    rewrite Hl2, Hlw. split.
    + rewrite !subscriptions_nonempty.
      rewrite (eligible_ignores_render V (current w) (current w2));
        [tauto|simpl; congruence|exact Sp2].
    + apply subscriptions_closure.
Qed.

(** X9 on the sample exam after one counted violation. *)
Lemma X9_final_submission_suspends_witness :
  violations
    (step Enhanced
       (Rerender (with_final true
                    (props (play Enhanced [tab_switch] (started Enhanced)))))
       (play Enhanced [tab_switch] (started Enhanced)))
  = violations (play Enhanced [tab_switch] (started Enhanced)).
Proof.
  destruct (X9_final_submission_suspends Enhanced
              (play Enhanced [tab_switch] (started Enhanced))
              ltac:(discriminate)
              (reachable_run Enhanced _ _
                 (reach_step Enhanced _ _ (reach_mount Enhanced _ _))))
    as ((_ & _ & H & _) & _).
  exact H.
Defined.

(** ** Accounting of the host calls *)

Lemma account_step (V : Variant) (a : Action) (w : World) :
  Inv V w -> passive a = true ->
  onWarning (props w) <> None -> onFinishExam (props w) <> None ->
  0 <= maxViolations (props w) -> 0 <= violations w ->
  Z.of_nat (List.length (warnings (trace w)))
  = Z.min (violations w) (maxViolations (props w)) ->
  Z.of_nat (finish_calls (trace w))
  = Z.max 0 (violations w - maxViolations (props w)) ->
  let w' := step V a w in
  props w' = props w /\ 0 <= violations w'
  /\ Z.of_nat (List.length (warnings (trace w')))
     = Z.min (violations w') (maxViolations (props w))
  /\ Z.of_nat (finish_calls (trace w'))
     = Z.max 0 (violations w' - maxViolations (props w)).
Proof.
  intros I N Hw Hf Hm Hv HW HF w'. subst w'.
  destruct a as [s|ms|e|g|g|p]; try discriminate N.
  - destruct (step_fire_effect V s w I) as [Q|C].
    + destruct Q as (Hp & _ & _ & Hv' & _ & _ & Hc).
      rewrite Hp, Hv', <- warnings_host, <- finish_calls_host, Hc,
        warnings_host, finish_calls_host. auto.
    + destruct C as (Hp & _ & _ & _ & _ & Hv' & _ & d & Hc & Hd).
      rewrite Hp, Hv', <- warnings_host, <- finish_calls_host, Hc,
        warnings_app, finish_calls_app, warnings_host, finish_calls_host,
        length_app.
      unfold verdict in Hd.
      destruct (onWarning (props w)); [|contradiction].
      destruct (onFinishExam (props w)); [|contradiction].
      destruct (Z.leb_spec (violations w + 1) (maxViolations (props w))).
      * destruct Hd as (m & -> & _).
        cbn [warnings finish_calls filter is_finish List.length].
        repeat split; lia.
      * subst d. cbn [warnings finish_calls filter is_finish List.length].
        repeat split; lia.
  - destruct (elapse_spec ms w (inv_latch _ _ I))
      as (_ & _ & _ & Hv' & Hp & Ht & _).
    unfold step. rewrite Hv', Hp, Ht. auto.
  - simpl. auto.
Qed.

(** X10. Every counted violation is reported to the host exactly once: in a
    session started with both callbacks supplied and a limit that is not
    negative, while only the browser acts (signals of any kind at any time,
    time passing, ambient changes), the number of calls of [onWarning] is the
    smaller of [violations] and the limit, and the number of calls of
    [onFinishExam] is what [violations] exceeds the limit by. *)
Theorem X10_counts_are_reported_once
    (V : Variant) (p : Props) (e : Env) (acts : list Action) :
  onWarning p <> None -> onFinishExam p <> None -> 0 <= maxViolations p ->
  forallb passive acts = true ->
  let w := run V acts (step V (CallStartExam true) (mount V p e)) in
  0 <= violations w
  /\ Z.of_nat (List.length (warnings (trace w)))
     = Z.min (violations w) (maxViolations p)
  /\ Z.of_nat (finish_calls (trace w))
     = Z.max 0 (violations w - maxViolations p).
Proof.
  intros Hw Hf Hm N w.
  assert (H : forall acts w0,
             forallb passive acts = true ->
             Inv V w0 -> props w0 = p -> 0 <= violations w0 ->
             Z.of_nat (List.length (warnings (trace w0)))
             = Z.min (violations w0) (maxViolations p) ->
             Z.of_nat (finish_calls (trace w0))
             = Z.max 0 (violations w0 - maxViolations p) ->
             0 <= violations (run V acts w0)
             /\ Z.of_nat (List.length (warnings (trace (run V acts w0))))
                = Z.min (violations (run V acts w0)) (maxViolations p)
             /\ Z.of_nat (finish_calls (trace (run V acts w0)))
                = Z.max 0 (violations (run V acts w0) - maxViolations p)).
  { clear - Hw Hf Hm.
    induction acts as [|a acts IH]; intros w0 N I Hp Hv HW HF; [simpl; auto|].
    simpl in N. apply andb_true_iff in N. destruct N as (Na & N).
    change (run V (a :: acts) w0) with (run V acts (step V a w0)).
    destruct (account_step V a w0 I Na) as (Hp' & Hv' & HW' & HF');
      rewrite ?Hp; try assumption.
    rewrite Hp in HW', HF'.
    apply IH; try assumption; [now apply Inv_step|congruence]. }
  destruct (start_spec V p e) as (I0 & Hp0 & Hv0 & _ & Hc0).
  apply H; try assumption; try lia.
  - rewrite <- warnings_host, Hc0, Hv0. simpl. lia.
  - rewrite <- finish_calls_host, Hc0, Hv0. simpl. lia.
Qed.

(** X10 on the sample exam: a burst, then four spaced tab switches. *)
Lemma X10_counts_are_reported_once_witness :
  let w := run Toggle
             (flat_map timed_actions
                [quick_tab_switch; quick_tab_switch; tab_switch; tab_switch;
                 tab_switch; tab_switch])
             (step Toggle (CallStartExam true)
                (mount Toggle sample_props sample_env)) in
  Z.of_nat (finish_calls (trace w))
  = Z.max 0 (violations w - maxViolations sample_props).
Proof.
  exact (proj2 (proj2 (X10_counts_are_reported_once Toggle sample_props
                         sample_env
                         (flat_map timed_actions
                            [quick_tab_switch; quick_tab_switch; tab_switch;
                             tab_switch; tab_switch; tab_switch])
                         ltac:(discriminate) ltac:(discriminate)
                         ltac:(discriminate) eq_refl))).
Defined.

(** ** The fullscreen lifecycle, further *)

(** X13. [reEnterFullScreen] always resolves and never touches the count,
    the latch, the listeners or the warnings. When it does not reach the
    request (already fullscreen, or security disabled where the hook has the
    switch) it changes nothing; when the request is granted the document is
    fullscreen and only the request was made; and [onFinishExam] is called,
    once, exactly when the request is reached and rejected and the callback
    was supplied. *)
Theorem X13_reEnterFullScreen_outcomes (V : Variant) (w : World) (g : bool) :
  let c := current w in
  let w' := step V (CallReEnterFullScreen g) w in
  fst (reEnterFullScreen V c g w) = Normal tt
  /\ violations w' = violations w
  /\ isHandlingViolation w' = isHandlingViolation w
  /\ listeners w' = listeners w
  /\ warnings (trace w') = warnings (trace w)
  /\ (requests_fullscreen V c w = false -> w' = w)
  /\ (requests_fullscreen V c w = true -> g = true ->
      w' = set_env (set_fullscreenElement true (env w))
             (set_trace (trace w ++ [RequestFullscreen]) w))
  /\ finish_calls (trace w')
     = (finish_calls (trace w)
        + (if requests_fullscreen V c w && negb g
           then match onFinishExam (props w) with Some _ => 1 | None => 0 end
           else 0))%nat.
Proof.
  intros c w'. subst c w'.
  destruct (reEnterFullScreen_spec V (current w) g w)
    as (H1 & H2 & H3 & _ & _ & _ & _ & H4 & _ & _ & _ & H5).
  split; [exact H1|]. split; [exact H2|]. split; [exact H3|].
  split; [exact H4|]. split; [exact H5|].
  clear. unfold step, requests_fullscreen.
  destruct w as [v h r p n cl ls ivs nid ts t en tr].
  destruct en as [hid fs ow iw oh ih]. unfold current. simpl.
  destruct V, g, fs; try destruct (isSecurityEnabled p) eqn:E;
    unfold reEnterFullScreen, BasicHook.reEnterFullScreen,
      EnhancedHook.reEnterFullScreen, ToggleHook.reEnterFullScreen,
      bind, read, when, try_catch; simpl; rewrite ?E; simpl;
    try destruct (onFinishExam p); simpl;
    rewrite ?finish_calls_app; simpl; rewrite ?Nat.add_0_r;
    (split; [try reflexivity; try discriminate|]);
    (split; [try reflexivity; try discriminate|]);
    reflexivity.
Qed.

(** X13 on the sample exam, windowed: granted, then refused. *)
Lemma X13_reEnterFullScreen_outcomes_witness :
  fullscreenElement
    (env (step Toggle (CallReEnterFullScreen true)
            (set_env windowed (started Toggle)))) = true
  /\ finish_calls
       (trace (step Toggle (CallReEnterFullScreen false)
                 (set_env windowed (started Toggle)))) = 1%nat.
Proof.
  split.
  - destruct (X13_reEnterFullScreen_outcomes Toggle
                (set_env windowed (started Toggle)) true)
      as (_ & _ & _ & _ & _ & _ & H & _).
    rewrite (H eq_refl eq_refl). reflexivity.
  - destruct (X13_reEnterFullScreen_outcomes Toggle
                (set_env windowed (started Toggle)) false)
      as (_ & _ & _ & _ & _ & _ & _ & H).
    exact H.
Defined.

Lemma startExam_granted (V : Variant) (c : Closure) (w : World) :
  (V = Enhanced \/ isSecurityEnabled (cl_props c) = true \/ V = Basic) ->
  let r := startExam V c true w in
  (V <> Enhanced ->
   fst r = Normal (Some true)
   /\ fullscreenElement (env (snd r)) = true
   /\ trace (snd r) = (trace w ++ [RequestFullscreen])%list)
  /\ (V = Enhanced -> env (snd r) = env w /\ trace (snd r) = trace w).
Proof.
  intros H. destruct w as [v h rf p n cl ls ivs nid ts t en tr].
  destruct V; simpl.
  - split; [intros _; repeat split|discriminate].
  - split; [intros N; now contradiction N|intros _; split; reflexivity].
  - destruct H as [H|[H|H]]; try discriminate H.
    unfold ToggleHook.startExam. rewrite H. simpl.
    split; [intros _; repeat split|discriminate].
Qed.

(** X14. From any reachable world whose arguments allow monitoring, a
    [startExam] whose request is granted puts the count at 0 and leaves
    monitoring active, every listener closing over the new count; it leaves
    the latch as it was. In the hooks that request fullscreen it resolves to
    [true], the document is fullscreen and the request is all it emitted; in
    [Enhanced] it requests nothing. *)
Theorem X14_granted_start_activates (V : Variant) (w : World) :
  reachable V w -> monitored_props V (props w) ->
  let w' := step V (CallStartExam true) w in
  violations w' = 0
  /\ listeners w' <> []
  /\ Forall (fun l => cl_violations (l_closure l) = 0) (listeners w')
  /\ isHandlingViolation w' = isHandlingViolation w
  /\ (V <> Enhanced ->
      fst (startExam V (current w) true w) = Normal (Some true)
      /\ fullscreenElement (env w') = true
      /\ trace w' = (trace w ++ [RequestFullscreen])%list)
  /\ (V = Enhanced -> env w' = env w /\ trace w' = trace w).
Proof.
  intros R M w'. pose proof (reachable_Inv _ _ R) as I.
  assert (I' : Inv V w') by now apply Inv_step.
  destruct (startExam_step V true w I) as [Sv Sp Sh _ _ Se St].
  fold w' in Sv, Sp, Sh, Se, St.
  destruct (startExam_spec V (current w) true w)
    as (Hv & _ & _ & Hh & _ & _ & Hp & _).
  assert (Hst : match V with
                | Basic => true
                | Enhanced => true
                | Toggle => negb (isSecurityEnabled (cl_props (current w)))
                            || true
                end = true).
  { destruct V; try reflexivity. apply orb_true_r. }
  rewrite Hst in Hv.
  assert (Hg : V = Enhanced \/ isSecurityEnabled (cl_props (current w)) = true
               \/ V = Basic).
  { destruct V; auto. right. left. apply M. }
  destruct (startExam_granted V (current w) w Hg) as (G1 & G2).
  clearbody w'.
  assert (Hv' : violations w' = 0) by congruence.
  assert (E : monitoring_eligible V (current w') = true).
  { apply eligible_active; [|lia]. rewrite Sp, Hp. exact M. }
  destruct I' as [(Hl & _) _ _].
  split; [exact Hv'|]. split; [|split; [|split; [congruence|split]]].
  - rewrite Hl. now apply subscriptions_nonempty.
  - rewrite Hl. eapply Forall_impl; [|apply subscriptions_closure].
    intros l ->. exact Hv'.
  - intros N. destruct (G1 N) as (F1 & F2 & F3).
    rewrite Se, St. auto.
  - intros N. destruct (G2 N) as (F1 & F2). rewrite Se, St. auto.
Qed.

(** X14 from the sample exam after two counted violations. *)
Lemma X14_granted_start_activates_witness :
  violations
    (step Toggle (CallStartExam true)
       (play Toggle [tab_switch; tab_switch] (started Toggle))) = 0
  /\ listeners
       (step Toggle (CallStartExam true)
          (play Toggle [tab_switch; tab_switch] (started Toggle))) <> [].
Proof.
  destruct (X14_granted_start_activates Toggle
              (play Toggle [tab_switch; tab_switch] (started Toggle))
              (reachable_run Toggle _ _
                 (reach_step Toggle _ _ (reach_mount Toggle _ _))))
    as (H1 & H2 & _).
  - vm_compute. split; reflexivity.
  - exact (conj H1 H2).
Defined.

(** ** The registry of listeners *)

(** X5. Renders never pile up listeners and never leave a stale one: in
    every reachable world all the listeners and the interval close over the
    latest render (its count and its arguments), there are none or exactly
    the eight ([Basic], [Toggle]) or ten ([Enhanced]) the effect adds, at
    most one of them answers a given event on a given target, and at most
    one interval is active. *)
Theorem X5_listeners_of_latest_render (V : Variant) (w : World) :
  reachable V w ->
  Forall (fun l => l_closure l = current w) (listeners w)
  /\ Forall (fun ic => snd ic = current w) (intervals w)
  /\ (List.length (intervals w) <= 1)%nat
  /\ (listeners w = []
      \/ List.length (listeners w)
         = match V with Enhanced => 10%nat | _ => 8%nat end)
  /\ forall tg e,
       (List.length (filter (listens tg e) (listeners w)) <= 1)%nat.
Proof.
  intros R. pose proof (reachable_Inv _ _ R) as [(Hl & _ & Hi) _ _].
  rewrite Hl. split; [apply subscriptions_closure|].
  split; [|split; [|split]].
  - destruct (has_interval V (current w)).
    + destruct Hi as (id & _ & ->). repeat constructor.
    + rewrite Hi. constructor.
  - destruct (has_interval V (current w)).
    + destruct Hi as (id & _ & ->). simpl. lia.
    + rewrite Hi. simpl. lia.
  - unfold subscriptions.
    destruct (monitoring_eligible V (current w)); [right|now left].
    destruct V; reflexivity.
  - intros tg e. unfold subscriptions, listens.
    destruct (monitoring_eligible V (current w)); [|simpl; lia].
    destruct V, tg, (ev_type e); simpl; lia.
Qed.

(** X5 after three renders of the sample exam. *)
Lemma X5_listeners_of_latest_render_witness :
  List.length
    (listeners (play Enhanced [tab_switch; tab_switch] (started Enhanced)))
  = 10%nat.
Proof.
  destruct (X5_listeners_of_latest_render Enhanced
              (play Enhanced [tab_switch; tab_switch] (started Enhanced))
              (reachable_run Enhanced _ _
                 (reach_step Enhanced _ _ (reach_mount Enhanced _ _))))
    as (_ & _ & _ & [H|H] & _).
  - vm_compute in H. discriminate H.
  - exact H.
Defined.

(** X6. When the component unmounts from any reachable world, the cleanup
    removes every listener and clears the interval, so that no signal
    changes anything afterwards; the count, the latch and the trace are as
    they were. *)
Theorem X6_unmount_releases_everything (V : Variant) (w : World) :
  reachable V w ->
  let w' := unmount V w in
  listeners w' = [] /\ intervals w' = []
  /\ violations w' = violations w
  /\ isHandlingViolation w' = isHandlingViolation w
  /\ trace w' = trace w
  /\ forall s, fire V s w' = w'.
Proof.
  intros R w'. pose proof (reachable_Inv _ _ R) as [G _ _].
  assert (H : listeners w' = [] /\ intervals w' = []
              /\ violations w' = violations w
              /\ isHandlingViolation w' = isHandlingViolation w
              /\ trace w' = trace w).
  { subst w'. unfold unmount. pose proof G as (Hl & Hc & Hi). rewrite Hc.
    destruct (monitoring_eligible V (current w)) eqn:E.
    - rewrite (cleanup_spec V (current w) w G E). simpl. auto.
    - unfold subscriptions in Hl. rewrite E in Hl.
      assert (Hi' : intervals w = []).
      { unfold has_interval in Hi. destruct V; try rewrite E in Hi; exact Hi. }
      simpl. auto. }
  destruct H as (Hl & Hi & Hv & Hh & Ht).
  repeat split; try assumption.
  intros s. destruct s as [tg e|]; unfold fire, dispatchEvent, fire_intervals;
    rewrite ?Hl, ?Hi; reflexivity.
Qed.

(** X6 on the sample exam. *)
Lemma X6_unmount_releases_everything_witness :
  listeners (unmount Enhanced (started Enhanced)) = []
  /\ intervals (unmount Enhanced (started Enhanced)) = [].
Proof.
  destruct (X6_unmount_releases_everything Enhanced (started Enhanced)
              (reach_step Enhanced _ _ (reach_mount Enhanced _ _)))
    as (H1 & H2 & _).
  exact (conj H1 H2).
Defined.

(** X15. In the [Basic] and [Toggle] hooks, while monitoring is active and
    whatever the latch: a context-menu event is default-prevented and nothing
    else happens; a copy, paste or cut is default-prevented and the alert
    "This action is disabled during the exam." is shown; a drag start or a
    select start is not handled at all. None of them touches the count or
    calls the host. *)
Theorem X15_suppressed_actions_basic_toggle
    (V : Variant) (w : World) (e : Event) :
  V <> Enhanced -> reachable V w -> listeners w <> [] ->
  let w' := step V (Fire (Browser document e)) w in
  (ev_type e = contextmenu ->
   w' = set_trace (trace w ++ [PreventDefault contextmenu]) w)
  /\ (clipboard (ev_type e) = true ->
      w' = set_trace
             (trace w ++ [PreventDefault (ev_type e);
                          Alert "This action is disabled during the exam."])
             w)
  /\ (ev_type e = dragstart \/ ev_type e = selectstart -> w' = w).
Proof.
  intros HV R Hne w'. pose proof (reachable_Inv _ _ R) as I.
  pose proof (listeners_eligible _ _ I Hne) as E.
  destruct I as [(Hl & _) _ _].
  subst w'. unfold step, fire, dispatchEvent. rewrite Hl.
  unfold subscriptions. rewrite E.
  destruct V; [|contradiction|];
    (split; [|split]); intros Hty;
    try (destruct Hty as [Hty|Hty]);
    destruct (ev_type e) eqn:Ety; try discriminate Hty;
    unfold listens; rewrite Ety;
    cbn [filter l_target l_type Target_eqb EventType_eqb andb fold_left
         call_listener l_fn l_closure BasicHook.call ToggleHook.call];
    unfold BasicHook.handleContextMenu, BasicHook.preventAction,
      ToggleHook.handleContextMenu, ToggleHook.preventAction,
      e_preventDefault, alert, emit, modify, bind; rewrite ?Ety;
    cbn [snd]; rewrite ?set_trace_twice, <- ?app_assoc; cbn [app];
    first [ apply trace_only_step
          | unfold rerender; now rewrite Z.eqb_refl ].
Qed.

(** X15 on the sample exam of the [Toggle] hook, the latch being set. *)
Lemma X15_suppressed_actions_basic_toggle_witness :
  step Toggle (Fire (Browser document (plain_event paste)))
    (play Toggle [tab_switch] (started Toggle))
  = set_trace
      (trace (play Toggle [tab_switch] (started Toggle))
       ++ [PreventDefault paste;
           Alert "This action is disabled during the exam."])
      (play Toggle [tab_switch] (started Toggle)).
Proof.
  refine (proj1 (proj2 (X15_suppressed_actions_basic_toggle Toggle
                          (play Toggle [tab_switch] (started Toggle))
                          (plain_event paste) ltac:(discriminate)
                          (reachable_run Toggle _ _
                             (reach_step Toggle _ _ (reach_mount Toggle _ _)))
                          _)) eq_refl).
  vm_compute. discriminate.
Defined.

(** ** The layout *)

(** X16. [Applayout] without a user redirects to the login page whatever the
    path. With a user, every path that begins with "/exam" (the exam routes,
    but also a path such as "/examples") is laid out without the navigation
    bar, without the header and without the paddings reserved for them;
    every other path gets the bar, the header and both paddings. *)
Theorem X16_layout_chrome {User : Type} (u : User) :
  (forall pathname,
     AppLayout.Applayout (@None User) pathname = AppLayout.Navigate "/login")
  /\ (forall rest,
        AppLayout.Applayout (Some u) ("/exam" ++ rest)%string
        = AppLayout.Layout false " h-screen overflow-y-auto bg-[#EEF1F9]"
            false "pt-0")
  /\ (forall pathname,
        String.prefix "/exam" pathname = false ->
        AppLayout.Applayout (Some u) pathname
        = AppLayout.Layout true
            "lg:pl-20 h-screen overflow-y-auto bg-[#EEF1F9]" true "pt-[70px]").
Proof.
  split; [reflexivity|]. split.
  - intros rest. unfold AppLayout.Applayout, AppLayout.isExamPage.
    assert (H : String.prefix "/exam" ("/exam" ++ rest)%string = true).
    { simpl. now destruct rest. }
    rewrite H. reflexivity.
  - intros pathname H. unfold AppLayout.Applayout, AppLayout.isExamPage.
    rewrite H. reflexivity.
Qed.

(** X16 on the dashboard. *)
Lemma X16_layout_chrome_witness :
  AppLayout.Applayout (Some tt) "/dashboard"
  = AppLayout.Layout true "lg:pl-20 h-screen overflow-y-auto bg-[#EEF1F9]"
      true "pt-[70px]".
Proof.
  exact (proj2 (proj2 (X16_layout_chrome tt)) "/dashboard" eq_refl).
Defined.


(** ** Keyboard chords *)

Lemma prevents_block (V : Variant) (c : Closure) (r : string) (pd : Effect) :
  prevents pd (emit pd ;; handleViolation V c r).
Proof.
  intros w. destruct (isHandlingViolation w) eqn:L.
  - exists (set_trace (trace w ++ [pd]) w), [].
    split.
    + unfold bind, emit, modify.
      now rewrite handleViolation_closed by exact L.
    + split; [reflexivity|]. intros _. split; [now exists 1%nat|].
      split; [reflexivity|exact L].
  - destruct (handleViolation_open V c r (set_trace (trace w ++ [pd]) w) L)
      as (d & E & _).
    exists (counted_world c d (set_trace (trace w ++ [pd]) w)), d.
    split.
    + unfold bind, emit, modify. now rewrite E.
    + split; [simpl; now rewrite <- app_assoc|intros L'; congruence].
Qed.

Lemma prevents_appends (pd : Effect) (m : M unit) :
  prevents pd m -> appends pd m.
Proof.
  intros H w. destruct (H w) as (w' & tr & E & A).
  exists w', (pd :: tr). auto.
Qed.

Lemma appends_when (pd : Effect) (b : bool) (m : M unit) :
  appends pd m -> appends pd (when b m).
Proof.
  destruct b; [auto|]. intros _ w. exists w, []. split; [reflexivity|].
  split; [now rewrite app_nil_r|]. intros L. split; [now exists 0%nat|auto].
Qed.

Lemma prevents_seq (pd : Effect) (m1 m2 : M unit) :
  prevents pd m1 -> appends pd m2 -> prevents pd (m1 ;; m2).
Proof.
  intros H1 H2 w. destruct (H1 w) as (w1 & t1 & E1 & T1 & C1).
  destruct (H2 w1) as (w2 & t2 & E2 & T2 & C2).
  exists w2, (t1 ++ t2)%list. split; [unfold bind; now rewrite E1|].
  split.
  - rewrite T2, T1, <- app_assoc. reflexivity.
  - intros L. destruct (C1 L) as ((n1 & N1) & V1 & L1).
    destruct (C2 L1) as ((n2 & N2) & V2 & L2).
    split; [|split; [congruence|exact L2]].
    exists (n1 + n2)%nat. rewrite repeat_app, <- N1, <- N2. reflexivity.
Qed.

Lemma prevents_skip (pd : Effect) (m1 m2 : M unit) :
  prevents pd m2 -> prevents pd (when false m1 ;; m2).
Proof. intros H. exact H. Qed.

Lemma prevents_when (pd : Effect) (m : M unit) :
  prevents pd m -> prevents pd (when true m).
Proof. intros H. exact H. Qed.

Lemma appends_tail (pd : Effect) (b : bool) (m1 m2 : M unit) :
  appends pd m1 -> appends pd m2 -> appends pd (when b m1 ;; m2).
Proof.
  intros H1 H2 w.
  destruct (appends_when pd b m1 H1 w) as (w1 & t1 & E1 & T1 & C1).
  destruct (H2 w1) as (w2 & t2 & E2 & T2 & C2).
  exists w2, (t1 ++ t2)%list. split; [unfold bind; now rewrite E1|].
  split.
  - rewrite T2, T1, <- app_assoc. reflexivity.
  - intros L. destruct (C1 L) as ((n1 & N1) & V1 & L1).
    destruct (C2 L1) as ((n2 & N2) & V2 & L2).
    split; [|split; [congruence|exact L2]].
    exists (n1 + n2)%nat. rewrite repeat_app, <- N1, <- N2. reflexivity.
Qed.

Ltac prevent_block :=
  lazymatch goal with
  | |- prevents _ (bind (emit ?pd) (fun _ => BasicHook.handleViolation ?c ?r)) =>
      exact (prevents_block Basic c r pd)
  | |- prevents _ (bind (emit ?pd) (fun _ => EnhancedHook.handleViolation ?c ?r)) =>
      exact (prevents_block Enhanced c r pd)
  | |- prevents _ (bind (emit ?pd) (fun _ => ToggleHook.handleViolation ?c ?r)) =>
      exact (prevents_block Toggle c r pd)
  end.

Ltac prevent_step :=
  lazymatch goal with
  | |- appends _ (when _ _) => apply appends_when
  | |- appends _ (bind (when _ _) _) => apply appends_tail
  | |- appends _ (bind (emit _) _) => apply prevents_appends; prevent_block
  | |- prevents _ (bind (emit _) _) => prevent_block
  | |- prevents _ (when true _) => apply prevents_when
  | |- prevents _ (bind (when true _) _) => apply prevents_seq
  | |- prevents _ (bind (when false _) _) => apply prevents_skip
  | |- _ -> prevents _ (bind (when true _) _) => intros _
  | |- _ -> prevents _ (when true _) => intros _
  | |- _ -> prevents _ (bind (when false _) _) =>
      let T := fresh in intros T; apply prevents_skip; revert T
  | |- _ -> prevents _ (when false _) =>
      let T := fresh in intros T; discriminate T
  | |- _ -> prevents _ (bind (when ?b _) _) => destruct b
  | |- _ -> prevents _ (when ?b _) => destruct b
  end.

Lemma handleKeyDown_prevents (V : Variant) (c : Closure) (e : Event) :
  chord V e = true ->
  prevents (PreventDefault (ev_type e))
    (call_listener V (mkListener document keydown fn_handleKeyDown c) e).
Proof.
  destruct V;
    cbn [call_listener l_fn l_closure BasicHook.call EnhancedHook.call
         ToggleHook.call];
    unfold chord, BasicHook.handleKeyDown, EnhancedHook.handleKeyDown,
      ToggleHook.handleKeyDown, e_preventDefault.
  - repeat prevent_step.
  - repeat prevent_step.
  - repeat prevent_step.
Qed.

(** X3. Default prevention of a chord is not debounced: while monitoring is
    active, the first thing a keydown that is one of the hook's chords does
    is [e.preventDefault()], whatever the latch; and when the latch is set
    that is all it does (once for each test of [handleKeyDown] that matches):
    the count does not move. *)
Theorem X3_chord_prevented_even_when_debounced
    (V : Variant) (w : World) (e : Event) :
  reachable V w -> listeners w <> [] ->
  ev_type e = keydown -> chord V e = true ->
  let w' := step V (Fire (Browser document e)) w in
  (exists tr, trace w' = (trace w ++ PreventDefault keydown :: tr)%list)
  /\ (isHandlingViolation w = true ->
      (exists n, trace w'
                 = (trace w ++ repeat (PreventDefault keydown) (S n))%list)
      /\ violations w' = violations w).
Proof.
  intros R Hne Ety Hch w'. pose proof (reachable_Inv _ _ R) as I.
  pose proof (listeners_eligible _ _ I Hne) as E.
  pose proof (inv_gateway _ _ I) as G.
  assert (F : fire V (Browser document e) w
              = snd (call_listener V
                       (mkListener document keydown fn_handleKeyDown
                          (current w)) e w)).
  { destruct G as (Hl & _). unfold fire, dispatchEvent. rewrite Hl.
    unfold subscriptions. rewrite E.
    destruct V; unfold listens; rewrite Ety; reflexivity. }
  destruct (handleKeyDown_prevents V (current w) e Hch w)
    as (w1 & tr & E1 & T1 & C1).
  rewrite E1 in F. cbn [snd] in F. rewrite Ety in T1, C1.
  assert (S1 : same_session w1 w').
  { subst w'. unfold step. rewrite F. apply rerender_same.
    rewrite <- F.
    destruct (fire_effect V (Browser document e) w G) as [Q|C];
      [destruct Q as (g & _)|destruct C as (g & _)];
      now apply gateway_ok_transport with w. }
  destruct S1 as [Sv _ _ _ _ _ St]. clearbody w'.
  split.
  - exists tr. now rewrite St.
  - intros L. destruct (C1 L) as ((n & N) & V1 & _).
    split; [|congruence].
    destruct n as [|n]; [discriminate N|]. exists n. now rewrite St, T1, N.
Qed.

(** X3 on the sample exam of the [Basic] hook: Ctrl+Alt+Tab, which two of
    its tests match, while the latch is set. *)
Lemma X3_chord_prevented_even_when_debounced_witness :
  violations
    (step Basic
       (Fire (Browser document (mkEvent keydown true true false "Tab")))
       (play Basic [tab_switch] (started Basic)))
  = violations (play Basic [tab_switch] (started Basic)).
Proof.
  refine (proj2 (proj2 (X3_chord_prevented_even_when_debounced Basic
                          (play Basic [tab_switch] (started Basic))
                          (mkEvent keydown true true false "Tab")
                          (reachable_run Basic _ _
                             (reach_step Basic _ _ (reach_mount Basic _ _)))
                          _ eq_refl eq_refl) _)).
  - vm_compute. discriminate.
  - vm_compute. reflexivity.
Defined.

Lemma lower_fixed_point (k : string) :
  In k ["t"; "n"; "w"] -> Js.toLowerCase k = k.
Proof.
  intros [<-|[<-|[<-|[]]]]; reflexivity.
Qed.

(** X4. The letter chords are case-insensitive in [Enhanced] only: a keydown
    with Ctrl held whose key is not in lower case but lowers to "t", "n" or
    "w" (Caps Lock or Shift) is counted by [Enhanced] when monitoring is
    active and the latch open, and is ignored by [Basic] and [Toggle], whose
    tests compare the key with the lower-case letter: there it changes
    nothing. *)
Theorem X4_letter_chords_and_case (e : Event) :
  ev_type e = keydown -> ctrlKey e = true ->
  key e <> Js.toLowerCase (key e) ->
  In (Js.toLowerCase (key e)) ["t"; "n"; "w"] ->
  (forall w, reachable Enhanced w -> listeners w <> [] ->
             isHandlingViolation w = false ->
             violations (step Enhanced (Fire (Browser document e)) w)
             = violations w + 1)
  /\ (forall V w, V <> Enhanced -> reachable V w ->
                  step V (Fire (Browser document e)) w = w).
Proof.
  intros Ety Hc Hup Hin.
  assert (Hn : forall k, In k ["t"; "n"; "w"; "Tab"] ->
                          String.eqb (key e) k = false).
  { intros k Hk. apply String.eqb_neq. intros Hkey.
    destruct Hk as [Hk|[Hk|[Hk|[Hk|[]]]]]; subst k;
      try (rewrite Hkey in Hup; apply Hup; reflexivity).
    rewrite Hkey in Hin. simpl in Hin.
    destruct Hin as [H|[H|[H|[]]]]; discriminate H. }
  pose proof (Hn "t" ltac:(simpl; auto)) as Ht.
  pose proof (Hn "n" ltac:(simpl; auto)) as Hnn.
  pose proof (Hn "w" ltac:(simpl; auto)) as Hw.
  pose proof (Hn "Tab" ltac:(simpl; auto 6)) as Htab.
  split.
  - intros w R Hne L. pose proof (reachable_Inv _ _ R) as I.
    pose proof (listeners_eligible _ _ I Hne) as E.
    destruct (step_fire_counts Enhanced (Browser document e) w I E L)
      as (_ & _ & _ & _ & _ & Hv & _); [|exact Hv].
    unfold triggers. rewrite Ety. unfold chord. rewrite Hc.
    assert (Hi : Js.includes ["t"; "n"; "w"; "p"; "s"; "o"; "u"]
                   (Js.toLowerCase (key e)) = true).
    { simpl in Hin. destruct Hin as [<-|[<-|[<-|[]]]]; reflexivity. }
    rewrite Hi. reflexivity.
  - intros V w HV R. apply untriggered_unchanged.
    + now apply reachable_Inv.
    + unfold triggers. rewrite Ety. unfold chord.
      destruct V; [|contradiction|]; rewrite Ht, Hnn, Hw, Htab, Hc;
        simpl; now rewrite ?andb_false_r.
    + intros e' H. inversion H; subst e'. rewrite Ety.
      destruct V; reflexivity.
Qed.

(** X4 with Ctrl+"T" on the two sample exams. *)
Lemma X4_letter_chords_and_case_witness :
  violations
    (step Enhanced
       (Fire (Browser document (mkEvent keydown true false true "T")))
       (started Enhanced)) = 1
  /\ step Basic
       (Fire (Browser document (mkEvent keydown true false true "T")))
       (started Basic) = started Basic.
Proof.
  destruct (X4_letter_chords_and_case (mkEvent keydown true false true "T")
              eq_refl eq_refl ltac:(discriminate)
              (or_introl eq_refl)) as (H1 & H2).
  split.
  - exact (H1 (started Enhanced)
             (reach_step Enhanced _ _ (reach_mount Enhanced _ _))
             ltac:(discriminate) eq_refl).
  - exact (H2 Basic (started Basic) ltac:(discriminate)
             (reach_step Basic _ _ (reach_mount Basic _ _))).
Defined.

(** ** The count *)

Lemma count_moves_by_one (V : Variant) (a : Action) (w : World) :
  Inv V w -> no_start a = true ->
  violations w <= violations (step V a w) <= violations w + 1.
Proof.
  intros I N. destruct a as [s|ms|e|g|g|p]; try discriminate N.
  - destruct (step_fire_effect V s w I) as [Q|C].
    + destruct Q as (_ & _ & _ & Hv & _). lia.
    + destruct C as (_ & _ & _ & _ & _ & Hv & _). lia.
  - destruct (elapse_spec ms w (inv_latch _ _ I)) as (_ & _ & _ & Hv & _).
    unfold step. lia.
  - simpl. lia.
  - destruct (reEnterFullScreen_spec V (current w) g w) as (_ & Hv & _).
    unfold step. lia.
  - destruct (render_props_step V p w I) as [Sv _ _ _ _ _ _].
    rewrite Sv. simpl. lia.
Qed.

(** X17. The count is never lost: in every reachable world [violations] is
    -1 or more, each step other than a call of [startExam] leaves it as it is
    or adds one, and so over any sequence of such steps it never goes down
    and rises by at most the number of steps. *)
Theorem X17_count_never_goes_down
    (V : Variant) (w : World) (acts : list Action) :
  reachable V w -> forallb no_start acts = true ->
  -1 <= violations w
  /\ violations w <= violations (run V acts w)
     <= violations w + Z.of_nat (List.length acts).
Proof.
  intros R N. pose proof (reachable_Inv _ _ R) as I.
  split; [apply (inv_count _ _ I)|].
  clear R. revert w I N.
  induction acts as [|a acts IH]; intros w I N; [simpl; lia|].
  simpl in N. apply andb_true_iff in N. destruct N as (Na & N).
  change (run V (a :: acts) w) with (run V acts (step V a w)).
  pose proof (count_moves_by_one V a w I Na).
  pose proof (IH (step V a w) (Inv_step V a w I) N).
  simpl List.length. lia.
Qed.

(** X17 on the sample exam, over a change of arguments and a refused
    [reEnterFullScreen]. *)
Lemma X17_count_never_goes_down_witness :
  violations (play Toggle [tab_switch] (started Toggle))
  <= violations
       (run Toggle
          [Rerender (with_final true sample_props);
           CallReEnterFullScreen false; Rerender sample_props;
           Elapse 600; Fire (signal tab_switch)]
          (play Toggle [tab_switch] (started Toggle))).
Proof.
  exact (proj1 (proj2 (X17_count_never_goes_down Toggle
                         (play Toggle [tab_switch] (started Toggle))
                         [Rerender (with_final true sample_props);
                          CallReEnterFullScreen false; Rerender sample_props;
                          Elapse 600; Fire (signal tab_switch)]
                         (reachable_run Toggle _ _
                            (reach_step Toggle _ _ (reach_mount Toggle _ _)))
                         eq_refl))).
Defined.
